(** * Observability playground: toy HTTP services emitting OpenTelemetry spans

    A shallow embedding of the four Go programs of the repository:

    - [App]        src/app/main.go, first program  (plain HTTP server, no tracing)
    - [TracedApp]  src/app/main.go, second program (traced server + self-traffic generator)
    - [Sender]     src/docker-compose.yml, second document (sender/main.go: generator only)
    - [Receiver]   src/receiver/main.go (traced server)

    The Go runtime and the libraries the programs call (net/http, log,
    math/rand, time, os, OpenTelemetry) are modelled in [Go] as operations of
    a state-and-panic monad over an explicit [World]. *)

From Stdlib Require Import ZArith Lia.
From stdpp Require Import gmap strings list pretty.

Local Open Scope Z_scope.
Local Open Scope string_scope.

(* ===================================================================== *)
(** ** The Go runtime and library surface used by the programs            *)
(* ===================================================================== *)

Module Go.

(** [math/rand]: the process-wide pseudo-random source.  [rand.Seed] fixes the
    state from a 64-bit seed; [rand.Intn n], for [0 < n], returns a value of
    the half-open interval [[0, n)] and advances the state. *)
Class RandSource := {
  rng_state : Type;
  rand_Seed : Z -> rng_state;
  rand_draw : Z -> rng_state -> Z * rng_state;
  rand_draw_range : forall n g, 0 < n -> 0 <= fst (rand_draw n g) < n
}.

(** A scripted source: the state is the list of raw values still to come. *)
Definition scripted_draw (n : Z) (g : list Z) : Z * list Z :=
  match g with
  | [] => (0, [])
  | x :: g' => (x mod n, g')
  end.

(** A linear congruential source on 63 bits. *)
Definition lcg_next (g : Z) : Z := (g * 6364136223846793005 + 1442695040888963407) mod 2 ^ 63.

Definition lcg_draw (n : Z) (g : Z) : Z * Z := (Z.shiftr (lcg_next g) 32 mod n, lcg_next g).

Definition ScriptedSource : RandSource :=
  {| rng_state := list Z;
     rand_Seed := fun seed => [seed];
     rand_draw := scripted_draw;
     rand_draw_range := ltac:(intros n [|x g] Hn; simpl;
                              [lia | apply Z.mod_pos_bound; lia]) |}.

Definition LcgSource : RandSource :=
  {| rng_state := Z;
     rand_Seed := fun seed => seed mod 2 ^ 63;
     rand_draw := lcg_draw;
     rand_draw_range := ltac:(intros n g Hn; simpl; apply Z.mod_pos_bound; lia) |}.

Definition LF : string := String (Ascii.ascii_of_nat 10) EmptyString.

(** [time.Duration]: signed 64-bit nanoseconds. *)
Definition wrap64 (x : Z) : Z := (x + 2 ^ 63) mod 2 ^ 64 - 2 ^ 63.
Definition Millisecond : Z := 1000000.
Definition Second : Z := 1000000000.
Definition Duration_mul (a b : Z) : Z := wrap64 (a * b).

(** OpenTelemetry: attributes, live spans, ended spans, provider. *)
Inductive AttrValue :=
| AttrString (s : string)
| AttrInt (n : Z).

Record LiveSpan := mkLiveSpan {
  live_name : string;
  live_scope : string;
  live_start : Z;
  live_attrs : list (string * AttrValue)
}.

Record Span := mkSpan {
  span_name : string;
  span_scope : string;
  span_start : Z;
  span_end : Z;
  span_attrs : list (string * AttrValue)
}.

Record TracerProvider := mkTracerProvider {
  tp_endpoint : string;
  tp_service : string;
  tp_environment : string
}.

(** What the process does towards the outside, in order. *)
Inductive Event :=
| EvExporterNew (endpoint : string)
| EvListen (addr : string)
| EvGet (url : string)
| EvResponse (code : Z) (text : string)
| EvAborted
| EvShutdown.

Section Runtime.
Context {R : RandSource}.

(** Everything a program can observe or change. [now] is the wall clock in
    nanoseconds; [latency] lists the non-negative delays the scheduler will
    add at the coming clock reads and sleeps. [provider] is the process-wide
    provider set by [otel.SetTracerProvider], [tracer] the package variable
    [tracer], [ticker] the period of the ticker feeding the generator
    goroutine. [live] holds the spans started and not yet ended, [spans] the
    ended spans, oldest first. Span handles are allocated by the SDK and do
    not draw from the [math/rand] source. *)
Record World := mkWorld {
  rng : rng_state;
  now : Z;
  latency : list N;
  env : gmap string string;
  provider : option TracerProvider;
  tracer : option string;
  ticker : option Z;
  live : gmap nat LiveSpan;
  next_span : nat;
  spans : list Span;
  logs : list string;
  events : list Event
}.

Definition set_rng (g : rng_state) (w : World) : World :=
  mkWorld g (now w) (latency w) (env w) (provider w) (tracer w) (ticker w)
          (live w) (next_span w) (spans w) (logs w) (events w).
Definition set_clock (t : Z) (l : list N) (w : World) : World :=
  mkWorld (rng w) t l (env w) (provider w) (tracer w) (ticker w)
          (live w) (next_span w) (spans w) (logs w) (events w).
Definition set_env (e : gmap string string) (w : World) : World :=
  mkWorld (rng w) (now w) (latency w) e (provider w) (tracer w) (ticker w)
          (live w) (next_span w) (spans w) (logs w) (events w).
Definition set_provider (p : option TracerProvider) (w : World) : World :=
  mkWorld (rng w) (now w) (latency w) (env w) p (tracer w) (ticker w)
          (live w) (next_span w) (spans w) (logs w) (events w).
Definition set_tracer (t : option string) (w : World) : World :=
  mkWorld (rng w) (now w) (latency w) (env w) (provider w) t (ticker w)
          (live w) (next_span w) (spans w) (logs w) (events w).
Definition set_ticker (t : option Z) (w : World) : World :=
  mkWorld (rng w) (now w) (latency w) (env w) (provider w) (tracer w) t
          (live w) (next_span w) (spans w) (logs w) (events w).
Definition set_live (m : gmap nat LiveSpan) (n : nat) (w : World) : World :=
  mkWorld (rng w) (now w) (latency w) (env w) (provider w) (tracer w) (ticker w)
          m n (spans w) (logs w) (events w).
Definition set_spans (s : list Span) (w : World) : World :=
  mkWorld (rng w) (now w) (latency w) (env w) (provider w) (tracer w) (ticker w)
          (live w) (next_span w) s (logs w) (events w).
Definition set_logs (l : list string) (w : World) : World :=
  mkWorld (rng w) (now w) (latency w) (env w) (provider w) (tracer w) (ticker w)
          (live w) (next_span w) (spans w) l (events w).
Definition set_events (l : list Event) (w : World) : World :=
  mkWorld (rng w) (now w) (latency w) (env w) (provider w) (tracer w) (ticker w)
          (live w) (next_span w) (spans w) (logs w) l.

(** How a call leaves: it completes with a value, panics, ends the process
    ([os.Exit]), or is still running when the observation stops. *)
Inductive Res (A : Type) :=
| Done (a : A)
| Panicked (msg : string)
| Exited (code : Z)
| Running.
Global Arguments Done {A} a.
Global Arguments Panicked {A} msg.
Global Arguments Exited {A} code.
Global Arguments Running {A}.

Definition M (A : Type) : Type := World -> Res A * World.

Definition ret {A} (a : A) : M A := fun w => (Done a, w).

Definition bind {A B} (c : M A) (k : A -> M B) : M B :=
  fun w =>
    match c w with
    | (Done a, w') => k a w'
    | (Panicked msg, w') => (Panicked msg, w')
    | (Exited code, w') => (Exited code, w')
    | (Running, w') => (Running, w')
    end.

(** [defer f] before [body]: [f] runs when the function returns or panics;
    it does not run when the process exits or the body never leaves. *)
Definition defer {A} (f : M unit) (body : M A) : M A :=
  fun w =>
    match body w with
    | (Done a, w') =>
        match f w' with
        | (Done _, w'') => (Done a, w'')
        | (Panicked msg, w'') => (Panicked msg, w'')
        | (Exited code, w'') => (Exited code, w'')
        | (Running, w'') => (Running, w'')
        end
    | (Panicked msg, w') =>
        match f w' with
        | (Done _, w'') => (Panicked msg, w'')
        | (Panicked msg', w'') => (Panicked msg', w'')
        | (Exited code, w'') => (Exited code, w'')
        | (Running, w'') => (Running, w'')
        end
    | (Exited code, w') => (Exited code, w')
    | (Running, w') => (Running, w')
    end.

Definition emit (e : Event) : M unit :=
  fun w => (Done tt, set_events (events w ++ [e]) w).

(** [log.Printf], [log.Println]: one line appended to the process log.
    [log.Fatalf]: the line, then [os.Exit(1)]. *)
Definition log_Printf (line : string) : M unit :=
  fun w => (Done tt, set_logs (logs w ++ [line]) w).

Definition log_Fatalf {A} (line : string) : M A :=
  fun w => (Exited 1, set_logs (logs w ++ [line]) w).

(** [os.Getenv]: the value of the variable, empty when it is not set. *)
Definition os_Getenv (key : string) : M string :=
  fun w => (Done (default "" (env w !! key)), w).

(** One reading of the clock: the scheduler's next delay has passed. *)
Definition next_delay (l : list N) : Z :=
  match l with
  | [] => 0
  | d :: _ => Z.of_N d
  end.

Definition advance (w : World) : World :=
  set_clock (now w + next_delay (latency w)) (tail (latency w)) w.

(** [time.Sleep d]: at least [d] passes; nothing is waited for [d <= 0]. *)
Definition time_Sleep (d : Z) : M unit :=
  fun w =>
    let w' := advance w in
    (Done tt, set_clock (now w' + Z.max 0 d) (latency w') w').

(** [rand.Intn n]: panics for [n <= 0]. *)
Definition rand_Intn (n : Z) : M Z :=
  fun w =>
    if Z.leb n 0 then (Panicked "invalid argument to Intn", w)
    else let '(x, g) := rand_draw n (rng w) in (Done x, set_rng g w).

(** Starting a span of instrumentation scope [scope]: a fresh handle. *)
Definition start_span (scope name : string) (attrs : list (string * AttrValue))
  : M nat :=
  fun w =>
    let w' := advance w in
    let id := next_span w' in
    (Done id, set_live (<[id := mkLiveSpan name scope (now w') attrs]> (live w'))
                       (S id) w').

(** [tracer.Start(ctx, name)] on the package variable [tracer]; calling a
    method of the nil interface panics. *)
Definition tracer_Start (name : string) : M nat :=
  fun w =>
    match tracer w with
    | None => (Panicked "invalid memory address or nil pointer dereference", w)
    | Some scope => start_span scope name [] w
    end.

(** [span.SetAttributes(kv)]: ignored once the span has ended. *)
Definition span_SetAttributes (id : nat) (kv : string * AttrValue) : M unit :=
  fun w =>
    match live w !! id with
    | None => (Done tt, w)
    | Some s =>
        let s' := mkLiveSpan (live_name s) (live_scope s) (live_start s)
                             (live_attrs s ++ [kv]) in
        (Done tt, set_live (<[id := s']> (live w)) (next_span w) w)
    end.

(** [span.End()]: the span is stamped and handed to the exporter; a second
    [End] does nothing. *)
Definition span_End (id : nat) : M unit :=
  fun w =>
    match live w !! id with
    | None => (Done tt, w)
    | Some s =>
        let w' := advance w in
        (Done tt,
         set_spans (spans w' ++ [mkSpan (live_name s) (live_scope s) (live_start s)
                                        (now w') (live_attrs s)])
                   (set_live (delete id (live w')) (next_span w') w'))
    end.

(** [net/http]: the request as far as the programs look at it, and the
    response writer. The first [WriteHeader] fixes the status, later ones are
    ignored; the first [Write] without a status sends 200. *)
Record Request := mkRequest {
  Method : string;
  URL_Path : string;
  Header : list (string * string);
  Body : string
}.

Record ResponseWriter := mkResponseWriter {
  wroteHeader : bool;
  status : Z;
  body : string
}.

Definition newResponseWriter : ResponseWriter := mkResponseWriter false 0 "".

Definition StatusOK : Z := 200.
Definition StatusInternalServerError : Z := 500.
Definition StatusNotFound : Z := 404.

Definition WriteHeader (code : Z) (w : ResponseWriter) : ResponseWriter :=
  if wroteHeader w then w else mkResponseWriter true code (body w).

Definition Fprintf (text : string) (w : ResponseWriter) : ResponseWriter :=
  let w1 := WriteHeader StatusOK w in
  mkResponseWriter (wroteHeader w1) (status w1) (body w1 +:+ text).

(** What the handler has written once it has returned: the status and the
    body (for a [HEAD] request the server sends the status alone). *)
Definition response (w : ResponseWriter) : Z * string :=
  let w1 := WriteHeader StatusOK w in (status w1, body w1).

Definition HandlerFunc : Type := ResponseWriter -> Request -> M ResponseWriter.

(** [otelhttp.NewHandler(h, operation)]: the middleware opens a server span
    named [operation] on the process-wide provider, runs [h], and ends the
    span when [h] leaves. Without a provider nothing is recorded. *)
Definition otelhttp_scope : string :=
  "go.opentelemetry.io/contrib/instrumentation/net/http/otelhttp".

Definition otelhttp_NewHandler (h : HandlerFunc) (operation : string) : HandlerFunc :=
  fun rw r w =>
    match provider w with
    | None => h rw r w
    | Some _ =>
        bind (start_span otelhttp_scope operation
                         [("http.method", AttrString (Method r))])
             (fun id => defer (span_End id) (h rw r)) w
    end.

(** The default [ServeMux]: a pattern without a trailing slash matches that
    path only, the pattern [/] matches every other path. Before it matches,
    [ServeMux] redirects a request whose path is not in canonical form
    (repeated slashes, [.] or [..] elements) with status 301 and answers
    [OPTIONS *] itself; those requests are not part of the model, which
    takes a path as it is matched. On the paths that are registered the
    model and [ServeMux] agree. *)
Definition ServeMux : Type := list (string * HandlerFunc).

Definition http_Handle (pattern : string) (h : HandlerFunc) (mux : ServeMux) : ServeMux :=
  (mux ++ [(pattern, h)])%list.

Fixpoint mux_find (path : string) (mux : ServeMux) : option HandlerFunc :=
  match mux with
  | [] => None
  | (pattern, h) :: rest =>
      if String.eqb pattern path then Some h else mux_find path rest
  end.

Definition NotFound : HandlerFunc := fun rw _ =>
  ret (Fprintf ("404 page not found" +:+ LF) (WriteHeader StatusNotFound rw)).

Definition mux_handler (mux : ServeMux) (path : string) : HandlerFunc :=
  match mux_find path mux with
  | Some h => h
  | None =>
      match mux_find "/" mux with
      | Some h => h
      | None => NotFound
      end
  end.

(** One request through the server: a fresh writer, the handler of the
    path, the response the handler has written. A panic of the handler is
    recovered by the server, which drops the connection. *)
Definition serve_one (mux : ServeMux) (r : Request) : M unit :=
  fun w =>
    match mux_handler mux (URL_Path r) newResponseWriter r w with
    | (Done rw, w') =>
        (Done tt, set_events (events w' ++ [EvResponse (fst (response rw)) (snd (response rw))]) w')
    | (Panicked _, w') => (Done tt, set_events (events w' ++ [EvAborted]) w')
    | (Exited code, w') => (Exited code, w')
    | (Running, w') => (Running, w')
    end.

(** The peer a generated request meets: whether the URL is accepted by
    [http.NewRequestWithContext], and the outcome of the round trip (an
    error, or the status code of the response). *)
Record Peer := mkPeer {
  new_request_err : string -> option string;
  round_trip : string -> string + Z
}.

(** What reaches the process once it is up. *)
Inductive Incoming :=
| Tick (p : Peer)
| Arrive (r : Request)
| Setenv (key value : string).

(** [client.Do(req)] through [otelhttp.NewTransport]: the transport opens a
    client span on the process-wide provider; a failed round trip ends it at
    once, otherwise it ends when the response body is closed. *)
Definition client_Do (p : Peer) (url : string) : M (string + (Z * option nat)) :=
  fun w =>
    let '(sp, w1) :=
      match provider w with
      | None => (None, w)
      | Some _ =>
          match start_span otelhttp_scope "HTTP GET" [("http.url", AttrString url)] w with
          | (Done id, w') => (Some id, w')
          | (_, w') => (None, w')
          end
      end in
    let w2 := set_events (events w1 ++ [EvGet url]) w1 in
    match round_trip p url with
    | inl err =>
        match sp with
        | Some id => bind (span_End id) (fun _ => ret (inl err)) w2
        | None => (Done (inl err), w2)
        end
    | inr code => (Done (inr (code, sp)), w2)
    end.

Definition Body_Close (resp : Z * option nat) : M unit :=
  match snd resp with
  | Some id => span_End id
  | None => ret tt
  end.

(** The parts of a start-up that lie outside the program: whether
    [otlptrace.New] and [resource.New] fail, whether the listener can bind,
    what the AWS SDK answers, whether the provider's [Shutdown] fails. *)
Record Outside := mkOutside {
  exporter_err : string -> option string;
  resource_err : option string;
  listen_err : string -> option string;
  aws_config_err : option string;
  ec2_client_text : string;
  ec2_describe_err : option string;
  shutdown_err : option string
}.

Definition otlptrace_New (ext : Outside) (endpoint : string) : M (option string) :=
  fun w => (Done (exporter_err ext endpoint),
            set_events (events w ++ [EvExporterNew endpoint]) w).

Definition otel_SetTracerProvider (tp : TracerProvider) : M unit :=
  fun w => (Done tt, set_provider (Some tp) w).

Definition tp_Shutdown (ext : Outside) (tp : TracerProvider) : M (option string) :=
  fun w => (Done (shutdown_err ext), set_events (events w ++ [EvShutdown]) w).

(** [time.NewTicker d]: panics for [d <= 0]. *)
Definition time_NewTicker (d : Z) : M unit :=
  fun w =>
    if Z.leb d 0 then (Panicked "non-positive interval for NewTicker", w)
    else (Done tt, set_ticker (Some d) w).

(** [Duration.String] for whole seconds below one minute, the only values
    the programs print; other values are shown as a nanosecond count. *)
Definition Duration_String (d : Z) : string :=
  if bool_decide (d mod Second = 0 /\ 0 < d < 60 * Second)
  then pretty (d / Second) +:+ "s"
  else pretty d +:+ "ns".

(** While [main] is blocked the runtime runs what reaches the process: a
    tick wakes the generator goroutine [gen] when a ticker was started, a
    request is served when a server listens, and the environment may be
    changed from outside. The blocked call never returns; a panic in the
    goroutine is not recovered. *)
Definition react (server : option ServeMux) (gen : Peer -> M unit) (ev : Incoming)
  : M unit :=
  match ev with
  | Tick p =>
      fun w => match ticker w with
               | Some _ => gen p w
               | None => (Done tt, w)
               end
  | Arrive r =>
      match server with
      | Some mux => serve_one mux r
      | None => ret tt
      end
  | Setenv key value =>
      fun w => (Done tt, set_env (<[key := value]> (env w)) w)
  end.

Fixpoint schedule {A} (server : option ServeMux) (gen : Peer -> M unit)
  (incoming : list Incoming) : M A :=
  match incoming with
  | [] => fun w => (Running, w)
  | ev :: rest => bind (react server gen ev) (fun _ => schedule server gen rest)
  end.

(** [for {}]: [main] spins for ever while the runtime keeps scheduling the
    goroutines. *)
Definition busy_loop {A} (gen : Peer -> M unit) (incoming : list Incoming) : M A :=
  schedule None gen incoming.

(** [l[i]]: panics outside the slice. *)
Definition index (l : list string) (i : Z) : M string :=
  fun w =>
    if Z.ltb i 0 then (Panicked "index out of range", w)
    else match l !! Z.to_nat i with
         | Some x => (Done x, w)
         | None => (Panicked "index out of range", w)
         end.

(** [http.ListenAndServe(addr, nil)]: returns only with an error. *)
Definition http_ListenAndServe (ext : Outside) (addr : string) (mux : ServeMux)
  (gen : Peer -> M unit) (incoming : list Incoming) : M (option string) :=
  bind (emit (EvListen addr)) (fun _ =>
    match listen_err ext addr with
    | Some err => ret (Some err)
    | None => schedule (Some mux) gen incoming
    end).

End Runtime.

Declare Scope go_scope.
Delimit Scope go_scope with go.
Notation "'let*' x ':=' c 'in' k" := (bind c (fun x => k))
  (at level 10, x name, c at level 100, k at level 200) : go_scope.
Notation "c ';;' k" := (bind c (fun _ => k))
  (at level 100, k at level 200, right associativity) : go_scope.

End Go.

(* ===================================================================== *)
(** ** src/receiver/main.go                                                *)
(* ===================================================================== *)

Module Receiver.
Import Go.
Local Open Scope go_scope.

Section Program.
Context {R : RandSource}.

Definition initTracer (ext : Outside) : M (TracerProvider + string) :=
  let* tempoEndpoint := os_Getenv "TEMPO_ENDPOINT" in
  let tempoEndpoint :=
    if String.eqb tempoEndpoint "" then "tempo:4317" else tempoEndpoint in
  let* err := otlptrace_New ext tempoEndpoint in
  match err with
  | Some err => ret (inr ("OTLP exporter 생성 실패: " +:+ err))
  | None =>
      match resource_err ext with
      | Some err => ret (inr ("리소스 생성 실패: " +:+ err))
      | None =>
          let tp := mkTracerProvider tempoEndpoint "monitoring-test-receiver" "dev" in
          otel_SetTracerProvider tp;;
          (fun w => (Done tt, set_tracer (Some "monitoring-test-receiver") w));;
          ret (inl tp)
      end
  end.

Definition homeHandler : HandlerFunc := fun w r =>
  let* span := tracer_Start "home-handler" in
  defer (span_End span)
    (log_Printf ("수신: 홈페이지 요청: " +:+ Method r +:+ " " +:+ URL_Path r);;
     span_SetAttributes span ("http.method", AttrString (Method r));;
     ret (Fprintf ("수신 서버: Hello, World!" +:+ LF) w)).

Definition healthHandler : HandlerFunc := fun w r =>
  let* span := tracer_Start "health-handler" in
  defer (span_End span)
    (log_Printf ("수신: 상태 확인 요청: " +:+ Method r +:+ " " +:+ URL_Path r);;
     let w := WriteHeader StatusOK w in
     ret (Fprintf ("수신 서버: 상태: 정상" +:+ LF) w)).

Definition slowResponseHandler : HandlerFunc := fun w r =>
  let* span := tracer_Start "slow-handler" in
  defer (span_End span)
    (log_Printf ("느린 응답 요청: " +:+ Method r +:+ " " +:+ URL_Path r);;
     let* x := rand_Intn 1900 in
     let delay := 100 + x in
     span_SetAttributes span ("delay_ms", AttrInt delay);;
     time_Sleep (Duration_mul delay Millisecond);;
     ret (Fprintf ("느린 응답 완료! 지연 시간: " +:+ pretty delay +:+ " ms" +:+ LF) w)).

Definition errorHandler : HandlerFunc := fun w r =>
  let* span := tracer_Start "error-handler" in
  defer (span_End span)
    (log_Printf ("에러 발생 요청: " +:+ Method r +:+ " " +:+ URL_Path r);;
     let* x := rand_Intn 5 in
     if Z.eqb x 0 then
       log_Printf "500 에러 발생";;
       span_SetAttributes span ("error", AttrString "true");;
       let w := WriteHeader StatusInternalServerError w in
       ret (Fprintf ("내부 서버 오류가 발생했습니다!" +:+ LF) w)
     else
       ret (Fprintf ("이번에는 에러가 발생하지 않았습니다!" +:+ LF) w)).

(** The four registrations of [main] on the default mux, in order. *)
Definition routes : ServeMux :=
  let mux := [] in
  let mux := http_Handle "/" (otelhttp_NewHandler homeHandler "home") mux in
  let mux := http_Handle "/health" (otelhttp_NewHandler healthHandler "health") mux in
  let mux := http_Handle "/slow" (otelhttp_NewHandler slowResponseHandler "slow") mux in
  let mux := http_Handle "/error" (otelhttp_NewHandler errorHandler "error") mux in
  mux.

(** [main]; [incoming] is what reaches the process while it serves. The
    receiver starts no goroutine of its own. *)
Definition main (ext : Outside) (incoming : list Incoming) : M unit :=
  let* r := initTracer ext in
  match r with
  | inr err => log_Fatalf ("트레이서 초기화 실패: " +:+ err)
  | inl tp =>
      defer (let* err := tp_Shutdown ext tp in
             match err with
             | Some err => log_Printf ("Error shutting down tracer provider: " +:+ err)
             | None => ret tt
             end)
        (let mux := routes in
         let port := 8081 in
         log_Printf ("수신 서버가 포트 " +:+ pretty port +:+ "에서 시작됩니다...");;
         let* err := http_ListenAndServe ext (":" +:+ pretty port) mux
                                         (fun _ => ret tt) incoming in
         match err with
         | Some err => log_Fatalf ("수신 서버 시작 실패: " +:+ err)
         | None => ret tt
         end)
  end.

(** [init]: the source is seeded from the clock. *)
Definition init : M unit :=
  fun w => let w' := advance w in (Done tt, set_rng (rand_Seed (wrap64 (now w'))) w').

End Program.
End Receiver.

(* ===================================================================== *)
(** ** src/app/main.go, first program: the server without tracing          *)
(* ===================================================================== *)

Module App.
Import Go.
Local Open Scope go_scope.

Section Program.
Context {R : RandSource}.

Definition homeHandler : HandlerFunc := fun w r =>
  log_Printf ("홈페이지 요청: " +:+ Method r +:+ " " +:+ URL_Path r);;
  ret (Fprintf ("Hello, World! 모니터링 테스트 서버입니다." +:+ LF) w).

Definition healthHandler : HandlerFunc := fun w r =>
  log_Printf ("상태 확인 요청: " +:+ Method r +:+ " " +:+ URL_Path r);;
  let w := WriteHeader StatusOK w in
  ret (Fprintf ("상태: 정상" +:+ LF) w).

Definition slowResponseHandler : HandlerFunc := fun w r =>
  log_Printf ("느린 응답 요청: " +:+ Method r +:+ " " +:+ URL_Path r);;
  let* x := rand_Intn 1900 in
  let delay := 100 + x in
  time_Sleep (Duration_mul delay Millisecond);;
  ret (Fprintf ("느린 응답 완료! 지연 시간: " +:+ pretty delay +:+ " ms" +:+ LF) w).

Definition errorHandler : HandlerFunc := fun w r =>
  log_Printf ("에러 발생 요청: " +:+ Method r +:+ " " +:+ URL_Path r);;
  let* x := rand_Intn 5 in
  if Z.eqb x 0 then
    log_Printf "500 에러 발생";;
    let w := WriteHeader StatusInternalServerError w in
    ret (Fprintf ("내부 서버 오류가 발생했습니다!" +:+ LF) w)
  else
    ret (Fprintf ("이번에는 에러가 발생하지 않았습니다!" +:+ LF) w).

Definition routes : ServeMux :=
  let mux := [] in
  let mux := http_Handle "/" homeHandler mux in
  let mux := http_Handle "/health" healthHandler mux in
  let mux := http_Handle "/slow" slowResponseHandler mux in
  let mux := http_Handle "/error" errorHandler mux in
  mux.

Definition main (ext : Outside) (incoming : list Incoming) : M unit :=
  let mux := routes in
  let port := 8080 in
  log_Printf ("서버가 포트 " +:+ pretty port +:+ "에서 시작됩니다...");;
  let* err := http_ListenAndServe ext (":" +:+ pretty port) mux
                                  (fun _ => ret tt) incoming in
  match err with
  | Some err => log_Fatalf ("서버 시작 실패: " +:+ err)
  | None => ret tt
  end.

Definition init : M unit :=
  fun w => let w' := advance w in (Done tt, set_rng (rand_Seed (wrap64 (now w'))) w').

End Program.
End App.

(* ===================================================================== *)
(** ** src/app/main.go, second program: the traced server with generator   *)
(* ===================================================================== *)

Module TracedApp.
Import Go.
Local Open Scope go_scope.

Section Program.
Context {R : RandSource}.

Definition initTracer (ext : Outside) : M (TracerProvider + string) :=
  let* tempoEndpoint := os_Getenv "TEMPO_ENDPOINT" in
  let tempoEndpoint :=
    if String.eqb tempoEndpoint "" then "tempo:4317" else tempoEndpoint in
  let* err := otlptrace_New ext tempoEndpoint in
  match err with
  | Some err => ret (inr ("OTLP exporter 생성 실패: " +:+ err))
  | None =>
      match resource_err ext with
      | Some err => ret (inr ("리소스 생성 실패: " +:+ err))
      | None =>
          let tp := mkTracerProvider tempoEndpoint "monitoring-test-app" "dev" in
          otel_SetTracerProvider tp;;
          (fun w => (Done tt, set_tracer (Some "monitoring-test-app") w));;
          ret (inl tp)
      end
  end.

(** One round of the generator: the body run by the goroutine of
    [startPeriodicRequests] at each tick. The request goes to the process's
    own port; what comes back is taken from [p]. *)
Definition generateDummyTraces (p : Peer) : M unit :=
  let* span := tracer_Start "periodic-dummy-request" in
  defer (span_End span)
    (let endpoints := ["/"; "/health"; "/slow"; "/error"] in
     let* i := rand_Intn (Z.of_nat (length endpoints)) in
     let* endpoint := index endpoints i in
     let reqURL := "http://localhost:8080" +:+ endpoint in
     match new_request_err p reqURL with
     | Some err => log_Printf ("더미 요청 생성 실패: " +:+ err)
     | None =>
         span_SetAttributes span ("dummy.request.url", AttrString reqURL);;
         span_SetAttributes span ("dummy.request.type", AttrString "periodic");;
         let* r := client_Do p reqURL in
         match r with
         | inl err => log_Printf ("더미 요청 실패: " +:+ err)
         | inr resp =>
             defer (Body_Close resp)
               (log_Printf ("더미 요청 완료: " +:+ endpoint +:+ ", 상태: "
                            +:+ pretty (fst resp)))
         end
     end).

(** The ticker is created and the goroutine started; the goroutine's loop
    [for { select { case <-ticker.C: generateDummyTraces() } }] is run by
    [Go.schedule], one [generateDummyTraces] per tick. *)
Definition startPeriodicRequests (interval : Z) : M unit :=
  time_NewTicker interval;;
  log_Printf ("주기적인 더미 요청 생성기가 시작되었습니다 (간격: "
              +:+ Duration_String interval +:+ ")").

Definition homeHandler : HandlerFunc := fun w r =>
  let* span := tracer_Start "home-handler" in
  defer (span_End span)
    (log_Printf ("홈페이지 요청: " +:+ Method r +:+ " " +:+ URL_Path r);;
     span_SetAttributes span ("http.method", AttrString (Method r));;
     ret (Fprintf ("Hello, World! 모니터링 테스트 서버입니다." +:+ LF) w)).

Definition healthHandler : HandlerFunc := fun w r =>
  let* span := tracer_Start "health-handler" in
  defer (span_End span)
    (log_Printf ("상태 확인 요청: " +:+ Method r +:+ " " +:+ URL_Path r);;
     let w := WriteHeader StatusOK w in
     ret (Fprintf ("상태: 정상" +:+ LF) w)).

Definition slowResponseHandler : HandlerFunc := fun w r =>
  let* span := tracer_Start "slow-handler" in
  defer (span_End span)
    (log_Printf ("느린 응답 요청: " +:+ Method r +:+ " " +:+ URL_Path r);;
     let* x := rand_Intn 1900 in
     let delay := 100 + x in
     span_SetAttributes span ("delay_ms", AttrInt delay);;
     time_Sleep (Duration_mul delay Millisecond);;
     ret (Fprintf ("느린 응답 완료! 지연 시간: " +:+ pretty delay +:+ " ms" +:+ LF) w)).

Definition errorHandler : HandlerFunc := fun w r =>
  let* span := tracer_Start "error-handler" in
  defer (span_End span)
    (log_Printf ("에러 발생 요청: " +:+ Method r +:+ " " +:+ URL_Path r);;
     let* x := rand_Intn 5 in
     if Z.eqb x 0 then
       log_Printf "500 에러 발생";;
       span_SetAttributes span ("error", AttrString "true");;
       let w := WriteHeader StatusInternalServerError w in
       ret (Fprintf ("내부 서버 오류가 발생했습니다!" +:+ LF) w)
     else
       ret (Fprintf ("이번에는 에러가 발생하지 않았습니다!" +:+ LF) w)).

Definition routes : ServeMux :=
  let mux := [] in
  let mux := http_Handle "/" (otelhttp_NewHandler homeHandler "home") mux in
  let mux := http_Handle "/health" (otelhttp_NewHandler healthHandler "health") mux in
  let mux := http_Handle "/slow" (otelhttp_NewHandler slowResponseHandler "slow") mux in
  let mux := http_Handle "/error" (otelhttp_NewHandler errorHandler "error") mux in
  mux.

(** [main]. The EC2 call goes through the AWS SDK; only its log lines are
    part of the model. *)
Definition main (ext : Outside) (incoming : list Incoming) : M unit :=
  let* r := initTracer ext in
  match r with
  | inr err => log_Fatalf ("트레이서 초기화 실패: " +:+ err)
  | inl tp =>
      defer (let* err := tp_Shutdown ext tp in
             match err with
             | Some err => log_Printf ("Error shutting down tracer provider: " +:+ err)
             | None => ret tt
             end)
        (match aws_config_err ext with
         | Some awsErr => log_Printf ("AWS 설정 로드 실패: " +:+ awsErr)
         | None =>
             log_Printf ("EC2 클라이언트가 AWS 계측으로 설정되었습니다: "
                         +:+ ec2_client_text ext);;
             match ec2_describe_err ext with
             | Some err => log_Printf ("EC2 인스턴스 정보 조회 실패: " +:+ err)
             | None => ret tt
             end
         end;;
         startPeriodicRequests (Duration_mul 5 Second);;
         let mux := routes in
         let port := 8080 in
         log_Printf ("서버가 포트 " +:+ pretty port +:+ "에서 시작됩니다...");;
         let* err := http_ListenAndServe ext (":" +:+ pretty port) mux
                                         generateDummyTraces incoming in
         match err with
         | Some err => log_Fatalf ("서버 시작 실패: " +:+ err)
         | None => ret tt
         end)
  end.

Definition init : M unit :=
  fun w => let w' := advance w in (Done tt, set_rng (rand_Seed (wrap64 (now w'))) w').

End Program.
End TracedApp.

(* ===================================================================== *)
(** ** sender/main.go (second document of src/docker-compose.yml)          *)
(* ===================================================================== *)

Module Sender.
Import Go.
Local Open Scope go_scope.

Section Program.
Context {R : RandSource}.

Definition initTracer (ext : Outside) : M (TracerProvider + string) :=
  let* tempoEndpoint := os_Getenv "TEMPO_ENDPOINT" in
  let tempoEndpoint :=
    if String.eqb tempoEndpoint "" then "tempo:4317" else tempoEndpoint in
  let* err := otlptrace_New ext tempoEndpoint in
  match err with
  | Some err => ret (inr ("OTLP exporter 생성 실패: " +:+ err))
  | None =>
      match resource_err ext with
      | Some err => ret (inr ("리소스 생성 실패: " +:+ err))
      | None =>
          let tp := mkTracerProvider tempoEndpoint "monitoring-test-sender" "dev" in
          otel_SetTracerProvider tp;;
          (fun w => (Done tt, set_tracer (Some "monitoring-test-sender") w));;
          ret (inl tp)
      end
  end.

(** One round of the generator: the body run by the goroutine of
    [startPeriodicRequests] at each tick. *)
Definition generateDummyTraces (p : Peer) : M unit :=
  let* span := tracer_Start "periodic-dummy-request" in
  defer (span_End span)
    (let* receiverEndpoint := os_Getenv "RECEIVER_ENDPOINT" in
     let* receiverEndpoint :=
       if String.eqb receiverEndpoint "" then
         log_Printf "RECEIVER_ENDPOINT 환경 변수가 설정되지 않았습니다. 기본값 http://localhost:8081을 사용합니다.";;
         ret "http://localhost:8081"
       else ret receiverEndpoint in
     let endpoints := ["/"; "/health"] in
     let* i := rand_Intn (Z.of_nat (length endpoints)) in
     let* endpoint := index endpoints i in
     let reqURL := receiverEndpoint +:+ endpoint in
     match new_request_err p reqURL with
     | Some err => log_Printf ("더미 요청 생성 실패: " +:+ err)
     | None =>
         span_SetAttributes span ("dummy.request.url", AttrString reqURL);;
         span_SetAttributes span ("dummy.request.type", AttrString "periodic");;
         let* r := client_Do p reqURL in
         match r with
         | inl err => log_Printf ("더미 요청 실패: " +:+ err)
         | inr resp =>
             defer (Body_Close resp)
               (log_Printf ("더미 요청 완료: " +:+ endpoint +:+ ", 상태: "
                            +:+ pretty (fst resp)))
         end
     end).

(** The ticker is created and the goroutine started; the goroutine's loop
    [for { select { case <-ticker.C: generateDummyTraces() } }] is run by
    [Go.schedule], one [generateDummyTraces] per tick. *)
Definition startPeriodicRequests (interval : Z) : M unit :=
  time_NewTicker interval;;
  log_Printf ("주기적인 더미 요청 생성기가 시작되었습니다 (간격: "
              +:+ Duration_String interval +:+ ")").

(** [main]: no server is started; after the generator, [for {}]. *)
Definition main (ext : Outside) (incoming : list Incoming) : M unit :=
  let* r := initTracer ext in
  match r with
  | inr err => log_Fatalf ("트레이서 초기화 실패: " +:+ err)
  | inl tp =>
      defer (let* err := tp_Shutdown ext tp in
             match err with
             | Some err => log_Printf ("Error shutting down tracer provider: " +:+ err)
             | None => ret tt
             end)
        (startPeriodicRequests (Duration_mul 5 Second);;
         log_Printf "sender 시작됨. receiver로 요청 전송.";;
         busy_loop generateDummyTraces incoming)
  end.

Definition init : M unit :=
  fun w => let w' := advance w in (Done tt, set_rng (rand_Seed (wrap64 (now w'))) w').

End Program.
End Sender.

(* ===================================================================== *)
(** ** Properties                                                          *)
(* ===================================================================== *)

Module Spec.
Import Go.
Local Open Scope go_scope.

(** *** Notions used in the statements *)

Section Notions.
Context {R : RandSource}.

(** What one invocation of a traced handler function does to the world,
    beside the response it writes: nothing but one more ended span. *)
Definition keeps_process (w w' : World) : Prop :=
  tracer w' = tracer w /\ provider w' = provider w /\ ticker w' = ticker w /\
  env w' = env w /\ events w' = events w.

Definition one_span (w w' : World) : Prop :=
  keeps_process w w' /\
  next_span w' = S (next_span w) /\
  (forall j, j <> next_span w -> live w' !! j = live w !! j) /\
  now w <= now w' /\
  exists s, spans w' = (spans w ++ [s])%list /\
            now w <= span_start s /\ span_start s <= span_end s /\
            span_end s <= now w'.

(** The handlers of the server without tracing leave spans alone. *)
Definition no_span (w w' : World) : Prop :=
  keeps_process w w' /\ spans w' = spans w /\ live w' = live w /\
  next_span w' = next_span w /\ now w <= now w'.

(** The response a handler writes and the source state it leaves are
    functions of the source state it finds; [dmin] bounds the time it takes
    from below. *)
Definition handler_spec (h : HandlerFunc)
  (out : rng_state -> ResponseWriter -> ResponseWriter)
  (next : rng_state -> rng_state) (dmin : rng_state -> Z) : Prop :=
  forall rw r w scope, tracer w = Some scope ->
    exists w', h rw r w = (Done (out (rng w) rw), w') /\ one_span w w' /\
               rng w' = next (rng w) /\ now w + dmin (rng w) <= now w'.

Definition home_out (text : string) : rng_state -> ResponseWriter -> ResponseWriter :=
  fun _ rw => Fprintf (text +:+ LF) rw.
Definition health_out (text : string) : rng_state -> ResponseWriter -> ResponseWriter :=
  fun _ rw => Fprintf (text +:+ LF) (WriteHeader StatusOK rw).
Definition slow_delay (g : rng_state) : Z := 100 + fst (rand_draw 1900 g).
Definition slow_out : rng_state -> ResponseWriter -> ResponseWriter :=
  fun g rw => Fprintf ("느린 응답 완료! 지연 시간: " +:+ pretty (slow_delay g) +:+ " ms" +:+ LF) rw.
Definition error_out : rng_state -> ResponseWriter -> ResponseWriter :=
  fun g rw => if Z.eqb (fst (rand_draw 5 g)) 0
              then Fprintf ("내부 서버 오류가 발생했습니다!" +:+ LF)
                           (WriteHeader StatusInternalServerError rw)
              else Fprintf ("이번에는 에러가 발생하지 않았습니다!" +:+ LF) rw.

(** What one request through a registered route does to the world: with a
    provider installed, the handler's span and then the middleware's. *)
Definition served (operation : string) (w w' : World) : Prop :=
  keeps_process w w' /\ now w <= now w' /\
  match provider w with
  | Some _ =>
      exists s1 s2, spans w' = (spans w ++ [s1; s2])%list /\
                    span_start s1 <= span_end s1 /\ span_start s2 <= span_end s2 /\
                    span_name s2 = operation /\ span_scope s2 = otelhttp_scope
  | None =>
      exists s1, spans w' = (spans w ++ [s1])%list /\ span_start s1 <= span_end s1
  end.

(** The generator of the sender. *)
Definition keeps_config (w w' : World) : Prop :=
  tracer w' = tracer w /\ provider w' = provider w /\ ticker w' = ticker w /\
  env w' = env w.

Definition receiver_base (w : World) : string :=
  let v := default "" (env w !! "RECEIVER_ENDPOINT") in
  if String.eqb v "" then "http://localhost:8081" else v.

Definition sender_path (g : rng_state) : string :=
  default "" (["/"; "/health"] !! Z.to_nat (fst (rand_draw 2 g))).

Definition sender_url (w : World) : string := receiver_base w +:+ sender_path (rng w).

(** Completion with a postcondition, and its rules for the operations. *)
Definition wp {A} (c : M A) (Q : A -> World -> Prop) (w : World) : Prop :=
  exists a w', c w = (Done a, w') /\ Q a w'.

Definition tick_post (p : Peer) (w : World) : unit -> World -> Prop :=
  fun _ w' =>
    keeps_config w w' /\
    rng w' = snd (rand_draw 2 (rng w)) /\
    events w' = (events w ++ match new_request_err p (sender_url w) with
                             | None => [EvGet (sender_url w)]
                             | Some _ => []
                             end)%list /\
    now w <= now w' /\
    exists extra s,
      spans w' = (spans w ++ extra ++ [s])%list /\
      span_name s = "periodic-dummy-request" /\ span_start s <= span_end s /\
      Forall (fun x => span_name x = "HTTP GET" /\ span_start x <= span_end x) extra.

(** Start-up. *)
Definition tempo_endpoint (w : World) : string :=
  let v := default "" (env w !! "TEMPO_ENDPOINT") in
  if String.eqb v "" then "tempo:4317" else v.

Definition after_initTracer (service : string) (w : World) : World :=
  set_tracer (Some service)
    (set_provider (Some (mkTracerProvider (tempo_endpoint w) service "dev"))
       (set_events (events w ++ [EvExporterNew (tempo_endpoint w)]) w)).

Definition initTracer_result (service : string) (ext : Outside) (w : World)
  : Res (TracerProvider + string) * World :=
  match exporter_err ext (tempo_endpoint w) with
  | Some err =>
      (Done (inr ("OTLP exporter 생성 실패: " +:+ err)),
       set_events (events w ++ [EvExporterNew (tempo_endpoint w)]) w)
  | None =>
      match resource_err ext with
      | Some err =>
          (Done (inr ("리소스 생성 실패: " +:+ err)),
           set_events (events w ++ [EvExporterNew (tempo_endpoint w)]) w)
      | None =>
          (Done (inl (mkTracerProvider (tempo_endpoint w) service "dev")),
           after_initTracer service w)
      end
  end.

Definition fatal_world (err : string) (w : World) : World :=
  set_logs (logs w ++ ["트레이서 초기화 실패: " +:+ "OTLP exporter 생성 실패: " +:+ err])
           (set_events (events w ++ [EvExporterNew (tempo_endpoint w)]) w).

(** Counting what a run leaves behind. *)
Definition count_spans (name : string) (l : list Span) : nat :=
  length (List.filter (fun s => String.eqb (span_name s) name) l).

Definition count_ticks (incoming : list Incoming) : nat :=
  length (List.filter (fun ev => match ev with Tick _ => true | _ => false end) incoming).

Definition count_arrivals (incoming : list Incoming) : nat :=
  length (List.filter (fun ev => match ev with Arrive _ => true | _ => false end) incoming).

Definition is_get (e : Event) : Prop := exists url, e = EvGet url.

(** The sender while [main] spins. *)
Definition spinning (incoming : list Incoming) (w w' : World) : Prop :=
  tracer w' = tracer w /\ provider w' = provider w /\ ticker w' = ticker w /\
  (exists evs, events w' = (events w ++ evs)%list /\ Forall is_get evs) /\
  count_spans "periodic-dummy-request" (spans w')
  = (count_spans "periodic-dummy-request" (spans w)
     + match ticker w with
       | Some _ => count_ticks incoming
       | None => 0
       end)%nat.

(** The sender at the moment [main] enters its loop. *)
Definition Sender_started (w : World) : World :=
  let w1 := set_ticker (Some 5000000000) (after_initTracer "monitoring-test-sender" w) in
  let w2 := set_logs (logs w1 ++ ["주기적인 더미 요청 생성기가 시작되었습니다 (간격: "
                                   +:+ Duration_String 5000000000 +:+ ")"]) w1 in
  set_logs (logs w2 ++ ["sender 시작됨. receiver로 요청 전송."]) w2.

(** Requests through a mux whose entries are all wrapped traced handlers. *)
Definition traced_mux (mux : ServeMux) : Prop :=
  forall path, exists h operation out next dmin,
    mux_handler mux path = otelhttp_NewHandler h operation /\
    handler_spec h out next dmin.

Definition well_timed (s : Span) : Prop := span_start s <= span_end s.

Definition answered (w w' : World) : Prop :=
  keeps_config w w' /\ now w <= now w' /\
  (exists code text, events w' = (events w ++ [EvResponse code text])%list) /\
  match provider w with
  | Some _ => exists s1 s2, spans w' = (spans w ++ [s1; s2])%list /\
                            well_timed s1 /\ well_timed s2
  | None => exists s1, spans w' = (spans w ++ [s1])%list /\ well_timed s1
  end.

(** A traced server with no generator of its own, while it listens. *)
Definition serving (incoming : list Incoming) (w w' : World) : Prop :=
  tracer w' = tracer w /\ provider w' = provider w /\ ticker w' = ticker w /\
  exists added, spans w' = (spans w ++ added)%list /\
                Forall well_timed added /\
                length added = (match provider w with
                                | Some _ => 2 * count_arrivals incoming
                                | None => count_arrivals incoming
                                end)%nat.

(** The receiver at the moment its server listens. *)
Definition Receiver_started (w : World) : World :=
  let w1 := after_initTracer "monitoring-test-receiver" w in
  let w2 := set_logs (logs w1 ++ ["수신 서버가 포트 8081에서 시작됩니다..."]) w1 in
  set_events (events w2 ++ [EvListen ":8081"]) w2.

(** [GET] repeated on a server, one request after the other: the status of
    each response, in order ([None] where the handler did not complete). *)
Fixpoint repeat_GET (mux : ServeMux) (reqs : list Request) (w : World) : list (option Z) :=
  match reqs with
  | [] => []
  | r :: rest =>
      match mux_handler mux (URL_Path r) newResponseWriter r w with
      | (Done rw, w') => Some (fst (response rw)) :: repeat_GET mux rest w'
      | (_, w') => None :: repeat_GET mux rest w'
      end
  end.

(** The handler functions and the muxes of the traced variants. *)
Definition traced_handlers : list HandlerFunc :=
  [TracedApp.homeHandler; TracedApp.healthHandler;
   TracedApp.slowResponseHandler; TracedApp.errorHandler;
   Receiver.homeHandler; Receiver.healthHandler;
   Receiver.slowResponseHandler; Receiver.errorHandler].

Definition traced_muxes : list ServeMux := [TracedApp.routes; Receiver.routes].

(** The span a traced handler records: its name, its attributes as a
    function of the source state and the request, and a lower bound of its
    duration. *)
Definition handler_trace (h : HandlerFunc) (name : string)
  (out : rng_state -> ResponseWriter -> ResponseWriter)
  (attrs : rng_state -> Request -> list (string * AttrValue))
  (dmin : rng_state -> Z) : Prop :=
  forall rw r w scope, tracer w = Some scope ->
    exists w' t0 t1,
      h rw r w = (Done (out (rng w) rw), w') /\
      spans w' = (spans w ++ [mkSpan name scope t0 t1 (attrs (rng w) r)])%list /\
      now w <= t0 /\ t0 + dmin (rng w) <= t1 /\ t1 <= now w'.

(** The registrations of the traced variants: path, operation name given to
    the middleware, name of the handler's own span. *)
Definition route_names : list (string * string * string) :=
  [("/", "home", "home-handler"); ("/health", "health", "health-handler");
   ("/slow", "slow", "slow-handler"); ("/error", "error", "error-handler")].

(** A tick of the sender's generator in full: the lines it logs and the
    spans it records. *)
Definition tick_warning (w : World) : list string :=
  if String.eqb (default "" (env w !! "RECEIVER_ENDPOINT")) ""
  then ["RECEIVER_ENDPOINT 환경 변수가 설정되지 않았습니다. 기본값 http://localhost:8081을 사용합니다."]
  else [].

Definition tick_outcome_line (p : Peer) (path url : string) : string :=
  match new_request_err p url with
  | Some err => "더미 요청 생성 실패: " +:+ err
  | None =>
      match round_trip p url with
      | inl err => "더미 요청 실패: " +:+ err
      | inr code => "더미 요청 완료: " +:+ path +:+ ", 상태: " +:+ pretty code
      end
  end.

Definition tick_attrs (p : Peer) (url : string) : list (string * AttrValue) :=
  match new_request_err p url with
  | Some _ => []
  | None => [("dummy.request.url", AttrString url);
             ("dummy.request.type", AttrString "periodic")]
  end.

Definition tick_spans (p : Peer) (url scope : string) (w w' : World) : Prop :=
  exists client t0 t1,
    spans w' = (spans w ++ client
                ++ [mkSpan "periodic-dummy-request" scope t0 t1 (tick_attrs p url)])%list /\
    t0 <= t1 /\
    match new_request_err p url with
    | Some _ => client = []
    | None =>
        match provider w with
        | None => client = []
        | Some _ =>
            exists c0 c1,
              client = [mkSpan "HTTP GET" otelhttp_scope c0 c1 [("http.url", AttrString url)]] /\
              t0 <= c0 /\ c0 <= c1 /\ c1 <= t1
        end
    end.

Definition tick_full (p : Peer) (scope : string) (w : World) : unit -> World -> Prop :=
  fun _ w' =>
    logs w' = (logs w ++ tick_warning w
               ++ [tick_outcome_line p (sender_path (rng w)) (sender_url w)])%list /\
    tick_spans p (sender_url w) scope w w'.

(** The generator of the traced server: it calls the server's own port. *)
Definition app_path (g : rng_state) : string :=
  default "" (["/"; "/health"; "/slow"; "/error"] !! Z.to_nat (fst (rand_draw 4 g))).

Definition app_url (g : rng_state) : string := "http://localhost:8080" +:+ app_path g.

Definition app_tick_post (p : Peer) (w : World) : unit -> World -> Prop :=
  fun _ w' =>
    keeps_config w w' /\
    rng w' = snd (rand_draw 4 (rng w)) /\
    events w' = (events w ++ match new_request_err p (app_url (rng w)) with
                             | None => [EvGet (app_url (rng w))]
                             | Some _ => []
                             end)%list /\
    now w <= now w' /\
    exists extra s,
      spans w' = (spans w ++ extra ++ [s])%list /\
      span_name s = "periodic-dummy-request" /\ span_start s <= span_end s /\
      Forall (fun x => span_name x = "HTTP GET" /\ span_start x <= span_end x) extra.

(** Ended spans are never taken back. *)
Definition spans_grow (w w' : World) : Prop :=
  exists added, spans w' = (spans w ++ added)%list.

(** A process while it is up: what stays, and what leaves it. *)
Definition is_response (e : Event) : Prop := exists code text, e = EvResponse code text.

Definition count_responses (evs : list Event) : nat :=
  length (List.filter (fun e => match e with EvResponse _ _ => true | _ => false end) evs).

Definition running (G : Event -> Prop) (incoming : list Incoming) (w w' : World) : Prop :=
  tracer w' = tracer w /\ provider w' = provider w /\ ticker w' = ticker w /\
  spans_grow w w' /\
  exists evs, events w' = (events w ++ evs)%list /\
              Forall (fun e => G e \/ is_response e) evs /\
              count_responses evs = count_arrivals incoming.

(** What a generator round may do for [running] to hold. *)
Definition tick_contract (G : Event -> Prop) (gen : Peer -> M unit) : Prop :=
  forall p w scope, tracer w = Some scope ->
    exists w', gen p w = (Done tt, w') /\ keeps_config w w' /\ spans_grow w w' /\
               exists evs, events w' = (events w ++ evs)%list /\ Forall G evs /\
                           count_responses evs = 0%nat.

(** The traced server at the moment it listens. *)
Definition TracedApp_started (ext : Outside) (w : World) : World :=
  let w1 := after_initTracer "monitoring-test-app" w in
  let w2 := match aws_config_err ext with
            | Some awsErr => set_logs (logs w1 ++ ["AWS 설정 로드 실패: " +:+ awsErr]) w1
            | None =>
                let w1' := set_logs (logs w1 ++ ["EC2 클라이언트가 AWS 계측으로 설정되었습니다: "
                                                 +:+ ec2_client_text ext]) w1 in
                match ec2_describe_err ext with
                | Some err => set_logs (logs w1' ++ ["EC2 인스턴스 정보 조회 실패: " +:+ err]) w1'
                | None => w1'
                end
            end in
  let w3 := set_ticker (Some 5000000000) w2 in
  let w4 := set_logs (logs w3 ++ ["주기적인 더미 요청 생성기가 시작되었습니다 (간격: "
                                   +:+ Duration_String 5000000000 +:+ ")"]) w3 in
  let w5 := set_logs (logs w4 ++ ["서버가 포트 8080에서 시작됩니다..."]) w4 in
  set_events (events w5 ++ [EvListen ":8080"]) w5.

(** The plain server at the moment it listens. *)
Definition App_started (w : World) : World :=
  let w1 := set_logs (logs w ++ ["서버가 포트 8080에서 시작됩니다..."]) w in
  set_events (events w1 ++ [EvListen ":8080"]) w1.

(** The three traced programs. *)
Definition traced_mains : list (Outside -> list Incoming -> M unit) :=
  [Sender.main; Receiver.main; TracedApp.main].

(** The world a failed [resource.New] leaves. *)
Definition resource_fatal_world (err : string) (w : World) : World :=
  set_logs (logs w ++ ["트레이서 초기화 실패: " +:+ "리소스 생성 실패: " +:+ err])
           (set_events (events w ++ [EvExporterNew (tempo_endpoint w)]) w).

(** The paths [main] registers, and what reaches a server on them. *)
Definition registered : list string := ["/"; "/health"; "/slow"; "/error"].

Definition on_route (ev : Incoming) : Prop :=
  match ev with
  | Arrive r => In (URL_Path r) registered
  | _ => True
  end.

(** The statuses of [n] calls of [/error] one after the other, as a function
    of the state of the source at the first. *)
Fixpoint error_statuses (n : nat) (g : rng_state) : list Z :=
  match n with
  | O => []
  | S k => (if Z.eqb (fst (rand_draw 5 g)) 0 then 500 else 200)
           :: error_statuses k (snd (rand_draw 5 g))
  end.

(** The status a registered route answers with, and the state it leaves the
    source in. *)
Definition route_status (path : string) (g : rng_state) : Z :=
  if String.eqb path "/error"
  then (if Z.eqb (fst (rand_draw 5 g)) 0 then 500 else 200)
  else 200.

Definition route_draw (path : string) (g : rng_state) : rng_state :=
  if String.eqb path "/slow" then snd (rand_draw 1900 g)
  else if String.eqb path "/error" then snd (rand_draw 5 g)
  else g.

(** The statuses of the responses of a whole run, from the state of the
    source at its start; [tick] is what a round of the generator does to the
    source. *)
Fixpoint run_statuses (tick : rng_state -> rng_state) (incoming : list Incoming)
  (g : rng_state) : list Z :=
  match incoming with
  | [] => []
  | Tick _ :: rest => run_statuses tick rest (tick g)
  | Arrive r :: rest =>
      route_status (URL_Path r) g :: run_statuses tick rest (route_draw (URL_Path r) g)
  | Setenv _ _ :: rest => run_statuses tick rest g
  end.

Fixpoint response_statuses (evs : list Event) : list Z :=
  match evs with
  | [] => []
  | EvResponse code _ :: rest => code :: response_statuses rest
  | _ :: rest => response_statuses rest
  end.

(** A mux whose registered routes answer and draw as [route_status] and
    [route_draw] say. *)
Definition route_contract (mux : ServeMux) : Prop :=
  forall path, In path registered ->
    exists h operation out next dmin,
      mux_handler mux path = otelhttp_NewHandler h operation /\
      handler_spec h out next dmin /\
      (forall g, fst (response (out g newResponseWriter)) = route_status path g) /\
      (forall g, next g = route_draw path g).

End Notions.

(** *** Concrete runs *)

Definition quiet : Outside :=
  mkOutside (fun _ => None) None (fun _ => None) None "" None None.

Definition no_collector : Outside :=
  mkOutside (fun _ => Some "connection refused") None (fun _ => None) None "" None None.

Definition up : Peer := mkPeer (fun _ => None) (fun _ => inr 200).
Definition down : Peer := mkPeer (fun _ => None) (fun _ => inl "connection refused").

Definition GET (path : string) : Request := mkRequest "GET" path [] "".
Definition POST (path : string) : Request :=
  mkRequest "POST" path [("Content-Type", "text/plain")] "ping".

(** A process that has just been started, and one whose tracer is up, with
    a scripted source. *)
Definition cold_world (script : list Z) : @World ScriptedSource :=
  mkWorld (R:=ScriptedSource) script 0 [] ∅ None None None ∅ 0 [] [] [].

Definition warm_world (script : list Z) : @World ScriptedSource :=
  mkWorld (R:=ScriptedSource) script 1000 [3%N; 4%N; 5%N; 6%N] ∅
          (Some (mkTracerProvider "tempo:4317" "monitoring-test-receiver" "dev"))
          (Some "monitoring-test-receiver") None ∅ 0 [] [] [].

Definition old_receiver : gmap string string :=
  {[ "RECEIVER_ENDPOINT" := "http://old:8081" ]}.

(** The outside when the port is taken, when the resource cannot be built,
    and when no AWS configuration is found. *)
Definition port_taken : Outside :=
  mkOutside (fun _ => None) None (fun _ => Some "address already in use") None "" None None.

Definition no_resource : Outside :=
  mkOutside (fun _ => None) (Some "conflicting Schema URL") (fun _ => None) None "" None None.

Definition no_aws : Outside :=
  mkOutside (fun _ => None) None (fun _ => None) (Some "no credentials") "" None None.

(** A peer for which only URLs with a scheme make a request. *)
Definition strict : Peer :=
  mkPeer (fun url => if String.prefix "http" url then None else Some "missing protocol scheme")
         (fun _ => inr 200).

Definition no_scheme : gmap string string :=
  {[ "RECEIVER_ENDPOINT" := "://receiver:8081" ]}.

(** A process whose tracer is up under the name of its service. *)
Definition started_world (service : string) (script : list Z) : @World ScriptedSource :=
  mkWorld (R:=ScriptedSource) script 1000 [3%N; 4%N; 5%N; 6%N] ∅
          (Some (mkTracerProvider "tempo:4317" service "dev"))
          (Some service) None ∅ 0 [] [] [].

(** A process of the congruential source before [init], at a given reading
    of the clock. *)
Definition booting (t : Z) : @World LcgSource :=
  mkWorld (R:=LcgSource) 0 t [] ∅ None None None ∅ 0 [] [] [].

(** *** Proofs *)

(** Symbolic execution of a monadic program on a world. *)
Ltac go_cbn :=
  cbn [fst snd rng now latency env provider tracer ticker live next_span spans
       logs events set_rng set_clock set_env set_provider set_tracer set_ticker
       set_live set_spans set_logs set_events advance
       bind ret defer emit log_Printf log_Fatalf os_Getenv time_Sleep
       start_span span_SetAttributes span_End
       live_name live_scope live_start live_attrs
       span_name span_scope span_start span_end span_attrs] in *.

Ltac go_lookup :=
  first [ rewrite lookup_insert_eq
        | rewrite lookup_insert_ne by lia
        | rewrite lookup_delete_ne by lia
        | rewrite lookup_delete_eq ].

Ltac go_run :=
  repeat first [ progress go_cbn
               | go_lookup
               | progress unfold span_SetAttributes, span_End, start_span, ret, bind ].

Lemma next_delay_nonneg (l : list N) : 0 <= next_delay l.
Proof. destruct l; simpl; lia. Qed.

Ltac delay_of l :=
  let d := fresh "d" in
  let H := fresh "Hd" in
  pose proof (next_delay_nonneg l) as H;
  set (d := next_delay l) in *; clearbody d.

Ltac delays :=
  repeat match goal with
         | |- context [next_delay ?l] => delay_of l
         | _ : context [next_delay ?l] |- _ => delay_of l
         end.

Section Handlers.
Context {R : RandSource}.

Lemma rand_Intn_run (n : Z) (w : World) :
  0 < n ->
  rand_Intn n w = (Done (fst (rand_draw n (rng w))), set_rng (snd (rand_draw n (rng w))) w).
Proof.
  intros Hn. unfold rand_Intn.
  destruct (Z.leb_spec n 0); [lia|].
  destruct (rand_draw n (rng w)); reflexivity.
Qed.

Lemma wrap64_small (x : Z) : - 2 ^ 63 <= x < 2 ^ 63 -> wrap64 x = x.
Proof. intros Hx. unfold wrap64. rewrite Z.mod_small; lia. Qed.

Lemma delay_duration (x : Z) :
  0 <= x < 1900 -> Duration_mul (100 + x) Millisecond = (100 + x) * 1000000.
Proof.
  intros Hx. unfold Duration_mul, Millisecond. apply wrap64_small. lia.
Qed.

Ltac one_span_solve :=
  unfold one_span, keeps_process; go_run;
  repeat split; try reflexivity;
  [ intros j Hj; repeat go_lookup; reflexivity
  | delays; lia
  | eexists; split; [reflexivity|]; go_cbn; delays; repeat split; lia ].

Ltac handler_start Ht :=
  unfold bind, defer, tracer_Start; rewrite Ht; go_run.

Lemma Receiver_homeHandler_run (rw : ResponseWriter) (r : Request) (w : World) scope :
  tracer w = Some scope ->
  exists w', Receiver.homeHandler rw r w
             = (Done (Fprintf ("수신 서버: Hello, World!" +:+ LF) rw), w')
             /\ one_span w w' /\ rng w' = rng w.
Proof.
  intros Ht. unfold Receiver.homeHandler. handler_start Ht.
  eexists. split; [reflexivity|]. split; [one_span_solve | reflexivity].
Qed.

Lemma Receiver_healthHandler_run (rw : ResponseWriter) (r : Request) (w : World) scope :
  tracer w = Some scope ->
  exists w', Receiver.healthHandler rw r w
             = (Done (Fprintf ("수신 서버: 상태: 정상" +:+ LF) (WriteHeader StatusOK rw)), w')
             /\ one_span w w' /\ rng w' = rng w.
Proof.
  intros Ht. unfold Receiver.healthHandler. handler_start Ht.
  eexists. split; [reflexivity|]. split; [one_span_solve | reflexivity].
Qed.

Lemma Receiver_slowResponseHandler_run (rw : ResponseWriter) (r : Request) (w : World) scope :
  tracer w = Some scope ->
  let delay := 100 + fst (rand_draw 1900 (rng w)) in
  exists w', Receiver.slowResponseHandler rw r w
             = (Done (Fprintf ("느린 응답 완료! 지연 시간: " +:+ pretty delay +:+ " ms" +:+ LF) rw), w')
             /\ one_span w w' /\ rng w' = snd (rand_draw 1900 (rng w))
             /\ now w + delay * 1000000 <= now w'
             /\ (latency w = [] -> now w' = now w + delay * 1000000).
Proof.
  intros Ht delay. unfold Receiver.slowResponseHandler. handler_start Ht.
  rewrite rand_Intn_run by lia. go_run.
  pose proof (rand_draw_range 1900 (rng w) ltac:(lia)) as Hx.
  rewrite (delay_duration _ Hx). fold delay.
  eexists. split; [reflexivity|].
  split; [one_span_solve|]. go_run.
  split; [reflexivity|]. split.
  - delays. lia.
  - intros Hl. rewrite Hl. simpl. lia.
Qed.

Lemma Receiver_errorHandler_run (rw : ResponseWriter) (r : Request) (w : World) scope :
  tracer w = Some scope ->
  exists w', Receiver.errorHandler rw r w
             = (Done (if Z.eqb (fst (rand_draw 5 (rng w))) 0
                      then Fprintf ("내부 서버 오류가 발생했습니다!" +:+ LF)
                                   (WriteHeader StatusInternalServerError rw)
                      else Fprintf ("이번에는 에러가 발생하지 않았습니다!" +:+ LF) rw), w')
             /\ one_span w w' /\ rng w' = snd (rand_draw 5 (rng w)).
Proof.
  intros Ht. unfold Receiver.errorHandler. handler_start Ht.
  rewrite rand_Intn_run by lia. go_run.
  destruct (Z.eqb (fst (rand_draw 5 (rng w))) 0); go_run;
    (eexists; split; [reflexivity|]; split; [one_span_solve | reflexivity]).
Qed.

Lemma TracedApp_homeHandler_run (rw : ResponseWriter) (r : Request) (w : World) scope :
  tracer w = Some scope ->
  exists w', TracedApp.homeHandler rw r w
             = (Done (Fprintf ("Hello, World! 모니터링 테스트 서버입니다." +:+ LF) rw), w')
             /\ one_span w w' /\ rng w' = rng w.
Proof.
  intros Ht. unfold TracedApp.homeHandler. handler_start Ht.
  eexists. split; [reflexivity|]. split; [one_span_solve | reflexivity].
Qed.

Lemma TracedApp_healthHandler_run (rw : ResponseWriter) (r : Request) (w : World) scope :
  tracer w = Some scope ->
  exists w', TracedApp.healthHandler rw r w
             = (Done (Fprintf ("상태: 정상" +:+ LF) (WriteHeader StatusOK rw)), w')
             /\ one_span w w' /\ rng w' = rng w.
Proof.
  intros Ht. unfold TracedApp.healthHandler. handler_start Ht.
  eexists. split; [reflexivity|]. split; [one_span_solve | reflexivity].
Qed.

Lemma TracedApp_slowResponseHandler_run (rw : ResponseWriter) (r : Request) (w : World) scope :
  tracer w = Some scope ->
  let delay := 100 + fst (rand_draw 1900 (rng w)) in
  exists w', TracedApp.slowResponseHandler rw r w
             = (Done (Fprintf ("느린 응답 완료! 지연 시간: " +:+ pretty delay +:+ " ms" +:+ LF) rw), w')
             /\ one_span w w' /\ rng w' = snd (rand_draw 1900 (rng w))
             /\ now w + delay * 1000000 <= now w'
             /\ (latency w = [] -> now w' = now w + delay * 1000000).
Proof.
  intros Ht delay. unfold TracedApp.slowResponseHandler. handler_start Ht.
  rewrite rand_Intn_run by lia. go_run.
  pose proof (rand_draw_range 1900 (rng w) ltac:(lia)) as Hx.
  rewrite (delay_duration _ Hx). fold delay.
  eexists. split; [reflexivity|].
  split; [one_span_solve|]. go_run.
  split; [reflexivity|]. split.
  - delays. lia.
  - intros Hl. rewrite Hl. simpl. lia.
Qed.

Lemma TracedApp_errorHandler_run (rw : ResponseWriter) (r : Request) (w : World) scope :
  tracer w = Some scope ->
  exists w', TracedApp.errorHandler rw r w
             = (Done (if Z.eqb (fst (rand_draw 5 (rng w))) 0
                      then Fprintf ("내부 서버 오류가 발생했습니다!" +:+ LF)
                                   (WriteHeader StatusInternalServerError rw)
                      else Fprintf ("이번에는 에러가 발생하지 않았습니다!" +:+ LF) rw), w')
             /\ one_span w w' /\ rng w' = snd (rand_draw 5 (rng w)).
Proof.
  intros Ht. unfold TracedApp.errorHandler. handler_start Ht.
  rewrite rand_Intn_run by lia. go_run.
  destruct (Z.eqb (fst (rand_draw 5 (rng w))) 0); go_run;
    (eexists; split; [reflexivity|]; split; [one_span_solve | reflexivity]).
Qed.

Ltac no_span_solve :=
  unfold no_span, keeps_process; go_run; repeat split; try reflexivity; delays; lia.

Lemma App_homeHandler_run (rw : ResponseWriter) (r : Request) (w : World) :
  exists w', App.homeHandler rw r w
             = (Done (Fprintf ("Hello, World! 모니터링 테스트 서버입니다." +:+ LF) rw), w')
             /\ no_span w w' /\ rng w' = rng w.
Proof.
  unfold App.homeHandler, bind. go_run.
  eexists. split; [reflexivity|]. split; [no_span_solve | reflexivity].
Qed.

Lemma App_healthHandler_run (rw : ResponseWriter) (r : Request) (w : World) :
  exists w', App.healthHandler rw r w
             = (Done (Fprintf ("상태: 정상" +:+ LF) (WriteHeader StatusOK rw)), w')
             /\ no_span w w' /\ rng w' = rng w.
Proof.
  unfold App.healthHandler, bind. go_run.
  eexists. split; [reflexivity|]. split; [no_span_solve | reflexivity].
Qed.

Lemma App_slowResponseHandler_run (rw : ResponseWriter) (r : Request) (w : World) :
  let delay := 100 + fst (rand_draw 1900 (rng w)) in
  exists w', App.slowResponseHandler rw r w
             = (Done (Fprintf ("느린 응답 완료! 지연 시간: " +:+ pretty delay +:+ " ms" +:+ LF) rw), w')
             /\ no_span w w' /\ rng w' = snd (rand_draw 1900 (rng w))
             /\ now w + delay * 1000000 <= now w'
             /\ (latency w = [] -> now w' = now w + delay * 1000000).
Proof.
  intros delay. unfold App.slowResponseHandler, bind. go_run.
  rewrite rand_Intn_run by lia. go_run.
  pose proof (rand_draw_range 1900 (rng w) ltac:(lia)) as Hx.
  rewrite (delay_duration _ Hx). fold delay.
  eexists. split; [reflexivity|].
  split; [no_span_solve|]. go_run.
  split; [reflexivity|]. split.
  - delays. lia.
  - intros Hl. rewrite Hl. simpl. lia.
Qed.

Lemma App_errorHandler_run (rw : ResponseWriter) (r : Request) (w : World) :
  exists w', App.errorHandler rw r w
             = (Done (if Z.eqb (fst (rand_draw 5 (rng w))) 0
                      then Fprintf ("내부 서버 오류가 발생했습니다!" +:+ LF)
                                   (WriteHeader StatusInternalServerError rw)
                      else Fprintf ("이번에는 에러가 발생하지 않았습니다!" +:+ LF) rw), w')
             /\ no_span w w' /\ rng w' = snd (rand_draw 5 (rng w)).
Proof.
  unfold App.errorHandler, bind. go_run.
  rewrite rand_Intn_run by lia. go_run.
  destruct (Z.eqb (fst (rand_draw 5 (rng w))) 0); go_run;
    (eexists; split; [reflexivity|]; split; [no_span_solve | reflexivity]).
Qed.

Lemma one_span_now (w w' : World) : one_span w w' -> now w <= now w'.
Proof. unfold one_span. tauto. Qed.

Lemma Receiver_home_spec :
  handler_spec Receiver.homeHandler (home_out "수신 서버: Hello, World!") id (fun _ => 0).
Proof.
  intros rw r w sc Ht. destruct (Receiver_homeHandler_run rw r w sc Ht) as (w' & E & H1 & Hg).
  exists w'. split; [exact E|]. split; [exact H1|]. split; [exact Hg|].
  apply one_span_now in H1. cbn beta. lia.
Qed.

Lemma Receiver_health_spec :
  handler_spec Receiver.healthHandler (health_out "수신 서버: 상태: 정상") id (fun _ => 0).
Proof.
  intros rw r w sc Ht. destruct (Receiver_healthHandler_run rw r w sc Ht) as (w' & E & H1 & Hg).
  exists w'. split; [exact E|]. split; [exact H1|]. split; [exact Hg|].
  apply one_span_now in H1. cbn beta. lia.
Qed.

Lemma Receiver_slow_spec :
  handler_spec Receiver.slowResponseHandler slow_out (fun g => snd (rand_draw 1900 g))
               (fun g => slow_delay g * 1000000).
Proof.
  intros rw r w sc Ht.
  destruct (Receiver_slowResponseHandler_run rw r w sc Ht) as (w' & E & H1 & Hg & Hn & _).
  exists w'. split; [exact E|]. split; [exact H1|]. split; [exact Hg|exact Hn].
Qed.

Lemma Receiver_error_spec :
  handler_spec Receiver.errorHandler error_out (fun g => snd (rand_draw 5 g)) (fun _ => 0).
Proof.
  intros rw r w sc Ht. destruct (Receiver_errorHandler_run rw r w sc Ht) as (w' & E & H1 & Hg).
  exists w'. split; [exact E|]. split; [exact H1|]. split; [exact Hg|].
  apply one_span_now in H1. cbn beta. lia.
Qed.

Lemma TracedApp_home_spec :
  handler_spec TracedApp.homeHandler (home_out "Hello, World! 모니터링 테스트 서버입니다.") id
               (fun _ => 0).
Proof.
  intros rw r w sc Ht. destruct (TracedApp_homeHandler_run rw r w sc Ht) as (w' & E & H1 & Hg).
  exists w'. split; [exact E|]. split; [exact H1|]. split; [exact Hg|].
  apply one_span_now in H1. cbn beta. lia.
Qed.

Lemma TracedApp_health_spec :
  handler_spec TracedApp.healthHandler (health_out "상태: 정상") id (fun _ => 0).
Proof.
  intros rw r w sc Ht. destruct (TracedApp_healthHandler_run rw r w sc Ht) as (w' & E & H1 & Hg).
  exists w'. split; [exact E|]. split; [exact H1|]. split; [exact Hg|].
  apply one_span_now in H1. cbn beta. lia.
Qed.

Lemma TracedApp_slow_spec :
  handler_spec TracedApp.slowResponseHandler slow_out (fun g => snd (rand_draw 1900 g))
               (fun g => slow_delay g * 1000000).
Proof.
  intros rw r w sc Ht.
  destruct (TracedApp_slowResponseHandler_run rw r w sc Ht) as (w' & E & H1 & Hg & Hn & _).
  exists w'. split; [exact E|]. split; [exact H1|]. split; [exact Hg|exact Hn].
Qed.

Lemma TracedApp_error_spec :
  handler_spec TracedApp.errorHandler error_out (fun g => snd (rand_draw 5 g)) (fun _ => 0).
Proof.
  intros rw r w sc Ht. destruct (TracedApp_errorHandler_run rw r w sc Ht) as (w' & E & H1 & Hg).
  exists w'. split; [exact E|]. split; [exact H1|]. split; [exact Hg|].
  apply one_span_now in H1. cbn beta. lia.
Qed.

Lemma otelhttp_NewHandler_spec (h : HandlerFunc) (operation : string) out next dmin :
  handler_spec h out next dmin ->
  forall rw r w scope, tracer w = Some scope ->
    exists w', otelhttp_NewHandler h operation rw r w = (Done (out (rng w) rw), w') /\
               served operation w w' /\ rng w' = next (rng w) /\
               now w + dmin (rng w) <= now w'.
Proof.
  intros Hh rw r w sc Ht. unfold otelhttp_NewHandler, served.
  destruct (provider w) as [tp|] eqn:Ep.
  - unfold bind at 1. unfold start_span at 1. go_cbn.
    set (w1 := set_live _ _ _).
    destruct (Hh rw r w1 sc) as (w1' & E & H1 & Hg & Hn); [exact Ht|].
    unfold defer. rewrite E. unfold span_End.
    destruct H1 as (Hk & Hnext & Hlive & Hnow & s & Hs & Hs1 & Hs2 & Hs3).
    rewrite (Hlive (next_span w)) by (subst w1; go_cbn; lia).
    subst w1. go_run.
    eexists. split; [reflexivity|].
    destruct Hk as (Hk1 & Hk2 & Hk3 & Hk4 & Hk5). go_run.
    split; [|split; [assumption|]].
    + split; [repeat split; assumption|]. split; [delays; lia|].
      eexists s, _. rewrite Hs. rewrite <- app_assoc.
      split; [reflexivity|]. go_cbn. delays. repeat split; lia.
    + delays. lia.
  - destruct (Hh rw r w sc Ht) as (w' & E & H1 & Hg & Hn).
    exists w'. split; [exact E|]. split; [|split; assumption].
    destruct H1 as (Hk & Hnext & Hlive & Hnow & s & Hs & Hs1 & Hs2 & Hs3).
    split; [exact Hk|]. split; [exact Hnow|]. exists s. split; [exact Hs|lia].
Qed.

Lemma serve_one_Done (mux : ServeMux) (r : Request) (w w' : World) (rw : ResponseWriter) :
  mux_handler mux (URL_Path r) newResponseWriter r w = (Done rw, w') ->
  serve_one mux r w
  = (Done tt, set_events (events w' ++ [EvResponse (fst (response rw)) (snd (response rw))]) w').
Proof. intros H. unfold serve_one. rewrite H. reflexivity. Qed.

Lemma wp_ret {A} (a : A) Q w : Q a w -> wp (ret a) Q w.
Proof. intros H. exists a, w. split; [reflexivity|exact H]. Qed.

Lemma wp_bind {A B} (c : M A) (k : A -> M B) Q w :
  wp c (fun a w1 => wp (k a) Q w1) w -> wp (bind c k) Q w.
Proof.
  intros (a & w1 & E & b & w2 & E2 & H). exists b, w2.
  split; [|exact H]. unfold bind. rewrite E. exact E2.
Qed.

Lemma wp_defer {A} (f : M unit) (body : M A) Q w :
  wp body (fun a w1 => wp f (fun _ w2 => Q a w2) w1) w -> wp (defer f body) Q w.
Proof.
  intros (a & w1 & E & u & w2 & E2 & H). exists a, w2.
  split; [|exact H]. unfold defer. rewrite E, E2. reflexivity.
Qed.

Lemma wp_log_Printf line Q w :
  Q tt (set_logs (logs w ++ [line]) w) -> wp (log_Printf line) Q w.
Proof. intros H. eexists _, _. split; [reflexivity|exact H]. Qed.

Lemma wp_os_Getenv key Q w :
  Q (default "" (env w !! key)) w -> wp (os_Getenv key) Q w.
Proof. intros H. eexists _, _. split; [reflexivity|exact H]. Qed.

Lemma wp_rand_Intn n Q w :
  0 < n ->
  Q (fst (rand_draw n (rng w))) (set_rng (snd (rand_draw n (rng w))) w) ->
  wp (rand_Intn n) Q w.
Proof. intros Hn H. eexists _, _. split; [apply rand_Intn_run; exact Hn|exact H]. Qed.

Lemma wp_index (l : list string) i x Q w :
  0 <= i -> l !! Z.to_nat i = Some x -> Q x w -> wp (index l i) Q w.
Proof.
  intros Hi Hl H. exists x, w. split; [|exact H]. unfold index.
  destruct (Z.ltb_spec i 0); [lia|]. rewrite Hl. reflexivity.
Qed.

Lemma wp_tracer_Start name scope Q w :
  tracer w = Some scope ->
  Q (next_span w)
    (set_live (<[next_span w := mkLiveSpan name scope (now w + next_delay (latency w)) []]>
                 (live w))
              (S (next_span w)) (advance w)) ->
  wp (tracer_Start name) Q w.
Proof.
  intros Ht H. eexists _, _. split; [|exact H].
  unfold tracer_Start. rewrite Ht. reflexivity.
Qed.

Lemma wp_span_SetAttributes id kv s Q w :
  live w !! id = Some s ->
  Q tt (set_live (<[id := mkLiveSpan (live_name s) (live_scope s) (live_start s)
                                     (live_attrs s ++ [kv])]> (live w))
                 (next_span w) w) ->
  wp (span_SetAttributes id kv) Q w.
Proof.
  intros Hl H. eexists _, _. split; [|exact H].
  unfold span_SetAttributes. rewrite Hl. reflexivity.
Qed.

Lemma wp_span_End id s Q w :
  live w !! id = Some s ->
  Q tt (set_spans (spans w ++ [mkSpan (live_name s) (live_scope s) (live_start s)
                                      (now w + next_delay (latency w)) (live_attrs s)])
                  (set_live (delete id (live w)) (next_span w) (advance w))) ->
  wp (span_End id) Q w.
Proof.
  intros Hl H. eexists _, _. split; [|exact H].
  unfold span_End. rewrite Hl. reflexivity.
Qed.

(** [client.Do] through the instrumented transport, by cases. *)
Lemma wp_client_Do_bare p url Q w :
  provider w = None ->
  Q match round_trip p url with
    | inl err => inl err
    | inr code => inr (code, None)
    end (set_events (events w ++ [EvGet url]) w) ->
  wp (client_Do p url) Q w.
Proof.
  intros Hp H. eexists _, _. split; [|exact H].
  unfold client_Do. rewrite Hp. destruct (round_trip p url); reflexivity.
Qed.

Lemma wp_client_Do_failed p url tp err Q w :
  provider w = Some tp -> round_trip p url = inl err ->
  Q (inl err)
    (set_spans (spans w ++ [mkSpan "HTTP GET" otelhttp_scope
                                   (now w + next_delay (latency w))
                                   (now w + next_delay (latency w)
                                    + next_delay (tail (latency w)))
                                   [("http.url", AttrString url)]])
       (set_live (delete (next_span w)
                         (<[next_span w := mkLiveSpan "HTTP GET" otelhttp_scope
                                             (now w + next_delay (latency w))
                                             [("http.url", AttrString url)]]> (live w)))
                 (S (next_span w))
                 (set_clock (now w + next_delay (latency w) + next_delay (tail (latency w)))
                            (tail (tail (latency w)))
                            (set_events (events w ++ [EvGet url]) w)))) ->
  wp (client_Do p url) Q w.
Proof.
  intros Hp Hr H. eexists _, _. split; [|exact H].
  unfold client_Do. rewrite Hp, Hr. go_run. reflexivity.
Qed.

Lemma wp_client_Do_answered p url tp code Q w :
  provider w = Some tp -> round_trip p url = inr code ->
  Q (inr (code, Some (next_span w)))
    (set_events (events w ++ [EvGet url])
       (set_live (<[next_span w := mkLiveSpan "HTTP GET" otelhttp_scope
                                     (now w + next_delay (latency w))
                                     [("http.url", AttrString url)]]> (live w))
                 (S (next_span w)) (advance w))) ->
  wp (client_Do p url) Q w.
Proof.
  intros Hp Hr H. eexists _, _. split; [|exact H].
  unfold client_Do. rewrite Hp, Hr. go_run. reflexivity.
Qed.

Tactic Notation "wp_cbn" :=
  cbn beta;
  cbn [fst snd rng now latency env provider tracer ticker live next_span spans
       logs events set_rng set_clock set_env set_provider set_tracer set_ticker
       set_live set_spans set_logs set_events advance
       live_name live_scope live_start live_attrs
       span_name span_scope span_start span_end span_attrs].

Tactic Notation "wp_cbn" "in" hyp(H) :=
  cbn beta in H;
  cbn [fst snd rng now latency env provider tracer ticker live next_span spans
       logs events set_rng set_clock set_env set_provider set_tracer set_ticker
       set_live set_spans set_logs set_events advance
       live_name live_scope live_start live_attrs
       span_name span_scope span_start span_end span_attrs] in H.

Ltac wp_step :=
  lazymatch goal with
  | |- wp (bind _ _) _ _ => apply wp_bind
  | |- wp (ret _) _ _ => apply wp_ret
  | |- wp (defer _ _) _ _ => apply wp_defer
  | |- wp (log_Printf _) _ _ => apply wp_log_Printf
  | |- wp (os_Getenv _) _ _ => apply wp_os_Getenv
  | |- wp (rand_Intn _) _ _ => apply wp_rand_Intn; [lia|]
  | |- wp (span_SetAttributes _ _) _ _ =>
      eapply wp_span_SetAttributes; [wp_cbn; repeat go_lookup; reflexivity|]
  | |- wp (span_End _) _ _ =>
      eapply wp_span_End; [wp_cbn; repeat go_lookup; reflexivity|]
  end; wp_cbn.

Ltac tick_post_solve :=
  unfold keeps_config; wp_cbn;
  split; [repeat split; reflexivity|];
  split; [reflexivity|];
  split; [try rewrite app_nil_r; reflexivity|];
  split; [delays; lia|];
  first [ exists []; eexists; split; [reflexivity|]
        | eexists [_], _; split; [symmetry; apply app_assoc|] ];
  wp_cbn; split; [reflexivity|]; split; [delays; lia|];
  first [ solve [constructor]
        | constructor; [split; [reflexivity | wp_cbn; delays; lia] | constructor] ].

Lemma Sender_url_cases (w : World) :
  exists base path i,
    fst (rand_draw 2 (rng w)) = i /\ ["/"; "/health"] !! Z.to_nat i = Some path /\
    0 <= i /\ receiver_base w = base /\ sender_url w = base +:+ path.
Proof.
  pose proof (rand_draw_range 2 (rng w) ltac:(lia)) as Hi.
  unfold sender_url, sender_path.
  assert (Hi' : fst (rand_draw 2 (rng w)) = 0 \/ fst (rand_draw 2 (rng w)) = 1) by lia.
  destruct Hi' as [E|E]; rewrite E.
  - exists (receiver_base w), "/", 0. repeat split; reflexivity || lia.
  - exists (receiver_base w), "/health", 1. repeat split; reflexivity || lia.
Qed.

Lemma Sender_generateDummyTraces_wp (p : Peer) (w : World) scope :
  tracer w = Some scope ->
  wp (Sender.generateDummyTraces p) (tick_post p w) w.
Proof.
  intros Ht. unfold Sender.generateDummyTraces.
  wp_step. eapply wp_tracer_Start; [exact Ht|]. wp_cbn.
  repeat wp_step.
  change (Z.of_nat (length ["/"; "/health"])) with 2.
  destruct (Sender_url_cases w) as (base & path & i & Hi & Hl & Hpos & Hb & Hurl).
  unfold tick_post. rewrite Hurl. clear Hurl.
  unfold receiver_base in Hb. cbn zeta in Hb.
  destruct (String.eqb (default "" (env w !! "RECEIVER_ENDPOINT")) "");
    subst base; repeat wp_step; rewrite Hi;
    (eapply wp_index; [exact Hpos|exact Hl|]); wp_cbn; clear Hi Hl Hpos.
  all: match goal with
       | |- context [new_request_err ?q ?u] => destruct (new_request_err q u)
       end; repeat wp_step.
  1, 3: tick_post_solve.
  all: destruct (provider w) as [tp|] eqn:Ep.
  all: match goal with
       | |- context [client_Do ?q ?u] => destruct (round_trip q u) as [err|code] eqn:Er
       end.
  all: first [ eapply wp_client_Do_failed; [exact Ep|exact Er|]
             | eapply wp_client_Do_answered; [exact Ep|exact Er|]
             | eapply wp_client_Do_bare; [exact Ep|rewrite Er] ];
       wp_cbn; repeat wp_step; unfold Body_Close; wp_cbn; repeat wp_step.
  all: tick_post_solve.
Qed.

Lemma Sender_generateDummyTraces_run (p : Peer) (w : World) scope :
  tracer w = Some scope ->
  exists w', Sender.generateDummyTraces p w = (Done tt, w') /\ tick_post p w tt w'.
Proof.
  intros Ht. destruct (Sender_generateDummyTraces_wp p w scope Ht) as ([] & w' & E & H).
  exists w'. split; assumption.
Qed.

Ltac initTracer_solve :=
  unfold initTracer_result, after_initTracer, tempo_endpoint,
    bind, os_Getenv, otlptrace_New, otel_SetTracerProvider, ret;
  cbn zeta;
  repeat match goal with
         | |- context [exporter_err ?e ?x] => destruct (exporter_err e x)
         | |- context [resource_err ?e] => destruct (resource_err e)
         end; reflexivity.

Lemma Sender_initTracer_run (ext : Outside) (w : World) :
  Sender.initTracer ext w = initTracer_result "monitoring-test-sender" ext w.
Proof. unfold Sender.initTracer. initTracer_solve. Qed.

Lemma Receiver_initTracer_run (ext : Outside) (w : World) :
  Receiver.initTracer ext w = initTracer_result "monitoring-test-receiver" ext w.
Proof. unfold Receiver.initTracer. initTracer_solve. Qed.

Lemma TracedApp_initTracer_run (ext : Outside) (w : World) :
  TracedApp.initTracer ext w = initTracer_result "monitoring-test-app" ext w.
Proof. unfold TracedApp.initTracer. initTracer_solve. Qed.

Lemma Sender_main_fatal (ext : Outside) (incoming : list Incoming) (w : World) err :
  exporter_err ext (tempo_endpoint w) = Some err ->
  Sender.main ext incoming w = (Exited 1, fatal_world err w).
Proof.
  intros He. unfold Sender.main, bind. rewrite Sender_initTracer_run.
  unfold initTracer_result. rewrite He. reflexivity.
Qed.

Lemma Receiver_main_fatal (ext : Outside) (incoming : list Incoming) (w : World) err :
  exporter_err ext (tempo_endpoint w) = Some err ->
  Receiver.main ext incoming w = (Exited 1, fatal_world err w).
Proof.
  intros He. unfold Receiver.main, bind. rewrite Receiver_initTracer_run.
  unfold initTracer_result. rewrite He. reflexivity.
Qed.

Lemma TracedApp_main_fatal (ext : Outside) (incoming : list Incoming) (w : World) err :
  exporter_err ext (tempo_endpoint w) = Some err ->
  TracedApp.main ext incoming w = (Exited 1, fatal_world err w).
Proof.
  intros He. unfold TracedApp.main, bind. rewrite TracedApp_initTracer_run.
  unfold initTracer_result. rewrite He. reflexivity.
Qed.

Lemma count_spans_app name l1 l2 :
  count_spans name (l1 ++ l2) = (count_spans name l1 + count_spans name l2)%nat.
Proof. unfold count_spans. rewrite List.filter_app, length_app. reflexivity. Qed.

Lemma count_spans_other name other (l : list Span) :
  String.eqb other name = false ->
  Forall (fun x => span_name x = other /\ span_start x <= span_end x) l ->
  count_spans name l = 0%nat.
Proof.
  intros Hne H. induction H as [|x l [Hx _] _ IH]; [reflexivity|].
  unfold count_spans in *. simpl. rewrite Hx, Hne. exact IH.
Qed.

Lemma tick_post_count p w w' :
  tick_post p w tt w' ->
  count_spans "periodic-dummy-request" (spans w')
  = S (count_spans "periodic-dummy-request" (spans w)).
Proof.
  intros (_ & _ & _ & _ & extra & s & Hs & Hn & _ & Hex).
  rewrite Hs, !count_spans_app.
  rewrite (count_spans_other _ "HTTP GET" extra) by (reflexivity || exact Hex).
  assert (Hone : count_spans "periodic-dummy-request" [s] = 1%nat)
    by (unfold count_spans; cbn [List.filter]; rewrite Hn; reflexivity).
  rewrite Hone. lia.
Qed.

Lemma tick_post_events p w w' :
  tick_post p w tt w' ->
  exists evs, events w' = (events w ++ evs)%list /\ Forall is_get evs.
Proof.
  intros (_ & _ & He & _). rewrite He.
  destruct (new_request_err p (sender_url w)).
  - exists []. split; [reflexivity|constructor].
  - eexists. split; [reflexivity|]. repeat constructor. eexists. reflexivity.
Qed.

Lemma Sender_busy_loop_run {A} (incoming : list Incoming) :
  forall w scope, tracer w = Some scope ->
    exists w', @busy_loop _ A Sender.generateDummyTraces incoming w = (Running, w') /\
               spinning incoming w w'.
Proof.
  unfold busy_loop.
  induction incoming as [|ev rest IH]; intros w sc Ht.
  - exists w. split; [reflexivity|]. unfold spinning.
    repeat split; try reflexivity.
    + exists []. rewrite app_nil_r. split; [reflexivity|constructor].
    + destruct (ticker w); unfold count_ticks; simpl; lia.
  - cbn [schedule]. unfold bind.
    destruct ev as [p|r|key value]; cbn [react].
    + destruct (ticker w) as [d|] eqn:Ek.
      * destruct (Sender_generateDummyTraces_run p w sc Ht) as (w1 & E & Hpost).
        rewrite E.
        pose proof Hpost as ((Hk1 & Hk2 & Hk3 & Hk4) & _).
        destruct (IH w1 sc) as (w' & E' & H1 & H2 & H3 & (evs & He & Hg) & Hc);
          [congruence|].
        exists w'. split; [exact E'|]. unfold spinning.
        destruct (tick_post_events _ _ _ Hpost) as (evs1 & He1 & Hg1).
        split; [congruence|]. split; [congruence|]. split; [congruence|]. split.
        -- exists (evs1 ++ evs)%list. rewrite He, He1, app_assoc.
           split; [reflexivity|]. apply Forall_app. split; assumption.
        -- rewrite Hc, (tick_post_count _ _ _ Hpost), Hk3, Ek.
           unfold count_ticks. simpl. lia.
      * destruct (IH w sc Ht) as (w' & E' & H1 & H2 & H3 & He & Hc).
        exists w'. split; [exact E'|]. unfold spinning.
        repeat split; try assumption. rewrite Hc, Ek. lia.
    + unfold ret. destruct (IH w sc Ht) as (w' & E' & H1 & H2 & H3 & He & Hc).
      exists w'. split; [exact E'|]. unfold spinning.
      repeat split; assumption.
    + destruct (IH (set_env (<[key:=value]> (env w)) w) sc Ht)
        as (w' & E' & H1 & H2 & H3 & He & Hc).
      exists w'. split; [exact E'|]. unfold spinning.
      repeat split; assumption.
Qed.

Lemma five_seconds : Duration_mul 5 Second = 5000000000.
Proof. reflexivity. Qed.

Lemma Sender_main_run (ext : Outside) (incoming : list Incoming) (w : World) :
  exporter_err ext (tempo_endpoint w) = None -> resource_err ext = None ->
  exists w', Sender.main ext incoming w = (Running, w') /\
             spinning incoming (Sender_started w) w'.
Proof.
  intros He Hr. unfold Sender.main. unfold bind at 1.
  rewrite Sender_initTracer_run. unfold initTracer_result. rewrite He, Hr.
  destruct (Sender_busy_loop_run (A:=unit) incoming (Sender_started w)
              "monitoring-test-sender" eq_refl) as (w' & E & H).
  exists w'. split; [|exact H].
  unfold defer.
  match goal with
  | |- (let (_, _) := ?body ?w0 in _) = _ =>
      assert (Hbody : body w0 = (Running, w'))
  end.
  { rewrite <- E. unfold Sender.startPeriodicRequests. rewrite five_seconds.
    reflexivity. }
  rewrite Hbody. reflexivity.
Qed.

Lemma Receiver_routes_traced : traced_mux Receiver.routes.
Proof.
  intros path. unfold mux_handler, Receiver.routes, http_Handle.
  cbn [app mux_find].
  destruct (String.eqb "/" path);
    [eexists _, _, _, _, _; split; [reflexivity|apply Receiver_home_spec]|].
  destruct (String.eqb "/health" path);
    [eexists _, _, _, _, _; split; [reflexivity|apply Receiver_health_spec]|].
  destruct (String.eqb "/slow" path);
    [eexists _, _, _, _, _; split; [reflexivity|apply Receiver_slow_spec]|].
  destruct (String.eqb "/error" path);
    [eexists _, _, _, _, _; split; [reflexivity|apply Receiver_error_spec]|].
  cbn [String.eqb Ascii.eqb Bool.eqb].
  eexists _, _, _, _, _; split; [reflexivity|apply Receiver_home_spec].
Qed.

Lemma TracedApp_routes_traced : traced_mux TracedApp.routes.
Proof.
  intros path. unfold mux_handler, TracedApp.routes, http_Handle.
  cbn [app mux_find].
  destruct (String.eqb "/" path);
    [eexists _, _, _, _, _; split; [reflexivity|apply TracedApp_home_spec]|].
  destruct (String.eqb "/health" path);
    [eexists _, _, _, _, _; split; [reflexivity|apply TracedApp_health_spec]|].
  destruct (String.eqb "/slow" path);
    [eexists _, _, _, _, _; split; [reflexivity|apply TracedApp_slow_spec]|].
  destruct (String.eqb "/error" path);
    [eexists _, _, _, _, _; split; [reflexivity|apply TracedApp_error_spec]|].
  cbn [String.eqb Ascii.eqb Bool.eqb].
  eexists _, _, _, _, _; split; [reflexivity|apply TracedApp_home_spec].
Qed.

Lemma serve_one_traced (mux : ServeMux) (r : Request) (w : World) scope :
  traced_mux mux -> tracer w = Some scope ->
  exists w', serve_one mux r w = (Done tt, w') /\ answered w w'.
Proof.
  intros Hmux Ht.
  destruct (Hmux (URL_Path r)) as (h & op & out & next & dmin & Hh & Hspec).
  destruct (otelhttp_NewHandler_spec h op out next dmin Hspec newResponseWriter r w scope Ht)
    as (w1 & E & (Hk & Hnow & Hsp) & _ & _).
  rewrite <- Hh in E. rewrite (serve_one_Done _ _ _ _ _ E).
  eexists. split; [reflexivity|].
  destruct Hk as (H1 & H2 & H3 & H4 & H5).
  unfold answered, keeps_config. cbn [tracer provider ticker env events now spans set_events].
  split; [repeat split; assumption|]. split; [exact Hnow|].
  split; [rewrite H5; eexists _, _; reflexivity|].
  destruct (provider w).
  - destruct Hsp as (s1 & s2 & Hs & Hw1 & Hw2 & _). exists s1, s2. repeat split; assumption.
  - exact Hsp.
Qed.

Lemma schedule_traced {A} (mux : ServeMux) (incoming : list Incoming) :
  traced_mux mux ->
  forall w scope, tracer w = Some scope ->
    exists w', @schedule _ A (Some mux) (fun _ => ret tt) incoming w = (Running, w') /\
               serving incoming w w'.
Proof.
  intros Hmux. induction incoming as [|ev rest IH]; intros w sc Ht.
  - exists w. split; [reflexivity|]. unfold serving. repeat split; try reflexivity.
    exists []. rewrite app_nil_r. split; [reflexivity|]. split; [constructor|].
    destruct (provider w); reflexivity.
  - cbn [schedule]. unfold bind. destruct ev as [p|r|key value]; cbn [react].
    + assert (Hr : (match ticker w with
                    | Some _ => ret tt w
                    | None => (Done tt, w)
                    end) = (Done tt, w)) by (destruct (ticker w); reflexivity).
      rewrite Hr. destruct (IH w sc Ht) as (w' & E & H). exists w'. split; [exact E|exact H].
    + destruct (serve_one_traced mux r w sc Hmux Ht) as (w1 & E1 & Hk & Hnow & _ & Hsp).
      rewrite E1. destruct Hk as (H1 & H2 & H3 & H4).
      destruct (IH w1 sc) as (w' & E & G1 & G2 & G3 & added & Hs & Hw & Hl); [congruence|].
      exists w'. split; [exact E|]. unfold serving.
      split; [congruence|]. split; [congruence|]. split; [congruence|].
      rewrite H2 in Hl. unfold count_arrivals. cbn [List.filter length].
      fold (count_arrivals rest).
      destruct (provider w).
      * destruct Hsp as (s1 & s2 & Hs1 & Hw1 & Hw2).
        exists ([s1; s2] ++ added)%list. rewrite Hs, Hs1, <- app_assoc.
        split; [reflexivity|]. split.
        -- apply Forall_app. split; [repeat constructor; assumption|exact Hw].
        -- rewrite length_app, Hl. simpl. lia.
      * destruct Hsp as (s1 & Hs1 & Hw1).
        exists ([s1] ++ added)%list. rewrite Hs, Hs1, <- app_assoc.
        split; [reflexivity|]. split.
        -- apply Forall_app. split; [repeat constructor; assumption|exact Hw].
        -- rewrite length_app, Hl. simpl. lia.
    + destruct (IH (set_env (<[key:=value]> (env w)) w) sc Ht) as (w' & E & H).
      exists w'. split; [exact E|exact H].
Qed.

Lemma Receiver_main_run (ext : Outside) (incoming : list Incoming) (w : World) :
  exporter_err ext (tempo_endpoint w) = None -> resource_err ext = None ->
  listen_err ext ":8081" = None ->
  exists w', Receiver.main ext incoming w = (Running, w') /\
             serving incoming (Receiver_started w) w'.
Proof.
  intros He Hr Hl. unfold Receiver.main. unfold bind at 1.
  rewrite Receiver_initTracer_run. unfold initTracer_result. rewrite He, Hr.
  destruct (schedule_traced (A:=option string) Receiver.routes incoming
              Receiver_routes_traced (Receiver_started w)
              "monitoring-test-receiver" eq_refl) as (w' & E & H).
  exists w'. split; [|exact H].
  unfold defer.
  match goal with
  | |- (let (_, _) := ?body ?w0 in _) = _ =>
      assert (Hbody : body w0 = (Running, w'))
  end.
  { cbn zeta. change (":" +:+ pretty 8081) with ":8081".
    change ("수신 서버가 포트 " +:+ pretty 8081 +:+ "에서 시작됩니다...")
      with "수신 서버가 포트 8081에서 시작됩니다...".
    unfold http_ListenAndServe. rewrite Hl.
    unfold bind, log_Printf, emit.
    unfold Receiver_started in E. cbn zeta in E.
    wp_cbn. wp_cbn in E. rewrite E. reflexivity. }
  rewrite Hbody. reflexivity.
Qed.

(** One request on a given route. *)
Lemma serve_one_route (mux : ServeMux) (r : Request) (w : World) scope
      h operation out next dmin :
  mux_handler mux (URL_Path r) = otelhttp_NewHandler h operation ->
  handler_spec h out next dmin ->
  tracer w = Some scope ->
  exists w', serve_one mux r w = (Done tt, w') /\
    events w' = (events w ++ [EvResponse (fst (response (out (rng w) newResponseWriter)))
                                        (snd (response (out (rng w) newResponseWriter)))])%list /\
    rng w' = next (rng w) /\ now w + dmin (rng w) <= now w' /\ answered w w'.
Proof.
  intros Hh Hspec Ht.
  destruct (otelhttp_NewHandler_spec h operation out next dmin Hspec newResponseWriter r w
              scope Ht) as (w1 & E & (Hk & Hnow & Hsp) & Hg & Hd).
  rewrite <- Hh in E. rewrite (serve_one_Done _ _ _ _ _ E).
  eexists. split; [reflexivity|].
  destruct Hk as (H1 & H2 & H3 & H4 & H5).
  unfold answered, keeps_config.
  cbn [tracer provider ticker env events now spans rng set_events].
  rewrite H5. split; [reflexivity|]. split; [exact Hg|]. split; [exact Hd|].
  split; [repeat split; assumption|]. split; [exact Hnow|].
  split; [eexists _, _; reflexivity|].
  destruct (provider w).
  - destruct Hsp as (s1 & s2 & Hs & Hw1 & Hw2 & _). exists s1, s2. repeat split; assumption.
  - exact Hsp.
Qed.

Lemma serve_one_App (r : Request) (w : World) (h : HandlerFunc) rw w1 :
  mux_handler App.routes (URL_Path r) = h ->
  h newResponseWriter r w = (Done rw, w1) ->
  exists w', serve_one App.routes r w = (Done tt, w') /\
             events w' = (events w1 ++ [EvResponse (fst (response rw)) (snd (response rw))])%list /\
             rng w' = rng w1 /\ now w' = now w1 /\ spans w' = spans w1.
Proof.
  intros Hh E. rewrite <- Hh in E. rewrite (serve_one_Done _ _ _ _ _ E).
  eexists. split; [reflexivity|]. repeat split; reflexivity.
Qed.

(** C8. For every call to [/health] the handler answers 200 with the fixed
    status text of the variant, whatever the request carries and whatever
    the state of the process: the plain server in any state at all, the
    traced server and the receiver once their tracer is set, which is the
    case from start-up on. *)
Theorem health_always_200 (r : Request) (w : World) :
  URL_Path r = "/health" ->
  (exists w', serve_one App.routes r w = (Done tt, w') /\
              events w' = (events w ++ [EvResponse 200 ("상태: 정상" +:+ LF)])%list) /\
  (forall scope, tracer w = Some scope ->
     (exists w', serve_one TracedApp.routes r w = (Done tt, w') /\
                 events w' = (events w ++ [EvResponse 200 ("상태: 정상" +:+ LF)])%list) /\
     (exists w', serve_one Receiver.routes r w = (Done tt, w') /\
                 events w' = (events w ++ [EvResponse 200
                                ("수신 서버: 상태: 정상" +:+ LF)])%list)).
Proof.
  intros Hp. split; [|intros scope Ht; split].
  - destruct (App_healthHandler_run newResponseWriter r w) as (w1 & E & (Hk & _) & _).
    edestruct (serve_one_App r w App.healthHandler) as (w' & E' & He & _);
      [rewrite Hp; reflexivity|exact E|].
    exists w'. split; [exact E'|]. rewrite He.
    destruct Hk as (_ & _ & _ & _ & Hev). rewrite Hev. reflexivity.
  - destruct (serve_one_route TracedApp.routes r w scope _ "health" _ _ _
                ltac:(rewrite Hp; reflexivity) TracedApp_health_spec Ht)
      as (w' & E & He & _).
    exists w'. split; [exact E|exact He].
  - destruct (serve_one_route Receiver.routes r w scope _ "health" _ _ _
                ltac:(rewrite Hp; reflexivity) Receiver_health_spec Ht)
      as (w' & E & He & _).
    exists w'. split; [exact E|exact He].
Qed.

(** C3. For every call to [/slow] the delay is 100 plus the value drawn by
    [rand.Intn(1900)], hence an integer of [[100, 2000)] that is uniform
    when the draw is; the response is 200 and reports that delay; the time
    until the response is at least the delay, and exactly the delay when the
    scheduler adds nothing. *)
Theorem slow_sleeps_reported_delay (r : Request) (w : World) (scope : string) :
  URL_Path r = "/slow" -> tracer w = Some scope ->
  let delay := 100 + fst (rand_draw 1900 (rng w)) in
  let text := "느린 응답 완료! 지연 시간: " +:+ pretty delay +:+ " ms" +:+ LF in
  100 <= delay < 2000 /\
  (exists w', serve_one TracedApp.routes r w = (Done tt, w') /\
              events w' = (events w ++ [EvResponse 200 text])%list /\
              now w + delay * Millisecond <= now w') /\
  (exists w', serve_one Receiver.routes r w = (Done tt, w') /\
              events w' = (events w ++ [EvResponse 200 text])%list /\
              now w + delay * Millisecond <= now w') /\
  (latency w = [] ->
   forall rw,
     (exists rw' w', TracedApp.slowResponseHandler rw r w = (Done rw', w') /\
                     now w' = now w + delay * Millisecond) /\
     (exists rw' w', Receiver.slowResponseHandler rw r w = (Done rw', w') /\
                     now w' = now w + delay * Millisecond)).
Proof.
  intros Hp Ht delay text.
  pose proof (rand_draw_range 1900 (rng w) ltac:(lia)) as Hx.
  split; [unfold delay; lia|]. split; [|split].
  - destruct (serve_one_route TracedApp.routes r w scope _ "slow" _ _ _
                ltac:(rewrite Hp; reflexivity) TracedApp_slow_spec Ht)
      as (w' & E & He & _ & Hn & _).
    exists w'. split; [exact E|]. split; [exact He|exact Hn].
  - destruct (serve_one_route Receiver.routes r w scope _ "slow" _ _ _
                ltac:(rewrite Hp; reflexivity) Receiver_slow_spec Ht)
      as (w' & E & He & _ & Hn & _).
    exists w'. split; [exact E|]. split; [exact He|exact Hn].
  - intros Hl rw. split.
    + destruct (TracedApp_slowResponseHandler_run rw r w scope Ht)
        as (w' & E & _ & _ & _ & Hexact).
      eexists _, w'. split; [exact E|exact (Hexact Hl)].
    + destruct (Receiver_slowResponseHandler_run rw r w scope Ht)
        as (w' & E & _ & _ & _ & Hexact).
      eexists _, w'. split; [exact E|exact (Hexact Hl)].
Qed.

(** C4. For every call to [/error] one value is drawn by [rand.Intn(5)]; the
    response is 500 with the error text exactly when the value is 0, and 200
    with the success text otherwise; one response is sent and nothing is
    drawn or tried again. *)
Theorem error_one_in_five (r : Request) (w : World) (scope : string) :
  URL_Path r = "/error" -> tracer w = Some scope ->
  let x := fst (rand_draw 5 (rng w)) in
  let code := if Z.eqb x 0 then 500 else 200 in
  let text := if Z.eqb x 0 then "내부 서버 오류가 발생했습니다!" +:+ LF
              else "이번에는 에러가 발생하지 않았습니다!" +:+ LF in
  0 <= x < 5 /\
  (exists w', serve_one TracedApp.routes r w = (Done tt, w') /\
              events w' = (events w ++ [EvResponse code text])%list /\
              rng w' = snd (rand_draw 5 (rng w))) /\
  (exists w', serve_one Receiver.routes r w = (Done tt, w') /\
              events w' = (events w ++ [EvResponse code text])%list /\
              rng w' = snd (rand_draw 5 (rng w))).
Proof.
  intros Hp Ht x code text.
  split; [apply rand_draw_range; lia|].
  assert (Hout : response (error_out (rng w) newResponseWriter) = (code, text)).
  { unfold error_out, code, text. fold x. destruct (Z.eqb x 0); reflexivity. }
  split.
  - destruct (serve_one_route TracedApp.routes r w scope _ "error" _ _ _
                ltac:(rewrite Hp; reflexivity) TracedApp_error_spec Ht)
      as (w' & E & He & Hg & _).
    exists w'. split; [exact E|]. rewrite Hout in He. split; [exact He|exact Hg].
  - destruct (serve_one_route Receiver.routes r w scope _ "error" _ _ _
                ltac:(rewrite Hp; reflexivity) Receiver_error_spec Ht)
      as (w' & E & He & Hg & _).
    exists w'. split; [exact E|]. rewrite Hout in He. split; [exact He|exact Hg].
Qed.

Lemma repeat_GET_error (mux : ServeMux) (h : HandlerFunc) :
  mux_handler mux "/error" = otelhttp_NewHandler h "error" ->
  handler_spec h error_out (fun g => snd (rand_draw 5 g)) (fun _ => 0) ->
  forall reqs1 reqs2 w1 w2 sc1 sc2,
    rng w1 = rng w2 -> tracer w1 = Some sc1 -> tracer w2 = Some sc2 ->
    Forall (fun r => URL_Path r = "/error") reqs1 ->
    Forall (fun r => URL_Path r = "/error") reqs2 ->
    length reqs1 = length reqs2 ->
    repeat_GET mux reqs1 w1 = repeat_GET mux reqs2 w2 /\
    Forall (fun o => o = Some 200 \/ o = Some 500) (repeat_GET mux reqs1 w1).
Proof.
  intros Hh Hspec. induction reqs1 as [|r1 rest1 IH]; intros [|r2 rest2] w1 w2 sc1 sc2
    Hg Ht1 Ht2 Hf1 Hf2 Hlen; try discriminate.
  - split; [reflexivity|constructor].
  - inversion Hf1 as [|? ? Hp1 Hf1']; subst. inversion Hf2 as [|? ? Hp2 Hf2']; subst.
    cbn [repeat_GET]. rewrite Hp1, Hp2, Hh.
    destruct (otelhttp_NewHandler_spec h "error" _ _ _ Hspec newResponseWriter r1 w1 sc1 Ht1)
      as (w1' & E1 & ((Hk1 & _) & _) & Hg1 & _).
    destruct (otelhttp_NewHandler_spec h "error" _ _ _ Hspec newResponseWriter r2 w2 sc2 Ht2)
      as (w2' & E2 & ((Hk2 & _) & _) & Hg2 & _).
    rewrite E1, E2.
    destruct (IH rest2 w1' w2' sc1 sc2) as (IH1 & IH2);
      [congruence|congruence|congruence|assumption|assumption|
       simpl in Hlen; congruence|].
    split; [rewrite IH1, Hg; reflexivity|].
    constructor; [|exact IH2].
    unfold error_out. destruct (Z.eqb (fst (rand_draw 5 (rng w1))) 0);
      [right|left]; reflexivity.
Qed.

(** [init] seeds the source with the clock reading of that moment. *)
Lemma init_seeds_from_clock (w : World) :
  TracedApp.init w
  = (Done tt, set_rng (rand_Seed (wrap64 (now w + next_delay (latency w)))) (advance w)).
Proof. reflexivity. Qed.

(** C10. On the same request and the same source state, each handler of the
    plain server writes exactly what the handler of the same name of the
    traced server writes, and leaves the source in the same state; the plain
    one records no span. *)
Theorem tracing_keeps_responses (rw : ResponseWriter) (r : Request) (w1 w2 : World)
        (scope : string) :
  rng w1 = rng w2 -> tracer w2 = Some scope ->
  let same (plain traced : HandlerFunc) :=
    exists rw' w1' w2',
      plain rw r w1 = (Done rw', w1') /\ traced rw r w2 = (Done rw', w2') /\
      rng w1' = rng w2' /\ spans w1' = spans w1 in
  same App.homeHandler TracedApp.homeHandler /\
  same App.healthHandler TracedApp.healthHandler /\
  same App.slowResponseHandler TracedApp.slowResponseHandler /\
  same App.errorHandler TracedApp.errorHandler.
Proof.
  intros Hg Ht same. unfold same. repeat split.
  - destruct (App_homeHandler_run rw r w1) as (w1' & E1 & (_ & Hs & _) & G1).
    destruct (TracedApp_homeHandler_run rw r w2 scope Ht) as (w2' & E2 & _ & G2).
    eexists _, w1', w2'. repeat split; [exact E1|exact E2|congruence|exact Hs].
  - destruct (App_healthHandler_run rw r w1) as (w1' & E1 & (_ & Hs & _) & G1).
    destruct (TracedApp_healthHandler_run rw r w2 scope Ht) as (w2' & E2 & _ & G2).
    eexists _, w1', w2'. repeat split; [exact E1|exact E2|congruence|exact Hs].
  - destruct (App_slowResponseHandler_run rw r w1) as (w1' & E1 & (_ & Hs & _) & G1 & _).
    destruct (TracedApp_slowResponseHandler_run rw r w2 scope Ht) as (w2' & E2 & _ & G2 & _).
    rewrite Hg in E1. eexists _, w1', w2'.
    repeat split; [exact E1|exact E2|congruence|exact Hs].
  - destruct (App_errorHandler_run rw r w1) as (w1' & E1 & (_ & Hs & _) & G1).
    destruct (TracedApp_errorHandler_run rw r w2 scope Ht) as (w2' & E2 & _ & G2).
    rewrite Hg in E1. eexists _, w1', w2'.
    repeat split; [exact E1|exact E2|congruence|exact Hs].
Qed.

Lemma traced_handler_one_span (h : HandlerFunc) :
  In h traced_handlers ->
  forall rw r w rw' w', h rw r w = (Done rw', w') -> one_span w w'.
Proof.
  intros Hin rw r w rw' w' E.
  destruct (tracer w) as [sc|] eqn:Ht.
  - unfold traced_handlers in Hin. cbn [In] in Hin.
    destruct Hin as [<-|[<-|[<-|[<-|[<-|[<-|[<-|[<-|[]]]]]]]]].
    + destruct (TracedApp_homeHandler_run rw r w sc Ht) as (w1 & E1 & H & _). congruence.
    + destruct (TracedApp_healthHandler_run rw r w sc Ht) as (w1 & E1 & H & _). congruence.
    + destruct (TracedApp_slowResponseHandler_run rw r w sc Ht) as (w1 & E1 & H & _). congruence.
    + destruct (TracedApp_errorHandler_run rw r w sc Ht) as (w1 & E1 & H & _). congruence.
    + destruct (Receiver_homeHandler_run rw r w sc Ht) as (w1 & E1 & H & _). congruence.
    + destruct (Receiver_healthHandler_run rw r w sc Ht) as (w1 & E1 & H & _). congruence.
    + destruct (Receiver_slowResponseHandler_run rw r w sc Ht) as (w1 & E1 & H & _). congruence.
    + destruct (Receiver_errorHandler_run rw r w sc Ht) as (w1 & E1 & H & _). congruence.
  - exfalso. unfold traced_handlers in Hin. cbn [In] in Hin.
    destruct Hin as [<-|[<-|[<-|[<-|[<-|[<-|[<-|[<-|[]]]]]]]]];
      [ unfold TracedApp.homeHandler in E | unfold TracedApp.healthHandler in E
      | unfold TracedApp.slowResponseHandler in E | unfold TracedApp.errorHandler in E
      | unfold Receiver.homeHandler in E | unfold Receiver.healthHandler in E
      | unfold Receiver.slowResponseHandler in E | unfold Receiver.errorHandler in E ];
      unfold bind at 1 in E; unfold tracer_Start in E; rewrite Ht in E; discriminate.
Qed.

(** C2, as the code has it. Each completed invocation of a handler function
    of a traced variant records exactly one span, which ends no earlier than
    it starts. The handlers are registered wrapped in [otelhttp.NewHandler],
    so a request served on one of the registered paths ([/], [/health],
    [/slow], [/error]) of a started process records exactly two spans, the
    handler's and then the middleware's, each ending no earlier than it
    starts; a receiver that has served [n] requests on these paths has
    recorded [2 * n] spans. *)
Theorem handler_span_and_middleware_span :
  (forall h rw r w rw' w',
      In h traced_handlers -> h rw r w = (Done rw', w') ->
      exists s, spans w' = (spans w ++ [s])%list /\ span_start s <= span_end s) /\
  (forall mux r w tp scope,
      In mux traced_muxes -> In (URL_Path r) registered ->
      provider w = Some tp -> tracer w = Some scope ->
      exists w' s1 s2,
        serve_one mux r w = (Done tt, w') /\ spans w' = (spans w ++ [s1; s2])%list /\
        span_start s1 <= span_end s1 /\ span_start s2 <= span_end s2) /\
  (forall ext incoming w,
      exporter_err ext (tempo_endpoint w) = None -> resource_err ext = None ->
      listen_err ext ":8081" = None -> Forall on_route incoming ->
      exists w' added,
        Receiver.main ext incoming w = (Running, w') /\
        spans w' = (spans w ++ added)%list /\
        length added = (2 * count_arrivals incoming)%nat /\
        Forall well_timed added).
Proof.
  split; [|split]; cycle 2.
  { intros ext incoming w He Hr Hl _.
    destruct (Receiver_main_run ext incoming w He Hr Hl)
      as (w' & E & _ & _ & _ & added & Hs & Hw & Hlen).
    exists w', added. split; [exact E|]. split; [exact Hs|]. split; [exact Hlen|exact Hw]. }
  - intros h rw r w rw' w' Hin E.
    destruct (traced_handler_one_span h Hin rw r w rw' w' E)
      as (_ & _ & _ & _ & s & Hs & _ & Hle & _).
    exists s. split; assumption.
  - intros mux r w tp sc Hin _ Hp Ht.
    assert (Hmux : traced_mux mux).
    { unfold traced_muxes in Hin. cbn [In] in Hin. destruct Hin as [<-|[<-|[]]];
        [apply TracedApp_routes_traced|apply Receiver_routes_traced]. }
    destruct (serve_one_traced mux r w sc Hmux Ht) as (w' & E & _ & _ & _ & Hsp).
    rewrite Hp in Hsp. destruct Hsp as (s1 & s2 & Hs & H1 & H2).
    exists w', s1, s2. repeat split; assumption.
Qed.

(** C6. When [otlptrace.New] fails, [initTracer] returns the error and
    [main] ends the process with status 1. The exporter was tried once;
    nothing listens, no ticker runs, no provider is installed, and what
    reaches the process afterwards has no effect. *)
Theorem exporter_failure_is_fatal (ext : Outside) (incoming : list Incoming) (w : World)
        (err : string) :
  exporter_err ext (tempo_endpoint w) = Some err ->
  let tried := set_events (events w ++ [EvExporterNew (tempo_endpoint w)]) w in
  let msg := "OTLP exporter 생성 실패: " +:+ err in
  (Sender.initTracer ext w = (Done (inr msg), tried) /\
   Receiver.initTracer ext w = (Done (inr msg), tried) /\
   TracedApp.initTracer ext w = (Done (inr msg), tried)) /\
  (Sender.main ext incoming w = (Exited 1, fatal_world err w) /\
   Receiver.main ext incoming w = (Exited 1, fatal_world err w) /\
   TracedApp.main ext incoming w = (Exited 1, fatal_world err w)) /\
  events (fatal_world err w) = (events w ++ [EvExporterNew (tempo_endpoint w)])%list /\
  ticker (fatal_world err w) = ticker w /\
  provider (fatal_world err w) = provider w /\
  spans (fatal_world err w) = spans w.
Proof.
  intros He tried msg. split; [|split].
  - rewrite Sender_initTracer_run, Receiver_initTracer_run, TracedApp_initTracer_run.
    unfold initTracer_result. rewrite He. repeat split.
  - split; [|split].
    + apply Sender_main_fatal, He.
    + apply Receiver_main_fatal, He.
    + apply TracedApp_main_fatal, He.
  - repeat split.
Qed.

(** C9. Once the tracer is up, the sender's [main] starts the generator and
    never leaves its loop: however long it is observed, it has neither
    returned nor exited, and the deferred [Shutdown] has not run. *)
Theorem sender_main_never_returns (ext : Outside) (incoming : list Incoming) (w : World) :
  exporter_err ext (tempo_endpoint w) = None -> resource_err ext = None ->
  exists w' evs,
    Sender.main ext incoming w = (Running, w') /\
    events w' = (events w ++ [EvExporterNew (tempo_endpoint w)] ++ evs)%list /\
    ~ In EvShutdown ([EvExporterNew (tempo_endpoint w)] ++ evs) /\
    ticker w' = Some 5000000000.
Proof.
  intros He Hr.
  destruct (Sender_main_run ext incoming w He Hr)
    as (w' & E & _ & _ & Hk & (evs & Hev & Hg) & _).
  exists w', evs. split; [exact E|]. split; [|split].
  - rewrite Hev. unfold Sender_started, after_initTracer. wp_cbn.
    rewrite <- app_assoc. reflexivity.
  - intros [Hin|Hin]; [discriminate|].
    rewrite List.Forall_forall in Hg. destruct (Hg _ Hin) as (url & Hurl). discriminate.
  - rewrite Hk. reflexivity.
Qed.

(** C7. The sender's generator runs on a ticker of five seconds. At each
    tick it records one span of its own, takes the path at the index drawn by
    [rand.Intn] from the list of two, and sends a GET to the receiver
    address followed by that path. It completes whether the request could be
    built or not and whatever the round trip gave, so the loop goes on: after
    any number of ticks the process is still running, the ticker is the same,
    and there is one generator span per tick. *)
Theorem generator_ticks_forever (ext : Outside) (incoming : list Incoming) (w : World) :
  exporter_err ext (tempo_endpoint w) = None -> resource_err ext = None ->
  (exists w',
      Sender.main ext incoming w = (Running, w') /\
      ticker w' = Some (5 * Second) /\
      count_spans "periodic-dummy-request" (spans w')
      = (count_spans "periodic-dummy-request" (spans w) + count_ticks incoming)%nat) /\
  (forall p w0 scope,
      tracer w0 = Some scope ->
      let i := fst (rand_draw 2 (rng w0)) in
      let url := receiver_base w0 +:+ sender_path (rng w0) in
      0 <= i < 2 /\
      ["/"; "/health"] !! Z.to_nat i = Some (sender_path (rng w0)) /\
      exists w1,
        Sender.generateDummyTraces p w0 = (Done tt, w1) /\
        events w1 = (events w0 ++ match new_request_err p url with
                                  | None => [EvGet url]
                                  | Some _ => []
                                  end)%list /\
        count_spans "periodic-dummy-request" (spans w1)
        = S (count_spans "periodic-dummy-request" (spans w0)) /\
        tracer w1 = tracer w0 /\ ticker w1 = ticker w0).
Proof.
  intros He Hr. split.
  - destruct (Sender_main_run ext incoming w He Hr)
      as (w' & E & _ & _ & Hk & _ & Hc).
    exists w'. split; [exact E|]. split; [rewrite Hk; reflexivity|].
    rewrite Hc. reflexivity.
  - intros p w0 sc Ht i url.
    pose proof (rand_draw_range 2 (rng w0) ltac:(lia)) as Hi.
    split; [exact Hi|]. split.
    + unfold sender_path. fold i.
      assert (Hi' : i = 0 \/ i = 1) by (unfold i; lia).
      destruct Hi' as [->| ->]; reflexivity.
    + destruct (Sender_generateDummyTraces_run p w0 sc Ht) as (w1 & E & Hpost).
      exists w1. split; [exact E|].
      pose proof (tick_post_count _ _ _ Hpost) as Hc.
      destruct Hpost as ((H1 & _ & H3 & _) & _ & Hev & _).
      split; [exact Hev|]. split; [exact Hc|]. split; assumption.
Qed.

(** C1, as the code has it. [TEMPO_ENDPOINT] is read by [initTracer] at
    start-up, [tempo:4317] standing in for an empty or missing value, and the
    provider keeps that address whatever reaches the process later, changes
    of the environment included. [RECEIVER_ENDPOINT] is not captured: the
    sender's generator reads it at every tick, [http://localhost:8081]
    standing in for an empty or missing value, and sends its request to the
    address the environment holds at that tick. *)
Theorem endpoints_read_when_used (ext : Outside) (incoming : list Incoming) (w : World) :
  exporter_err ext (tempo_endpoint w) = None -> resource_err ext = None ->
  (exists w',
      Sender.main ext incoming w = (Running, w') /\
      provider w' = Some (mkTracerProvider (tempo_endpoint w) "monitoring-test-sender" "dev")) /\
  (listen_err ext ":8081" = None ->
   exists w',
      Receiver.main ext incoming w = (Running, w') /\
      provider w' = Some (mkTracerProvider (tempo_endpoint w) "monitoring-test-receiver" "dev")) /\
  (env w !! "TEMPO_ENDPOINT" = None -> tempo_endpoint w = "tempo:4317") /\
  (forall p w0 scope,
      tracer w0 = Some scope ->
      (env w0 !! "RECEIVER_ENDPOINT" = None -> receiver_base w0 = "http://localhost:8081") /\
      (forall v, env w0 !! "RECEIVER_ENDPOINT" = Some v -> v <> "" -> receiver_base w0 = v) /\
      (new_request_err p (receiver_base w0 +:+ sender_path (rng w0)) = None ->
       exists w1,
         Sender.generateDummyTraces p w0 = (Done tt, w1) /\
         events w1 = (events w0 ++ [EvGet (receiver_base w0 +:+ sender_path (rng w0))])%list)).
Proof.
  intros He Hr. split; [|split; [|split]].
  - destruct (Sender_main_run ext incoming w He Hr) as (w' & E & _ & Hp & _).
    exists w'. split; [exact E|]. rewrite Hp. reflexivity.
  - intros Hl.
    destruct (Receiver_main_run ext incoming w He Hr Hl) as (w' & E & _ & Hp & _).
    exists w'. split; [exact E|]. rewrite Hp. reflexivity.
  - intros Hn. unfold tempo_endpoint. rewrite Hn. reflexivity.
  - intros p w0 sc Ht. split; [|split].
    + intros Hn. unfold receiver_base. rewrite Hn. reflexivity.
    + intros v Hv Hne. unfold receiver_base. rewrite Hv.
      change (default "" (Some v)) with v. cbn zeta.
      destruct (String.eqb_spec v ""); [contradiction|reflexivity].
    + intros Hok.
      destruct (Sender_generateDummyTraces_run p w0 sc Ht) as (w1 & E & _ & _ & Hev & _).
      exists w1. split; [exact E|].
      unfold sender_url in Hev. rewrite Hok in Hev. exact Hev.
Qed.

(** *** Further properties of the handlers *)

Ltac trace_solve :=
  eexists _, _, _; split; [reflexivity|]; go_run;
  split; [reflexivity|];
  split; [first [reflexivity | rewrite <- app_assoc; reflexivity]|];
  delays; repeat split; lia.

Lemma Receiver_homeHandler_trace (rw : ResponseWriter) (r : Request) (w : World) scope :
  tracer w = Some scope ->
  exists w' t0 t1,
    Receiver.homeHandler rw r w = (Done (home_out "수신 서버: Hello, World!" (rng w) rw), w') /\
    spans w' = (spans w ++ [mkSpan "home-handler" scope t0 t1
                                   [("http.method", AttrString (Method r))]])%list /\
    logs w' = (logs w ++ ["수신: 홈페이지 요청: " +:+ Method r +:+ " " +:+ URL_Path r])%list /\
    now w <= t0 /\ t0 <= t1 /\ t1 <= now w'.
Proof.
  intros Ht. unfold Receiver.homeHandler. handler_start Ht. trace_solve.
Qed.

Lemma TracedApp_homeHandler_trace (rw : ResponseWriter) (r : Request) (w : World) scope :
  tracer w = Some scope ->
  exists w' t0 t1,
    TracedApp.homeHandler rw r w
    = (Done (home_out "Hello, World! 모니터링 테스트 서버입니다." (rng w) rw), w') /\
    spans w' = (spans w ++ [mkSpan "home-handler" scope t0 t1
                                   [("http.method", AttrString (Method r))]])%list /\
    logs w' = (logs w ++ ["홈페이지 요청: " +:+ Method r +:+ " " +:+ URL_Path r])%list /\
    now w <= t0 /\ t0 <= t1 /\ t1 <= now w'.
Proof.
  intros Ht. unfold TracedApp.homeHandler. handler_start Ht. trace_solve.
Qed.

Lemma Receiver_healthHandler_trace (rw : ResponseWriter) (r : Request) (w : World) scope :
  tracer w = Some scope ->
  exists w' t0 t1,
    Receiver.healthHandler rw r w = (Done (health_out "수신 서버: 상태: 정상" (rng w) rw), w') /\
    spans w' = (spans w ++ [mkSpan "health-handler" scope t0 t1 []])%list /\
    logs w' = (logs w ++ ["수신: 상태 확인 요청: " +:+ Method r +:+ " " +:+ URL_Path r])%list /\
    now w <= t0 /\ t0 <= t1 /\ t1 <= now w'.
Proof.
  intros Ht. unfold Receiver.healthHandler. handler_start Ht. trace_solve.
Qed.

Lemma TracedApp_healthHandler_trace (rw : ResponseWriter) (r : Request) (w : World) scope :
  tracer w = Some scope ->
  exists w' t0 t1,
    TracedApp.healthHandler rw r w = (Done (health_out "상태: 정상" (rng w) rw), w') /\
    spans w' = (spans w ++ [mkSpan "health-handler" scope t0 t1 []])%list /\
    logs w' = (logs w ++ ["상태 확인 요청: " +:+ Method r +:+ " " +:+ URL_Path r])%list /\
    now w <= t0 /\ t0 <= t1 /\ t1 <= now w'.
Proof.
  intros Ht. unfold TracedApp.healthHandler. handler_start Ht. trace_solve.
Qed.

Lemma Receiver_slowResponseHandler_trace (rw : ResponseWriter) (r : Request) (w : World) scope :
  tracer w = Some scope ->
  exists w' t0 t1,
    Receiver.slowResponseHandler rw r w = (Done (slow_out (rng w) rw), w') /\
    spans w' = (spans w ++ [mkSpan "slow-handler" scope t0 t1
                                   [("delay_ms", AttrInt (slow_delay (rng w)))]])%list /\
    logs w' = (logs w ++ ["느린 응답 요청: " +:+ Method r +:+ " " +:+ URL_Path r])%list /\
    now w <= t0 /\ t0 + slow_delay (rng w) * Millisecond <= t1 /\ t1 <= now w'.
Proof.
  intros Ht. unfold Receiver.slowResponseHandler. handler_start Ht.
  rewrite rand_Intn_run by lia. go_run.
  pose proof (rand_draw_range 1900 (rng w) ltac:(lia)) as Hx.
  rewrite (delay_duration _ Hx). unfold slow_out, slow_delay, Millisecond. trace_solve.
Qed.

Lemma TracedApp_slowResponseHandler_trace (rw : ResponseWriter) (r : Request) (w : World) scope :
  tracer w = Some scope ->
  exists w' t0 t1,
    TracedApp.slowResponseHandler rw r w = (Done (slow_out (rng w) rw), w') /\
    spans w' = (spans w ++ [mkSpan "slow-handler" scope t0 t1
                                   [("delay_ms", AttrInt (slow_delay (rng w)))]])%list /\
    logs w' = (logs w ++ ["느린 응답 요청: " +:+ Method r +:+ " " +:+ URL_Path r])%list /\
    now w <= t0 /\ t0 + slow_delay (rng w) * Millisecond <= t1 /\ t1 <= now w'.
Proof.
  intros Ht. unfold TracedApp.slowResponseHandler. handler_start Ht.
  rewrite rand_Intn_run by lia. go_run.
  pose proof (rand_draw_range 1900 (rng w) ltac:(lia)) as Hx.
  rewrite (delay_duration _ Hx). unfold slow_out, slow_delay, Millisecond. trace_solve.
Qed.

Lemma Receiver_errorHandler_trace (rw : ResponseWriter) (r : Request) (w : World) scope :
  tracer w = Some scope ->
  let failed := Z.eqb (fst (rand_draw 5 (rng w))) 0 in
  exists w' t0 t1,
    Receiver.errorHandler rw r w = (Done (error_out (rng w) rw), w') /\
    spans w' = (spans w ++ [mkSpan "error-handler" scope t0 t1
                                   (if failed then [("error", AttrString "true")] else [])])%list /\
    logs w' = (logs w ++ ["에러 발생 요청: " +:+ Method r +:+ " " +:+ URL_Path r]
                      ++ (if failed then ["500 에러 발생"] else []))%list /\
    now w <= t0 /\ t0 <= t1 /\ t1 <= now w'.
Proof.
  intros Ht failed. unfold Receiver.errorHandler. handler_start Ht.
  rewrite rand_Intn_run by lia. go_run. unfold error_out, failed.
  destruct (Z.eqb (fst (rand_draw 5 (rng w))) 0); go_run; trace_solve.
Qed.

Lemma TracedApp_errorHandler_trace (rw : ResponseWriter) (r : Request) (w : World) scope :
  tracer w = Some scope ->
  let failed := Z.eqb (fst (rand_draw 5 (rng w))) 0 in
  exists w' t0 t1,
    TracedApp.errorHandler rw r w = (Done (error_out (rng w) rw), w') /\
    spans w' = (spans w ++ [mkSpan "error-handler" scope t0 t1
                                   (if failed then [("error", AttrString "true")] else [])])%list /\
    logs w' = (logs w ++ ["에러 발생 요청: " +:+ Method r +:+ " " +:+ URL_Path r]
                      ++ (if failed then ["500 에러 발생"] else []))%list /\
    now w <= t0 /\ t0 <= t1 /\ t1 <= now w'.
Proof.
  intros Ht failed. unfold TracedApp.errorHandler. handler_start Ht.
  rewrite rand_Intn_run by lia. go_run. unfold error_out, failed.
  destruct (Z.eqb (fst (rand_draw 5 (rng w))) 0); go_run; trace_solve.
Qed.

Lemma otelhttp_NewHandler_nested (h : HandlerFunc) (operation name : string)
      out next dmin attrs dmin' :
  handler_spec h out next dmin -> handler_trace h name out attrs dmin' ->
  forall rw r w tp scope, provider w = Some tp -> tracer w = Some scope ->
    exists w' t0 t1 m0 m1,
      otelhttp_NewHandler h operation rw r w = (Done (out (rng w) rw), w') /\
      spans w' = (spans w ++ [mkSpan name scope t0 t1 (attrs (rng w) r);
                              mkSpan operation otelhttp_scope m0 m1
                                     [("http.method", AttrString (Method r))]])%list /\
      now w <= m0 /\ m0 <= t0 /\ t0 + dmin' (rng w) <= t1 /\ t1 <= m1 /\ m1 <= now w' /\
      rng w' = next (rng w) /\ tracer w' = tracer w /\ events w' = events w.
Proof.
  intros Hh Htr rw r w tp sc Ep Ht. unfold otelhttp_NewHandler. rewrite Ep.
  unfold bind at 1. unfold start_span at 1. go_cbn.
  set (w1 := set_live _ _ _).
  destruct (Hh rw r w1 sc) as (w1' & E & H1 & Hg & Hn); [exact Ht|].
  destruct (Htr rw r w1 sc) as (w2' & t0 & t1 & E2 & Hs & Ha & Hb & Hc); [exact Ht|].
  assert (w2' = w1') by congruence. subst w2'.
  unfold defer. rewrite E. unfold span_End.
  destruct H1 as ((Hk1 & Hk2 & Hk3 & Hk4 & Hk5) & Hnext & Hlive & Hnow & _).
  rewrite (Hlive (next_span w)) by (subst w1; go_cbn; lia).
  subst w1. go_run.
  eexists _, t0, t1, _, _. split; [reflexivity|]. go_run.
  rewrite Hs, <- app_assoc.
  split; [reflexivity|]. delays. repeat split; try assumption; lia.
Qed.

Ltac as_trace L :=
  intros rw r w sc Ht; destruct (L rw r w sc Ht) as (w' & t0 & t1 & E & Hs & _ & Ha & Hb & Hc);
  exists w', t0, t1; repeat split; try assumption; cbn beta; lia.

Lemma Receiver_home_trace :
  handler_trace Receiver.homeHandler "home-handler" (home_out "수신 서버: Hello, World!")
                (fun _ r => [("http.method", AttrString (Method r))]) (fun _ => 0).
Proof. as_trace Receiver_homeHandler_trace. Qed.

Lemma Receiver_health_trace :
  handler_trace Receiver.healthHandler "health-handler" (health_out "수신 서버: 상태: 정상")
                (fun _ _ => []) (fun _ => 0).
Proof. as_trace Receiver_healthHandler_trace. Qed.

Lemma Receiver_slow_trace :
  handler_trace Receiver.slowResponseHandler "slow-handler" slow_out
                (fun g _ => [("delay_ms", AttrInt (slow_delay g))])
                (fun g => slow_delay g * Millisecond).
Proof. as_trace Receiver_slowResponseHandler_trace. Qed.

Lemma Receiver_error_trace :
  handler_trace Receiver.errorHandler "error-handler" error_out
                (fun g _ => if Z.eqb (fst (rand_draw 5 g)) 0
                            then [("error", AttrString "true")] else [])
                (fun _ => 0).
Proof. as_trace Receiver_errorHandler_trace. Qed.

Lemma TracedApp_home_trace :
  handler_trace TracedApp.homeHandler "home-handler"
                (home_out "Hello, World! 모니터링 테스트 서버입니다.")
                (fun _ r => [("http.method", AttrString (Method r))]) (fun _ => 0).
Proof. as_trace TracedApp_homeHandler_trace. Qed.

Lemma TracedApp_health_trace :
  handler_trace TracedApp.healthHandler "health-handler" (health_out "상태: 정상")
                (fun _ _ => []) (fun _ => 0).
Proof. as_trace TracedApp_healthHandler_trace. Qed.

Lemma TracedApp_slow_trace :
  handler_trace TracedApp.slowResponseHandler "slow-handler" slow_out
                (fun g _ => [("delay_ms", AttrInt (slow_delay g))])
                (fun g => slow_delay g * Millisecond).
Proof. as_trace TracedApp_slowResponseHandler_trace. Qed.

Lemma TracedApp_error_trace :
  handler_trace TracedApp.errorHandler "error-handler" error_out
                (fun g _ => if Z.eqb (fst (rand_draw 5 g)) 0
                            then [("error", AttrString "true")] else [])
                (fun _ => 0).
Proof. as_trace TracedApp_errorHandler_trace. Qed.

(** X1. A request to [/] other than a [HEAD] is answered 200 with the
    greeting of the variant, whatever else it carries, and it leaves the
    random source as it was: on the plain server in any state at all, on the
    traced server and the receiver once their tracer is set. *)
Theorem home_greets (r : Request) (w : World) :
  URL_Path r = "/" -> Method r <> "HEAD" ->
  (exists w', serve_one App.routes r w = (Done tt, w') /\ rng w' = rng w /\
              events w' = (events w ++ [EvResponse 200
                             ("Hello, World! 모니터링 테스트 서버입니다." +:+ LF)])%list) /\
  (forall scope, tracer w = Some scope ->
     (exists w', serve_one TracedApp.routes r w = (Done tt, w') /\ rng w' = rng w /\
                 events w' = (events w ++ [EvResponse 200
                                ("Hello, World! 모니터링 테스트 서버입니다." +:+ LF)])%list) /\
     (exists w', serve_one Receiver.routes r w = (Done tt, w') /\ rng w' = rng w /\
                 events w' = (events w ++ [EvResponse 200
                                ("수신 서버: Hello, World!" +:+ LF)])%list)).
Proof.
  intros Hp _. split; [|intros scope Ht; split].
  - destruct (App_homeHandler_run newResponseWriter r w) as (w1 & E & (Hk & _) & Hg).
    edestruct (serve_one_App r w App.homeHandler) as (w' & E' & He & Hg' & _);
      [rewrite Hp; reflexivity|exact E|].
    exists w'. split; [exact E'|]. split; [congruence|]. rewrite He.
    destruct Hk as (_ & _ & _ & _ & Hev). rewrite Hev. reflexivity.
  - destruct (serve_one_route TracedApp.routes r w scope _ "home" _ _ _
                ltac:(rewrite Hp; reflexivity) TracedApp_home_spec Ht)
      as (w' & E & He & Hg & _).
    exists w'. split; [exact E|]. split; [exact Hg|exact He].
  - destruct (serve_one_route Receiver.routes r w scope _ "home" _ _ _
                ltac:(rewrite Hp; reflexivity) Receiver_home_spec Ht)
      as (w' & E & He & Hg & _).
    exists w'. split; [exact E|]. split; [exact Hg|exact He].
Qed.

(** X2. The span of [/slow] carries the attribute [delay_ms] with the very
    delay the response reports, and it lasts at least that many
    milliseconds. *)
Theorem slow_span_records_delay (rw : ResponseWriter) (r : Request) (w : World)
        (scope : string) :
  tracer w = Some scope ->
  let delay := 100 + fst (rand_draw 1900 (rng w)) in
  let text := "느린 응답 완료! 지연 시간: " +:+ pretty delay +:+ " ms" +:+ LF in
  (exists w' t0 t1,
      TracedApp.slowResponseHandler rw r w = (Done (Fprintf text rw), w') /\
      spans w' = (spans w ++ [mkSpan "slow-handler" scope t0 t1
                                     [("delay_ms", AttrInt delay)]])%list /\
      t0 + delay * Millisecond <= t1) /\
  (exists w' t0 t1,
      Receiver.slowResponseHandler rw r w = (Done (Fprintf text rw), w') /\
      spans w' = (spans w ++ [mkSpan "slow-handler" scope t0 t1
                                     [("delay_ms", AttrInt delay)]])%list /\
      t0 + delay * Millisecond <= t1).
Proof.
  intros Ht delay text. split.
  - destruct (TracedApp_slowResponseHandler_trace rw r w scope Ht)
      as (w' & t0 & t1 & E & Hs & _ & _ & Hd & _).
    exists w', t0, t1. split; [exact E|]. split; [exact Hs|exact Hd].
  - destruct (Receiver_slowResponseHandler_trace rw r w scope Ht)
      as (w' & t0 & t1 & E & Hs & _ & _ & Hd & _).
    exists w', t0, t1. split; [exact E|]. split; [exact Hs|exact Hd].
Qed.

(** X3. The span of [/error] carries the attribute [error = "true"], and
    the log the line [500 에러 발생], exactly when the response is 500; a
    successful call leaves a span without attributes and only the request
    line in the log. *)
Theorem error_span_flags_failure (r : Request) (w : World) (scope : string) :
  tracer w = Some scope ->
  let failed := Z.eqb (fst (rand_draw 5 (rng w))) 0 in
  let line := "에러 발생 요청: " +:+ Method r +:+ " " +:+ URL_Path r in
  (exists rw' w' t0 t1,
      TracedApp.errorHandler newResponseWriter r w = (Done rw', w') /\
      fst (response rw') = (if failed then 500 else 200) /\
      spans w' = (spans w ++ [mkSpan "error-handler" scope t0 t1
                                (if failed then [("error", AttrString "true")] else [])])%list /\
      logs w' = (logs w ++ [line] ++ (if failed then ["500 에러 발생"] else []))%list) /\
  (exists rw' w' t0 t1,
      Receiver.errorHandler newResponseWriter r w = (Done rw', w') /\
      fst (response rw') = (if failed then 500 else 200) /\
      spans w' = (spans w ++ [mkSpan "error-handler" scope t0 t1
                                (if failed then [("error", AttrString "true")] else [])])%list /\
      logs w' = (logs w ++ [line] ++ (if failed then ["500 에러 발생"] else []))%list).
Proof.
  intros Ht failed line.
  assert (Hcode : fst (response (error_out (rng w) newResponseWriter))
                  = if failed then 500 else 200).
  { unfold error_out, failed. destruct (Z.eqb (fst (rand_draw 5 (rng w))) 0); reflexivity. }
  split.
  - destruct (TracedApp_errorHandler_trace newResponseWriter r w scope Ht)
      as (w' & t0 & t1 & E & Hs & Hl & _).
    eexists _, w', t0, t1. split; [exact E|]. split; [exact Hcode|].
    split; [exact Hs|exact Hl].
  - destruct (Receiver_errorHandler_trace newResponseWriter r w scope Ht)
      as (w' & t0 & t1 & E & Hs & Hl & _).
    eexists _, w', t0, t1. split; [exact E|]. split; [exact Hcode|].
    split; [exact Hs|exact Hl].
Qed.

(** X4. The span of the home handler carries the method of the request as
    [http.method], and the handler logs one line with the method and the
    path; the span of the health handler carries no attribute. *)
Theorem home_span_records_method (rw : ResponseWriter) (r : Request) (w : World)
        (scope : string) :
  tracer w = Some scope ->
  (exists rw' w' t0 t1,
      TracedApp.homeHandler rw r w = (Done rw', w') /\
      spans w' = (spans w ++ [mkSpan "home-handler" scope t0 t1
                                     [("http.method", AttrString (Method r))]])%list /\
      logs w' = (logs w ++ ["홈페이지 요청: " +:+ Method r +:+ " " +:+ URL_Path r])%list) /\
  (exists rw' w' t0 t1,
      Receiver.homeHandler rw r w = (Done rw', w') /\
      spans w' = (spans w ++ [mkSpan "home-handler" scope t0 t1
                                     [("http.method", AttrString (Method r))]])%list /\
      logs w' = (logs w ++ ["수신: 홈페이지 요청: " +:+ Method r +:+ " " +:+ URL_Path r])%list) /\
  (exists rw' w' t0 t1,
      TracedApp.healthHandler rw r w = (Done rw', w') /\
      spans w' = (spans w ++ [mkSpan "health-handler" scope t0 t1 []])%list) /\
  (exists rw' w' t0 t1,
      Receiver.healthHandler rw r w = (Done rw', w') /\
      spans w' = (spans w ++ [mkSpan "health-handler" scope t0 t1 []])%list).
Proof.
  intros Ht. split; [|split; [|split]].
  - destruct (TracedApp_homeHandler_trace rw r w scope Ht) as (w' & t0 & t1 & E & Hs & Hl & _).
    eexists _, w', t0, t1. split; [exact E|]. split; [exact Hs|exact Hl].
  - destruct (Receiver_homeHandler_trace rw r w scope Ht) as (w' & t0 & t1 & E & Hs & Hl & _).
    eexists _, w', t0, t1. split; [exact E|]. split; [exact Hs|exact Hl].
  - destruct (TracedApp_healthHandler_trace rw r w scope Ht) as (w' & t0 & t1 & E & Hs & _).
    eexists _, w', t0, t1. split; [exact E|exact Hs].
  - destruct (Receiver_healthHandler_trace rw r w scope Ht) as (w' & t0 & t1 & E & Hs & _).
    eexists _, w', t0, t1. split; [exact E|exact Hs].
Qed.

Lemma traced_route_nested (mux : ServeMux) (path operation name : string) :
  In mux traced_muxes -> In (path, operation, name) route_names ->
  exists h out next dmin attrs dmin',
    mux_handler mux path = otelhttp_NewHandler h operation /\
    handler_spec h out next dmin /\ handler_trace h name out attrs dmin'.
Proof.
  intros Hm Hr. unfold traced_muxes in Hm. unfold route_names in Hr.
  cbn [In] in Hm, Hr.
  destruct Hm as [<-|[<-|[]]];
    destruct Hr as [Hr|[Hr|[Hr|[Hr|[]]]]]; injection Hr as <- <- <-.
  - eexists _, _, _, _, _, _. split; [reflexivity|].
    split; [apply TracedApp_home_spec|apply TracedApp_home_trace].
  - eexists _, _, _, _, _, _. split; [reflexivity|].
    split; [apply TracedApp_health_spec|apply TracedApp_health_trace].
  - eexists _, _, _, _, _, _. split; [reflexivity|].
    split; [apply TracedApp_slow_spec|apply TracedApp_slow_trace].
  - eexists _, _, _, _, _, _. split; [reflexivity|].
    split; [apply TracedApp_error_spec|apply TracedApp_error_trace].
  - eexists _, _, _, _, _, _. split; [reflexivity|].
    split; [apply Receiver_home_spec|apply Receiver_home_trace].
  - eexists _, _, _, _, _, _. split; [reflexivity|].
    split; [apply Receiver_health_spec|apply Receiver_health_trace].
  - eexists _, _, _, _, _, _. split; [reflexivity|].
    split; [apply Receiver_slow_spec|apply Receiver_slow_trace].
  - eexists _, _, _, _, _, _. split; [reflexivity|].
    split; [apply Receiver_error_spec|apply Receiver_error_trace].
Qed.

(** X5. On every route of a started traced server the two spans of a request
    are named after the route: the handler's span ([home-handler], ...) under
    the program's tracer, then the middleware's span ([home], ...) under the
    scope of [otelhttp]; the handler's span lies within the middleware's. *)
Theorem middleware_span_encloses_handler_span (mux : ServeMux)
        (path operation name : string) (r : Request) (w : World)
        (tp : TracerProvider) (scope : string) :
  In mux traced_muxes -> In (path, operation, name) route_names ->
  URL_Path r = path -> provider w = Some tp -> tracer w = Some scope ->
  exists w' s1 s2,
    serve_one mux r w = (Done tt, w') /\
    spans w' = (spans w ++ [s1; s2])%list /\
    span_name s1 = name /\ span_scope s1 = scope /\
    span_name s2 = operation /\ span_scope s2 = otelhttp_scope /\
    span_start s2 <= span_start s1 /\ span_end s1 <= span_end s2.
Proof.
  intros Hm Hr Hp Ep Ht.
  destruct (traced_route_nested mux path operation name Hm Hr)
    as (h & out & next & dmin & attrs & dmin' & Hh & Hspec & Htr).
  destruct (otelhttp_NewHandler_nested h operation name out next dmin attrs dmin' Hspec Htr
              newResponseWriter r w tp scope Ep Ht)
    as (w1 & t0 & t1 & m0 & m1 & E & Hs & _ & H1 & _ & H2 & _).
  rewrite <- Hh, <- Hp in E. rewrite (serve_one_Done _ _ _ _ _ E).
  eexists _, _, _. split; [reflexivity|]. cbn [spans set_events].
  split; [exact Hs|]. cbn [span_name span_scope span_start span_end].
  repeat split; assumption.
Qed.

(** X6. A request to [/] or [/health] does not touch the random source: put
    in front of any sequence of [/error] requests it is answered 200 and
    leaves their outcomes as they would have been without it. *)
Theorem quiet_routes_keep_sequence (r : Request) (reqs : list Request) (w : World)
        (scope : string) :
  URL_Path r = "/" \/ URL_Path r = "/health" -> tracer w = Some scope ->
  Forall (fun q => URL_Path q = "/error") reqs ->
  repeat_GET TracedApp.routes (r :: reqs) w = Some 200 :: repeat_GET TracedApp.routes reqs w /\
  repeat_GET Receiver.routes (r :: reqs) w = Some 200 :: repeat_GET Receiver.routes reqs w.
Proof.
  intros Hp Ht Hf. split; cbn [repeat_GET]; destruct Hp as [Hp|Hp]; rewrite Hp.
  - destruct (otelhttp_NewHandler_spec _ "home" _ _ _ TracedApp_home_spec
                newResponseWriter r w scope Ht) as (w1 & E & ((Hk & _) & _) & Hg & _).
    change (mux_handler TracedApp.routes "/")
      with (otelhttp_NewHandler TracedApp.homeHandler "home").
    rewrite E. f_equal.
    apply (repeat_GET_error TracedApp.routes TracedApp.errorHandler eq_refl
             TracedApp_error_spec reqs reqs w1 w scope scope); try assumption; congruence.
  - destruct (otelhttp_NewHandler_spec _ "health" _ _ _ TracedApp_health_spec
                newResponseWriter r w scope Ht) as (w1 & E & ((Hk & _) & _) & Hg & _).
    change (mux_handler TracedApp.routes "/health")
      with (otelhttp_NewHandler TracedApp.healthHandler "health").
    rewrite E. f_equal.
    apply (repeat_GET_error TracedApp.routes TracedApp.errorHandler eq_refl
             TracedApp_error_spec reqs reqs w1 w scope scope); try assumption; congruence.
  - destruct (otelhttp_NewHandler_spec _ "home" _ _ _ Receiver_home_spec
                newResponseWriter r w scope Ht) as (w1 & E & ((Hk & _) & _) & Hg & _).
    change (mux_handler Receiver.routes "/")
      with (otelhttp_NewHandler Receiver.homeHandler "home").
    rewrite E. f_equal.
    apply (repeat_GET_error Receiver.routes Receiver.errorHandler eq_refl
             Receiver_error_spec reqs reqs w1 w scope scope); try assumption; congruence.
  - destruct (otelhttp_NewHandler_spec _ "health" _ _ _ Receiver_health_spec
                newResponseWriter r w scope Ht) as (w1 & E & ((Hk & _) & _) & Hg & _).
    change (mux_handler Receiver.routes "/health")
      with (otelhttp_NewHandler Receiver.healthHandler "health").
    rewrite E. f_equal.
    apply (repeat_GET_error Receiver.routes Receiver.errorHandler eq_refl
             Receiver_error_spec reqs reqs w1 w scope scope); try assumption; congruence.
Qed.

(** *** Further properties of the generators and of start-up *)

Ltac tick_full_solve :=
  wp_cbn;
  split; [rewrite <- ?app_assoc; reflexivity|];
  first [ exists []; eexists _, _; split; [reflexivity|]
        | eexists [_], _, _; split; [symmetry; apply app_assoc|] ];
  wp_cbn; split; [delays; lia|];
  first [ reflexivity
        | eexists _, _; split; [reflexivity|]; delays; repeat split; lia ].

Lemma Sender_generateDummyTraces_full_wp (p : Peer) (w : World) scope :
  tracer w = Some scope ->
  wp (Sender.generateDummyTraces p) (tick_full p scope w) w.
Proof.
  intros Ht. unfold Sender.generateDummyTraces.
  wp_step. eapply wp_tracer_Start; [exact Ht|]. wp_cbn.
  repeat wp_step.
  change (Z.of_nat (length ["/"; "/health"])) with 2.
  destruct (Sender_url_cases w) as (base & path & i & Hi & Hl & Hpos & Hb & Hurl).
  assert (Hpath : sender_path (rng w) = path)
    by (unfold sender_path; rewrite Hi, Hl; reflexivity).
  unfold tick_full, tick_spans, tick_warning, tick_outcome_line, tick_attrs.
  rewrite Hurl, Hpath. clear Hurl Hpath.
  unfold receiver_base in Hb. cbn zeta in Hb.
  destruct (String.eqb (default "" (env w !! "RECEIVER_ENDPOINT")) "");
    subst base; repeat wp_step; rewrite Hi;
    (eapply wp_index; [exact Hpos|exact Hl|]); wp_cbn; clear Hi Hl Hpos.
  all: match goal with
       | |- context [new_request_err ?q ?u] => destruct (new_request_err q u)
       end; repeat wp_step.
  1, 3: tick_full_solve.
  all: destruct (provider w) as [tp|] eqn:Ep.
  all: match goal with
       | |- context [client_Do ?q ?u] => destruct (round_trip q u) as [err|code] eqn:Er
       end.
  all: first [ eapply wp_client_Do_failed; [exact Ep|exact Er|]
             | eapply wp_client_Do_answered; [exact Ep|exact Er|]
             | eapply wp_client_Do_bare; [exact Ep|rewrite Er] ];
       wp_cbn; repeat wp_step; unfold Body_Close; wp_cbn; repeat wp_step.
  all: tick_full_solve.
Qed.

Lemma Sender_generateDummyTraces_full (p : Peer) (w : World) scope :
  tracer w = Some scope ->
  exists w', Sender.generateDummyTraces p w = (Done tt, w') /\
             tick_post p w tt w' /\ tick_full p scope w tt w'.
Proof.
  intros Ht.
  destruct (Sender_generateDummyTraces_wp p w scope Ht) as ([] & w1 & E1 & H1).
  destruct (Sender_generateDummyTraces_full_wp p w scope Ht) as ([] & w2 & E2 & H2).
  assert (w2 = w1) by congruence. subst w2.
  exists w1. split; [exact E1|]. split; [exact H1|exact H2].
Qed.

(** X7. Every tick of the sender logs its outcome in one line: the build
    error, the round-trip error, or the path with the status received. While
    [RECEIVER_ENDPOINT] is missing or empty, every tick first logs the
    warning that the default address is used. *)
Theorem sender_tick_logs (p : Peer) (w : World) (scope : string) :
  tracer w = Some scope ->
  let path := sender_path (rng w) in
  let url := receiver_base w +:+ path in
  let line :=
    match new_request_err p url with
    | Some err => "더미 요청 생성 실패: " +:+ err
    | None =>
        match round_trip p url with
        | inl err => "더미 요청 실패: " +:+ err
        | inr code => "더미 요청 완료: " +:+ path +:+ ", 상태: " +:+ pretty code
        end
    end in
  let warning :=
    "RECEIVER_ENDPOINT 환경 변수가 설정되지 않았습니다. 기본값 http://localhost:8081을 사용합니다." in
  exists w1,
    Sender.generateDummyTraces p w = (Done tt, w1) /\
    (default "" (env w !! "RECEIVER_ENDPOINT") = "" ->
     logs w1 = (logs w ++ [warning; line])%list) /\
    (default "" (env w !! "RECEIVER_ENDPOINT") <> "" ->
     logs w1 = (logs w ++ [line])%list).
Proof.
  intros Ht path url line warning.
  destruct (Sender_generateDummyTraces_full p w scope Ht) as (w1 & E & _ & Hl & _).
  exists w1. split; [exact E|].
  unfold tick_warning, tick_outcome_line in Hl. fold path in Hl.
  change (sender_url w) with url in Hl. fold line in Hl.
  destruct (String.eqb_spec (default "" (env w !! "RECEIVER_ENDPOINT")) "") as [Hv|Hv].
  - split; [intros _; exact Hl|intros Hne; contradiction].
  - split; [intros He; contradiction|intros _; exact Hl].
Qed.

(** X8. When the request of a tick cannot be built, nothing is sent: the
    tick records its own span only, without attributes, and no event leaves
    the process. *)
Theorem unbuilt_request_sends_nothing (p : Peer) (w : World) (scope err : string) :
  tracer w = Some scope ->
  new_request_err p (receiver_base w +:+ sender_path (rng w)) = Some err ->
  exists w1 t0 t1,
    Sender.generateDummyTraces p w = (Done tt, w1) /\
    events w1 = events w /\
    spans w1 = (spans w ++ [mkSpan "periodic-dummy-request" scope t0 t1 []])%list.
Proof.
  intros Ht Hn.
  destruct (Sender_generateDummyTraces_full p w scope Ht)
    as (w1 & E & (_ & _ & Hev & _) & _ & client & t0 & t1 & Hs & _ & Hc).
  unfold tick_attrs in Hs. unfold sender_url in Hev, Hs, Hc.
  rewrite Hn in Hev, Hs, Hc. subst client.
  exists w1, t0, t1. split; [exact E|]. split; [|exact Hs].
  rewrite Hev. apply app_nil_r.
Qed.


Lemma app_url_cases (g : rng_state) :
  exists path i,
    fst (rand_draw 4 g) = i /\
    ["/"; "/health"; "/slow"; "/error"] !! Z.to_nat i = Some path /\
    0 <= i /\ app_path g = path /\ In path ["/"; "/health"; "/slow"; "/error"].
Proof.
  pose proof (rand_draw_range 4 g ltac:(lia)) as Hi. unfold app_path.
  assert (Hi' : fst (rand_draw 4 g) = 0 \/ fst (rand_draw 4 g) = 1 \/
                fst (rand_draw 4 g) = 2 \/ fst (rand_draw 4 g) = 3) by lia.
  destruct Hi' as [E|[E|[E|E]]]; rewrite E.
  - exists "/", 0. repeat split; try reflexivity; try lia. cbn. tauto.
  - exists "/health", 1. repeat split; try reflexivity; try lia. cbn. tauto.
  - exists "/slow", 2. repeat split; try reflexivity; try lia. cbn. tauto.
  - exists "/error", 3. repeat split; try reflexivity; try lia. cbn. tauto.
Qed.

Lemma TracedApp_generateDummyTraces_wp (p : Peer) (w : World) scope :
  tracer w = Some scope ->
  wp (TracedApp.generateDummyTraces p) (app_tick_post p w) w.
Proof.
  intros Ht. unfold TracedApp.generateDummyTraces.
  wp_step. eapply wp_tracer_Start; [exact Ht|]. wp_cbn.
  repeat wp_step.
  change (Z.of_nat (length ["/"; "/health"; "/slow"; "/error"])) with 4.
  destruct (app_url_cases (rng w)) as (path & i & Hi & Hl & Hpos & Hpath & _).
  unfold app_tick_post, app_url. rewrite Hpath. clear Hpath.
  repeat wp_step. rewrite Hi.
  (eapply wp_index; [exact Hpos|exact Hl|]); wp_cbn; clear Hi Hl Hpos.
  match goal with
  | |- context [new_request_err ?q ?u] => destruct (new_request_err q u)
  end; repeat wp_step.
  1: tick_post_solve.
  destruct (provider w) as [tp|] eqn:Ep.
  all: match goal with
       | |- context [client_Do ?q ?u] => destruct (round_trip q u) as [err|code] eqn:Er
       end.
  all: first [ eapply wp_client_Do_failed; [exact Ep|exact Er|]
             | eapply wp_client_Do_answered; [exact Ep|exact Er|]
             | eapply wp_client_Do_bare; [exact Ep|rewrite Er] ];
       wp_cbn; repeat wp_step; unfold Body_Close; wp_cbn; repeat wp_step.
  all: tick_post_solve.
Qed.

Lemma TracedApp_generateDummyTraces_run (p : Peer) (w : World) scope :
  tracer w = Some scope ->
  exists w', TracedApp.generateDummyTraces p w = (Done tt, w') /\ app_tick_post p w tt w'.
Proof.
  intros Ht. destruct (TracedApp_generateDummyTraces_wp p w scope Ht) as ([] & w' & E & H).
  exists w'. split; assumption.
Qed.

Lemma count_responses_app (l1 l2 : list Event) :
  count_responses (l1 ++ l2) = (count_responses l1 + count_responses l2)%nat.
Proof. unfold count_responses. rewrite List.filter_app, length_app. reflexivity. Qed.

Lemma spans_grow_refl (w : World) : spans_grow w w.
Proof. exists []. rewrite app_nil_r. reflexivity. Qed.

Lemma spans_grow_trans (w1 w2 w3 : World) :
  spans_grow w1 w2 -> spans_grow w2 w3 -> spans_grow w1 w3.
Proof.
  intros (a & Ha) (b & Hb). exists (a ++ b)%list. rewrite Hb, Ha, app_assoc. reflexivity.
Qed.

Lemma answered_spans_grow (w w' : World) : answered w w' -> spans_grow w w'.
Proof.
  intros (_ & _ & _ & Hs). destruct (provider w).
  - destruct Hs as (s1 & s2 & Hs & _). eexists. exact Hs.
  - destruct Hs as (s1 & Hs & _). eexists. exact Hs.
Qed.

Lemma schedule_running {A} (G : Event -> Prop) (mux : ServeMux) (gen : Peer -> M unit)
      (incoming : list Incoming) :
  traced_mux mux -> tick_contract G gen ->
  forall w scope, tracer w = Some scope ->
    exists w', @schedule _ A (Some mux) gen incoming w = (Running, w') /\
               running G incoming w w'.
Proof.
  intros Hmux Hgen. induction incoming as [|ev rest IH]; intros w sc Ht.
  - exists w. split; [reflexivity|]. unfold running.
    split; [reflexivity|]. split; [reflexivity|]. split; [reflexivity|].
    split; [apply spans_grow_refl|].
    exists []. rewrite app_nil_r. split; [reflexivity|]. split; [constructor|reflexivity].
  - cbn [schedule]. unfold bind. destruct ev as [p|r|key value]; cbn [react].
    + destruct (ticker w) as [d|] eqn:Ek.
      * destruct (Hgen p w sc Ht)
          as (w1 & E1 & (H1 & H2 & H3 & H4) & Hsp & evs1 & He1 & Hg1 & Hc1).
        rewrite E1.
        destruct (IH w1 sc) as (w' & E & G1 & G2 & G3 & Gsp & evs & He & Hg & Hc);
          [congruence|].
        exists w'. split; [exact E|]. unfold running.
        split; [congruence|]. split; [congruence|]. split; [congruence|].
        split; [exact (spans_grow_trans _ _ _ Hsp Gsp)|].
        exists (evs1 ++ evs)%list. rewrite He, He1, app_assoc.
        split; [reflexivity|]. split.
        -- apply Forall_app. split; [|exact Hg].
           eapply Forall_impl; [exact Hg1|]. intros e He'. left. exact He'.
        -- rewrite count_responses_app, Hc1, Hc. reflexivity.
      * destruct (IH w sc Ht) as (w' & E & H). exists w'. split; [exact E|exact H].
    + destruct (serve_one_traced mux r w sc Hmux Ht) as (w1 & E1 & Hans).
      pose proof (answered_spans_grow _ _ Hans) as Hsp.
      destruct Hans as ((H1 & H2 & H3 & H4) & _ & (code & text & He1) & _).
      rewrite E1.
      destruct (IH w1 sc) as (w' & E & G1 & G2 & G3 & Gsp & evs & He & Hg & Hc);
        [congruence|].
      exists w'. split; [exact E|]. unfold running.
      split; [congruence|]. split; [congruence|]. split; [congruence|].
      split; [exact (spans_grow_trans _ _ _ Hsp Gsp)|].
      exists ([EvResponse code text] ++ evs)%list. rewrite He, He1, <- app_assoc.
      split; [reflexivity|]. split.
      * constructor; [right; eexists _, _; reflexivity|exact Hg].
      * rewrite count_responses_app, Hc. reflexivity.
    + destruct (IH (set_env (<[key:=value]> (env w)) w) sc Ht) as (w' & E & H).
      exists w'. split; [exact E|exact H].
Qed.

Lemma no_generator_contract : tick_contract (fun _ => False) (fun _ => ret tt).
Proof.
  intros p w sc Ht. exists w. split; [reflexivity|].
  split; [repeat split|]. split; [apply spans_grow_refl|].
  exists []. rewrite app_nil_r. split; [reflexivity|]. split; [constructor|reflexivity].
Qed.

Lemma TracedApp_generator_contract : tick_contract is_get TracedApp.generateDummyTraces.
Proof.
  intros p w sc Ht.
  destruct (TracedApp_generateDummyTraces_run p w sc Ht)
    as (w' & E & Hk & _ & Hev & _ & extra & s & Hs & _).
  exists w'. split; [exact E|]. split; [exact Hk|].
  split; [eexists; exact Hs|].
  rewrite Hev. destruct (new_request_err p (app_url (rng w))).
  - exists []. split; [reflexivity|]. split; [constructor|reflexivity].
  - eexists. split; [reflexivity|]. split; [|reflexivity].
    repeat constructor. eexists. reflexivity.
Qed.

Lemma Receiver_main_running (ext : Outside) (incoming : list Incoming) (w : World) :
  exporter_err ext (tempo_endpoint w) = None -> resource_err ext = None ->
  listen_err ext ":8081" = None ->
  exists w', Receiver.main ext incoming w = (Running, w') /\
             running (fun _ => False) incoming (Receiver_started w) w'.
Proof.
  intros He Hr Hl. unfold Receiver.main. unfold bind at 1.
  rewrite Receiver_initTracer_run. unfold initTracer_result. rewrite He, Hr.
  destruct (schedule_running (A:=option string) (fun _ => False) Receiver.routes
              (fun _ => ret tt) incoming Receiver_routes_traced no_generator_contract
              (Receiver_started w) "monitoring-test-receiver" eq_refl) as (w' & E & H).
  exists w'. split; [|exact H].
  unfold defer.
  match goal with
  | |- (let (_, _) := ?body ?w0 in _) = _ =>
      assert (Hbody : body w0 = (Running, w'))
  end.
  { cbn zeta. change (":" +:+ pretty 8081) with ":8081".
    change ("수신 서버가 포트 " +:+ pretty 8081 +:+ "에서 시작됩니다...")
      with "수신 서버가 포트 8081에서 시작됩니다...".
    unfold http_ListenAndServe. rewrite Hl.
    unfold bind, log_Printf, emit.
    unfold Receiver_started in E. cbn zeta in E.
    wp_cbn. wp_cbn in E. rewrite E. reflexivity. }
  rewrite Hbody. reflexivity.
Qed.

Lemma Receiver_main_listen_fails (ext : Outside) (incoming : list Incoming) (w : World) err :
  exporter_err ext (tempo_endpoint w) = None -> resource_err ext = None ->
  listen_err ext ":8081" = Some err ->
  Receiver.main ext incoming w
  = (Exited 1, set_logs (logs (Receiver_started w) ++ ["수신 서버 시작 실패: " +:+ err])
                        (Receiver_started w)).
Proof.
  intros He Hr Hl. unfold Receiver.main. unfold bind at 1.
  rewrite Receiver_initTracer_run. unfold initTracer_result. rewrite He, Hr.
  unfold defer.
  match goal with
  | |- (let (_, _) := ?body ?w0 in _) = ?rhs =>
      assert (Hbody : body w0 = rhs)
  end.
  { cbn zeta. change (":" +:+ pretty 8081) with ":8081".
    change ("수신 서버가 포트 " +:+ pretty 8081 +:+ "에서 시작됩니다...")
      with "수신 서버가 포트 8081에서 시작됩니다...".
    unfold http_ListenAndServe. rewrite Hl. reflexivity. }
  rewrite Hbody. reflexivity.
Qed.

Ltac TracedApp_to_listen :=
  cbn zeta; change (":" +:+ pretty 8080) with ":8080";
  change ("서버가 포트 " +:+ pretty 8080 +:+ "에서 시작됩니다...")
    with "서버가 포트 8080에서 시작됩니다...";
  unfold http_ListenAndServe, TracedApp.startPeriodicRequests, time_NewTicker;
  rewrite five_seconds; change (Z.leb 5000000000 0) with false; cbn iota.

Lemma TracedApp_main_running (ext : Outside) (incoming : list Incoming) (w : World) :
  exporter_err ext (tempo_endpoint w) = None -> resource_err ext = None ->
  listen_err ext ":8080" = None ->
  exists w', TracedApp.main ext incoming w = (Running, w') /\
             running is_get incoming (TracedApp_started ext w) w'.
Proof.
  intros He Hr Hl. unfold TracedApp.main. unfold bind at 1.
  rewrite TracedApp_initTracer_run. unfold initTracer_result. rewrite He, Hr.
  assert (Ht : tracer (TracedApp_started ext w) = Some "monitoring-test-app").
  { unfold TracedApp_started.
    destruct (aws_config_err ext); [|destruct (ec2_describe_err ext)]; reflexivity. }
  destruct (schedule_running (A:=option string) is_get TracedApp.routes
              TracedApp.generateDummyTraces incoming TracedApp_routes_traced
              TracedApp_generator_contract (TracedApp_started ext w) _ Ht)
    as (w' & E & H).
  exists w'. split; [|exact H]. clear H Ht.
  unfold defer.
  match goal with
  | |- (let (_, _) := ?body ?w0 in _) = _ =>
      assert (Hbody : body w0 = (Running, w'))
  end.
  { TracedApp_to_listen. rewrite Hl.
    unfold TracedApp_started in E. cbn zeta in E.
    destruct (aws_config_err ext); [|destruct (ec2_describe_err ext)];
      unfold bind, log_Printf, emit, ret; wp_cbn; wp_cbn in E; rewrite E; reflexivity. }
  rewrite Hbody. reflexivity.
Qed.

Lemma TracedApp_main_listen_fails (ext : Outside) (incoming : list Incoming) (w : World) err :
  exporter_err ext (tempo_endpoint w) = None -> resource_err ext = None ->
  listen_err ext ":8080" = Some err ->
  TracedApp.main ext incoming w
  = (Exited 1, set_logs (logs (TracedApp_started ext w) ++ ["서버 시작 실패: " +:+ err])
                        (TracedApp_started ext w)).
Proof.
  intros He Hr Hl. unfold TracedApp.main. unfold bind at 1.
  rewrite TracedApp_initTracer_run. unfold initTracer_result. rewrite He, Hr.
  unfold defer.
  match goal with
  | |- (let (_, _) := ?body ?w0 in _) = ?rhs =>
      assert (Hbody : body w0 = rhs)
  end.
  { TracedApp_to_listen. rewrite Hl. unfold TracedApp_started.
    destruct (aws_config_err ext); [|destruct (ec2_describe_err ext)]; reflexivity. }
  rewrite Hbody. reflexivity.
Qed.

Lemma TracedApp_started_facts (ext : Outside) (w : World) :
  ticker (TracedApp_started ext w) = Some 5000000000 /\
  provider (TracedApp_started ext w)
  = Some (mkTracerProvider (tempo_endpoint w) "monitoring-test-app" "dev") /\
  tracer (TracedApp_started ext w) = Some "monitoring-test-app" /\
  spans (TracedApp_started ext w) = spans w /\
  events (TracedApp_started ext w)
  = (events w ++ [EvExporterNew (tempo_endpoint w); EvListen ":8080"])%list.
Proof.
  unfold TracedApp_started, after_initTracer.
  destruct (aws_config_err ext); [|destruct (ec2_describe_err ext)]; cbn;
    rewrite <- app_assoc; repeat split.
Qed.

Lemma Sender_main_resource_fails (ext : Outside) (incoming : list Incoming) (w : World) err :
  exporter_err ext (tempo_endpoint w) = None -> resource_err ext = Some err ->
  Sender.main ext incoming w = (Exited 1, resource_fatal_world err w).
Proof.
  intros He Hr. unfold Sender.main, bind. rewrite Sender_initTracer_run.
  unfold initTracer_result. rewrite He, Hr. reflexivity.
Qed.

Lemma Receiver_main_resource_fails (ext : Outside) (incoming : list Incoming) (w : World) err :
  exporter_err ext (tempo_endpoint w) = None -> resource_err ext = Some err ->
  Receiver.main ext incoming w = (Exited 1, resource_fatal_world err w).
Proof.
  intros He Hr. unfold Receiver.main, bind. rewrite Receiver_initTracer_run.
  unfold initTracer_result. rewrite He, Hr. reflexivity.
Qed.

Lemma TracedApp_main_resource_fails (ext : Outside) (incoming : list Incoming) (w : World) err :
  exporter_err ext (tempo_endpoint w) = None -> resource_err ext = Some err ->
  TracedApp.main ext incoming w = (Exited 1, resource_fatal_world err w).
Proof.
  intros He Hr. unfold TracedApp.main, bind. rewrite TracedApp_initTracer_run.
  unfold initTracer_result. rewrite He, Hr. reflexivity.
Qed.

Lemma App_routes_plain (path : string) (rw : ResponseWriter) (r : Request) (w : World) :
  exists rw' w', mux_handler App.routes path rw r w = (Done rw', w') /\ no_span w w'.
Proof.
  unfold mux_handler, App.routes, http_Handle. cbn [app mux_find].
  destruct (String.eqb "/" path);
    [destruct (App_homeHandler_run rw r w) as (w' & E & H & _); eexists _, w'; split; eassumption|].
  destruct (String.eqb "/health" path);
    [destruct (App_healthHandler_run rw r w) as (w' & E & H & _); eexists _, w'; split; eassumption|].
  destruct (String.eqb "/slow" path);
    [destruct (App_slowResponseHandler_run rw r w) as (w' & E & H & _);
     eexists _, w'; split; eassumption|].
  destruct (String.eqb "/error" path);
    [destruct (App_errorHandler_run rw r w) as (w' & E & H & _); eexists _, w'; split; eassumption|].
  cbn [String.eqb Ascii.eqb Bool.eqb].
  destruct (App_homeHandler_run rw r w) as (w' & E & H & _); eexists _, w'; split; eassumption.
Qed.

Lemma App_schedule_run {A} (incoming : list Incoming) :
  forall w,
    exists w' evs,
      @schedule _ A (Some App.routes) (fun _ => ret tt) incoming w = (Running, w') /\
      spans w' = spans w /\ provider w' = provider w /\ tracer w' = tracer w /\
      events w' = (events w ++ evs)%list /\ Forall is_response evs /\
      length evs = count_arrivals incoming.
Proof.
  induction incoming as [|ev rest IH]; intros w.
  - exists w, []. rewrite app_nil_r. repeat split. constructor.
  - cbn [schedule]. unfold bind. destruct ev as [p|r|key value]; cbn [react].
    + assert (Hr : (match ticker w with
                    | Some _ => ret tt w
                    | None => (Done tt, w)
                    end) = (Done tt, w)) by (destruct (ticker w); reflexivity).
      rewrite Hr. exact (IH w).
    + destruct (App_routes_plain (URL_Path r) newResponseWriter r w)
        as (rw' & w1 & E1 & (H1 & H2 & H3 & H4 & H5) & Hs & _).
      rewrite (serve_one_Done _ _ _ _ _ E1).
      destruct (IH (set_events (events w1 ++ [EvResponse (fst (response rw'))
                                                         (snd (response rw'))]) w1))
        as (w' & evs & E & G1 & G2 & G3 & G4 & G5 & G6).
      exists w', (EvResponse (fst (response rw')) (snd (response rw')) :: evs).
      split; [exact E|]. cbn [spans provider tracer events set_events] in G1, G2, G3, G4.
      split; [congruence|]. split; [congruence|]. split; [congruence|].
      split; [rewrite G4, H5, <- app_assoc; reflexivity|].
      split; [constructor; [eexists _, _; reflexivity|exact G5]|].
      unfold count_arrivals. cbn [List.filter length]. fold (count_arrivals rest).
      rewrite G6. reflexivity.
    + destruct (IH (set_env (<[key:=value]> (env w)) w))
        as (w' & evs & E & G1 & G2 & G3 & G4 & G5 & G6).
      exists w', evs. repeat split; assumption.
Qed.

Lemma App_main_run (ext : Outside) (incoming : list Incoming) (w : World) :
  listen_err ext ":8080" = None ->
  exists w' evs,
    App.main ext incoming w = (Running, w') /\
    spans w' = spans w /\ provider w' = provider w /\ tracer w' = tracer w /\
    events w' = (events w ++ [EvListen ":8080"] ++ evs)%list /\ Forall is_response evs /\
    length evs = count_arrivals incoming.
Proof.
  intros Hl.
  destruct (App_schedule_run (A:=option string) incoming (App_started w))
    as (w' & evs & E & G1 & G2 & G3 & G4 & G5 & G6).
  exists w', evs. split; [|repeat split; try assumption].
  - unfold App.main. cbn zeta. change (":" +:+ pretty 8080) with ":8080".
    change ("서버가 포트 " +:+ pretty 8080 +:+ "에서 시작됩니다...")
      with "서버가 포트 8080에서 시작됩니다...".
    unfold http_ListenAndServe. rewrite Hl. unfold bind, log_Printf, emit.
    unfold App_started in E. cbn zeta in E. wp_cbn. wp_cbn in E. rewrite E. reflexivity.
  - rewrite G4. unfold App_started. cbn. rewrite <- app_assoc. reflexivity.
Qed.

Lemma App_main_listen_fails (ext : Outside) (incoming : list Incoming) (w : World) err :
  listen_err ext ":8080" = Some err ->
  App.main ext incoming w
  = (Exited 1, set_logs (logs (App_started w) ++ ["서버 시작 실패: " +:+ err]) (App_started w)).
Proof.
  intros Hl. unfold App.main. cbn zeta. change (":" +:+ pretty 8080) with ":8080".
  change ("서버가 포트 " +:+ pretty 8080 +:+ "에서 시작됩니다...")
    with "서버가 포트 8080에서 시작됩니다...".
  unfold http_ListenAndServe. rewrite Hl. reflexivity.
Qed.

Lemma sender_free_of_shutdown (ext : Outside) (incoming : list Incoming) (w : World) :
  exporter_err ext (tempo_endpoint w) = None -> resource_err ext = None ->
  exists w' evs,
    Sender.main ext incoming w = (Running, w') /\
    events w' = (events w ++ evs)%list /\ ~ In EvShutdown evs.
Proof.
  intros He Hr.
  destruct (Sender_main_run ext incoming w He Hr)
    as (w' & E & _ & _ & _ & (evs & Hev & Hg) & _).
  exists w', ([EvExporterNew (tempo_endpoint w)] ++ evs)%list. split; [exact E|]. split.
  - rewrite Hev. unfold Sender_started, after_initTracer. wp_cbn.
    rewrite <- app_assoc. reflexivity.
  - intros [Hin|Hin]; [discriminate|].
    rewrite List.Forall_forall in Hg. destruct (Hg _ Hin) as (url & Hurl). discriminate.
Qed.

(** X10. The generator of the traced server takes one of its four paths at
    the index drawn by [rand.Intn(4)] and sends its GET to the server's own
    port 8080, whatever the environment holds; it completes in every case
    and uses up exactly one draw. *)
Theorem traced_app_tick_targets_own_port (p : Peer) (w : World) (scope : string)
        (e : gmap string string) :
  tracer w = Some scope ->
  let i := fst (rand_draw 4 (rng w)) in
  let url := "http://localhost:8080" +:+ app_path (rng w) in
  let sent := match new_request_err p url with
              | None => [EvGet url]
              | Some _ => []
              end in
  0 <= i < 4 /\
  ["/"; "/health"; "/slow"; "/error"] !! Z.to_nat i = Some (app_path (rng w)) /\
  (exists w1, TracedApp.generateDummyTraces p w = (Done tt, w1) /\
              events w1 = (events w ++ sent)%list /\
              rng w1 = snd (rand_draw 4 (rng w))) /\
  (exists w2, TracedApp.generateDummyTraces p (set_env e w) = (Done tt, w2) /\
              events w2 = (events w ++ sent)%list).
Proof.
  intros Ht i url sent.
  split; [apply rand_draw_range; lia|]. split; [|split].
  - destruct (app_url_cases (rng w)) as (path & j & Hj & Hl & _ & Hp & _).
    unfold i. rewrite Hj, Hp. exact Hl.
  - destruct (TracedApp_generateDummyTraces_run p w scope Ht) as (w1 & E & _ & Hg & Hev & _).
    exists w1. split; [exact E|]. split; [exact Hev|exact Hg].
  - destruct (TracedApp_generateDummyTraces_run p (set_env e w) scope Ht)
      as (w2 & E & _ & _ & Hev & _).
    exists w2. split; [exact E|exact Hev].
Qed.

(** X11. A receiver that is up answers every request that arrives exactly
    once and drops no connection: beside the start-up events, what leaves
    the process is one response per request. The spans it had are kept. *)
Theorem receiver_answers_every_request (ext : Outside) (incoming : list Incoming)
        (w : World) :
  exporter_err ext (tempo_endpoint w) = None -> resource_err ext = None ->
  listen_err ext ":8081" = None ->
  exists w' evs,
    Receiver.main ext incoming w = (Running, w') /\
    events w' = (events w ++ [EvExporterNew (tempo_endpoint w); EvListen ":8081"]
                 ++ evs)%list /\
    Forall is_response evs /\ length evs = count_arrivals incoming /\
    spans_grow w w'.
Proof.
  intros He Hr Hl.
  destruct (Receiver_main_running ext incoming w He Hr Hl)
    as (w' & E & _ & _ & _ & Hsp & evs & Hev & Hg & Hc).
  exists w', evs. split; [exact E|].
  assert (Hresp : Forall is_response evs).
  { eapply Forall_impl; [exact Hg|]. intros e [[]|H]. exact H. }
  split; [|split; [exact Hresp|split; [|exact Hsp]]].
  - rewrite Hev. unfold Receiver_started, after_initTracer. cbn.
    rewrite <- !app_assoc. reflexivity.
  - rewrite <- Hc. clear -Hresp. unfold count_responses.
    induction Hresp as [|e l (code & text & ->) _ IH]; [reflexivity|].
    cbn [List.filter length]. rewrite IH. reflexivity.
Qed.

(** X12. In no traced program does the deferred [Shutdown] of the provider
    ever run: whatever the outside does, [main] either ends the process with
    status 1 through [log.Fatalf] or is still running, and no shutdown is
    among the events it leaves. *)
Theorem shutdown_never_runs (main : Outside -> list Incoming -> M unit)
        (ext : Outside) (incoming : list Incoming) (w : World) :
  In main traced_mains ->
  exists res w' evs,
    main ext incoming w = (res, w') /\ (res = Running \/ res = Exited 1) /\
    events w' = (events w ++ evs)%list /\ ~ In EvShutdown evs.
Proof.
  intros Hin. unfold traced_mains in Hin. cbn [In] in Hin.
  destruct (exporter_err ext (tempo_endpoint w)) as [e|] eqn:He.
  { exists (Exited 1), (fatal_world e w), [EvExporterNew (tempo_endpoint w)].
    split; [|split; [right; reflexivity|split; [reflexivity|]]].
    - destruct Hin as [<-|[<-|[<-|[]]]];
        [apply Sender_main_fatal|apply Receiver_main_fatal|apply TracedApp_main_fatal];
        exact He.
    - intros [H|[]]; discriminate. }
  destruct (resource_err ext) as [e|] eqn:Hr.
  { exists (Exited 1), (resource_fatal_world e w), [EvExporterNew (tempo_endpoint w)].
    split; [|split; [right; reflexivity|split; [reflexivity|]]].
    - destruct Hin as [<-|[<-|[<-|[]]]];
        [apply Sender_main_resource_fails|apply Receiver_main_resource_fails
        |apply TracedApp_main_resource_fails]; assumption.
    - intros [H|[]]; discriminate. }
  destruct Hin as [<-|[<-|[<-|[]]]].
  - destruct (sender_free_of_shutdown ext incoming w He Hr) as (w' & evs & E & Hev & Hn).
    exists Running, w', evs. split; [exact E|]. split; [left; reflexivity|].
    split; assumption.
  - destruct (listen_err ext ":8081") as [e|] eqn:Hl.
    + eexists (Exited 1), _, [EvExporterNew (tempo_endpoint w); EvListen ":8081"].
      split; [apply Receiver_main_listen_fails; eassumption|].
      split; [right; reflexivity|]. split.
      * unfold Receiver_started, after_initTracer. cbn. rewrite <- !app_assoc. reflexivity.
      * intros [H|[H|[]]]; discriminate.
    + destruct (Receiver_main_running ext incoming w He Hr Hl)
        as (w' & E & _ & _ & _ & _ & evs & Hev & Hg & _).
      exists Running, w', ([EvExporterNew (tempo_endpoint w); EvListen ":8081"] ++ evs)%list.
      split; [exact E|]. split; [left; reflexivity|]. split.
      * rewrite Hev. unfold Receiver_started, after_initTracer. cbn.
        rewrite <- !app_assoc. reflexivity.
      * intros [H|[H|H]]; try discriminate.
        rewrite List.Forall_forall in Hg.
        destruct (Hg _ H) as [[]|(code & text & Hx)]. discriminate.
  - destruct (TracedApp_started_facts ext w) as (_ & _ & _ & _ & Hse).
    destruct (listen_err ext ":8080") as [e|] eqn:Hl.
    + eexists (Exited 1), _, [EvExporterNew (tempo_endpoint w); EvListen ":8080"].
      split; [apply TracedApp_main_listen_fails; eassumption|].
      split; [right; reflexivity|]. split.
      * cbn [events set_logs]. exact Hse.
      * intros [H|[H|[]]]; discriminate.
    + destruct (TracedApp_main_running ext incoming w He Hr Hl)
        as (w' & E & _ & _ & _ & _ & evs & Hev & Hg & _).
      exists Running, w', ([EvExporterNew (tempo_endpoint w); EvListen ":8080"] ++ evs)%list.
      split; [exact E|]. split; [left; reflexivity|]. split.
      * rewrite Hev, Hse, <- !app_assoc. reflexivity.
      * intros [H|[H|H]]; try discriminate.
        rewrite List.Forall_forall in Hg.
        destruct (Hg _ H) as [(url & Hx)|(code & text & Hx)]; discriminate.
Qed.

(** X13. When the port cannot be bound, [main] logs the error and ends the
    process with status 1. The tracer provider installed before is not shut
    down, and in the traced server the ticker of the generator has already
    been started. *)
Theorem listen_failure_is_fatal (ext : Outside) (incoming : list Incoming) (w : World)
        (err : string) :
  exporter_err ext (tempo_endpoint w) = None -> resource_err ext = None ->
  (listen_err ext ":8081" = Some err ->
   exists w',
     Receiver.main ext incoming w = (Exited 1, w') /\
     events w' = (events w ++ [EvExporterNew (tempo_endpoint w); EvListen ":8081"])%list /\
     provider w' = Some (mkTracerProvider (tempo_endpoint w) "monitoring-test-receiver" "dev") /\
     last (logs w') = Some ("수신 서버 시작 실패: " +:+ err)) /\
  (listen_err ext ":8080" = Some err ->
   (exists w',
     TracedApp.main ext incoming w = (Exited 1, w') /\
     events w' = (events w ++ [EvExporterNew (tempo_endpoint w); EvListen ":8080"])%list /\
     provider w' = Some (mkTracerProvider (tempo_endpoint w) "monitoring-test-app" "dev") /\
     ticker w' = Some 5000000000 /\
     last (logs w') = Some ("서버 시작 실패: " +:+ err)) /\
   (exists w',
     App.main ext incoming w = (Exited 1, w') /\
     events w' = (events w ++ [EvListen ":8080"])%list /\
     last (logs w') = Some ("서버 시작 실패: " +:+ err))).
Proof.
  intros He Hr. split.
  - intros Hl. eexists. split; [apply (Receiver_main_listen_fails ext incoming w err He Hr Hl)|].
    unfold Receiver_started, after_initTracer. cbn [events provider logs set_logs set_events
      set_tracer set_provider].
    split; [rewrite <- !app_assoc; reflexivity|]. split; [reflexivity|].
    apply last_snoc.
  - intros Hl. split.
    + eexists. split; [apply (TracedApp_main_listen_fails ext incoming w err He Hr Hl)|].
      destruct (TracedApp_started_facts ext w) as (Hk & Hp & _ & _ & Hse).
      cbn [events provider ticker logs set_logs].
      split; [exact Hse|]. split; [exact Hp|]. split; [exact Hk|]. apply last_snoc.
    + eexists. split; [apply (App_main_listen_fails ext incoming w err Hl)|].
      unfold App_started. cbn [events logs set_logs set_events].
      split; [reflexivity|]. apply last_snoc.
Qed.

(** X14. When [resource.New] fails, [initTracer] returns that error and
    [main] ends the process with status 1, in all three traced programs. The
    exporter had been built by then; no provider and no tracer is installed
    and nothing else is started. *)
Theorem resource_failure_is_fatal (ext : Outside) (incoming : list Incoming) (w : World)
        (err : string) :
  exporter_err ext (tempo_endpoint w) = None -> resource_err ext = Some err ->
  let w' := resource_fatal_world err w in
  (Sender.main ext incoming w = (Exited 1, w') /\
   Receiver.main ext incoming w = (Exited 1, w') /\
   TracedApp.main ext incoming w = (Exited 1, w')) /\
  events w' = (events w ++ [EvExporterNew (tempo_endpoint w)])%list /\
  provider w' = provider w /\ tracer w' = tracer w /\ ticker w' = ticker w /\
  last (logs w') = Some ("트레이서 초기화 실패: " +:+ "리소스 생성 실패: " +:+ err).
Proof.
  intros He Hr w'. split; [split; [|split]|].
  - apply Sender_main_resource_fails; assumption.
  - apply Receiver_main_resource_fails; assumption.
  - apply TracedApp_main_resource_fails; assumption.
  - unfold w', resource_fatal_world. cbn [events provider tracer ticker logs set_logs set_events].
    repeat split. apply last_snoc.
Qed.

(** X15. Whatever the AWS SDK answers (no configuration, a failing
    [DescribeInstances], or success), the traced server goes on: the ticker
    of five seconds is started, the provider is installed, the server
    listens on 8080, every request that arrives is answered once, and every
    other event is a GET of the generator. *)
Theorem traced_app_survives_aws_errors (ext : Outside) (incoming : list Incoming)
        (w : World) :
  exporter_err ext (tempo_endpoint w) = None -> resource_err ext = None ->
  listen_err ext ":8080" = None ->
  exists w' evs,
    TracedApp.main ext incoming w = (Running, w') /\
    ticker w' = Some (5 * Second) /\
    provider w' = Some (mkTracerProvider (tempo_endpoint w) "monitoring-test-app" "dev") /\
    events w' = (events w ++ [EvExporterNew (tempo_endpoint w); EvListen ":8080"]
                 ++ evs)%list /\
    Forall (fun e => is_get e \/ is_response e) evs /\
    count_responses evs = count_arrivals incoming.
Proof.
  intros He Hr Hl.
  destruct (TracedApp_main_running ext incoming w He Hr Hl)
    as (w' & E & _ & Hp & Hk & _ & evs & Hev & Hg & Hc).
  destruct (TracedApp_started_facts ext w) as (Hk' & Hp' & _ & _ & Hse).
  exists w', evs. split; [exact E|].
  split; [rewrite Hk, Hk'; reflexivity|]. split; [rewrite Hp, Hp'; reflexivity|].
  split; [rewrite Hev, Hse, <- !app_assoc; reflexivity|]. split; assumption.
Qed.

(** X16. The plain server needs no tracer: started on any state, with its
    port free, it answers every request that arrives exactly once, records
    no span and never contacts a collector. *)
Theorem app_serves_without_tracer (ext : Outside) (incoming : list Incoming) (w : World) :
  listen_err ext ":8080" = None ->
  exists w' evs,
    App.main ext incoming w = (Running, w') /\
    spans w' = spans w /\ provider w' = provider w /\
    events w' = (events w ++ [EvListen ":8080"] ++ evs)%list /\
    Forall is_response evs /\ length evs = count_arrivals incoming.
Proof.
  intros Hl.
  destruct (App_main_run ext incoming w Hl) as (w' & evs & E & H1 & H2 & _ & H4 & H5 & H6).
  exists w', evs. repeat split; assumption.
Qed.

Lemma repeat_GET_statuses (mux : ServeMux) (h : HandlerFunc) :
  mux_handler mux "/error" = otelhttp_NewHandler h "error" ->
  handler_spec h error_out (fun g => snd (rand_draw 5 g)) (fun _ => 0) ->
  forall reqs w sc, tracer w = Some sc ->
    Forall (fun r => URL_Path r = "/error") reqs ->
    repeat_GET mux reqs w = map Some (error_statuses (length reqs) (rng w)).
Proof.
  intros Hh Hspec. induction reqs as [|r rest IH]; intros w sc Ht Hf; [reflexivity|].
  inversion Hf as [|? ? Hp Hf']; subst.
  cbn [repeat_GET length error_statuses map]. rewrite Hp, Hh.
  destruct (otelhttp_NewHandler_spec h "error" _ _ _ Hspec newResponseWriter r w sc Ht)
    as (w1 & E1 & ((Hk & _) & _) & Hg & _).
  rewrite E1.
  rewrite (IH w1 sc) by (congruence || assumption). rewrite Hg. f_equal. f_equal.
  unfold error_out. destruct (Z.eqb (fst (rand_draw 5 (rng w))) 0); reflexivity.
Qed.

Lemma response_statuses_app (l1 l2 : list Event) :
  response_statuses (l1 ++ l2) = (response_statuses l1 ++ response_statuses l2)%list.
Proof.
  induction l1 as [|e l1 IH]; [reflexivity|].
  destruct e; cbn [app response_statuses]; rewrite IH; reflexivity.
Qed.

Lemma TracedApp_route_contract : route_contract TracedApp.routes.
Proof.
  intros path Hin. unfold registered in Hin. cbn [In] in Hin.
  destruct Hin as [<-|[<-|[<-|[<-|[]]]]].
  - eexists _, _, _, _, _. split; [reflexivity|]. split; [apply TracedApp_home_spec|].
    split; intros g; reflexivity.
  - eexists _, _, _, _, _. split; [reflexivity|]. split; [apply TracedApp_health_spec|].
    split; intros g; reflexivity.
  - eexists _, _, _, _, _. split; [reflexivity|]. split; [apply TracedApp_slow_spec|].
    split; intros g; reflexivity.
  - eexists _, _, _, _, _. split; [reflexivity|]. split; [apply TracedApp_error_spec|].
    split; intros g; [|reflexivity].
    unfold error_out, route_status. cbn [String.eqb Ascii.eqb Bool.eqb].
    destruct (Z.eqb (fst (rand_draw 5 g)) 0); reflexivity.
Qed.

Lemma Receiver_route_contract : route_contract Receiver.routes.
Proof.
  intros path Hin. unfold registered in Hin. cbn [In] in Hin.
  destruct Hin as [<-|[<-|[<-|[<-|[]]]]].
  - eexists _, _, _, _, _. split; [reflexivity|]. split; [apply Receiver_home_spec|].
    split; intros g; reflexivity.
  - eexists _, _, _, _, _. split; [reflexivity|]. split; [apply Receiver_health_spec|].
    split; intros g; reflexivity.
  - eexists _, _, _, _, _. split; [reflexivity|]. split; [apply Receiver_slow_spec|].
    split; intros g; reflexivity.
  - eexists _, _, _, _, _. split; [reflexivity|]. split; [apply Receiver_error_spec|].
    split; intros g; [|reflexivity].
    unfold error_out, route_status. cbn [String.eqb Ascii.eqb Bool.eqb].
    destruct (Z.eqb (fst (rand_draw 5 g)) 0); reflexivity.
Qed.

(** The statuses a listening server answers with follow from the state of
    the source when it starts to listen and from what reaches it, in order. *)
Lemma schedule_statuses {A} (mux : ServeMux) (gen : Peer -> M unit)
      (tick : rng_state -> rng_state) (tk : option Z) :
  route_contract mux ->
  (forall p w scope, tracer w = Some scope -> ticker w = tk ->
     exists w', react (Some mux) gen (Tick p) w = (Done tt, w') /\
                tracer w' = tracer w /\ ticker w' = ticker w /\ rng w' = tick (rng w) /\
                exists evs, events w' = (events w ++ evs)%list /\
                            response_statuses evs = []) ->
  forall incoming w scope,
    tracer w = Some scope -> ticker w = tk -> Forall on_route incoming ->
    exists w' evs, @schedule _ A (Some mux) gen incoming w = (Running, w') /\
                   events w' = (events w ++ evs)%list /\
                   response_statuses evs = run_statuses tick incoming (rng w).
Proof.
  intros Hroute Htick. induction incoming as [|ev rest IH]; intros w sc Ht Hk Hf.
  - exists w, []. split; [reflexivity|]. rewrite app_nil_r. split; reflexivity.
  - pose proof (List.Forall_inv Hf) as Hev. pose proof (List.Forall_inv_tail Hf) as Hf'.
    cbn [schedule]. unfold bind. destruct ev as [p|r|key value].
    + destruct (Htick p w sc Ht Hk) as (w1 & E1 & G1 & G2 & G3 & evs1 & He1 & Hs1).
      rewrite E1.
      destruct (IH w1 sc) as (w' & evs & E & He & Hs); [congruence|congruence|exact Hf'|].
      exists w', (evs1 ++ evs)%list. split; [exact E|].
      split; [rewrite He, He1, app_assoc; reflexivity|].
      rewrite response_statuses_app, Hs1, Hs, G3. reflexivity.
    + cbn [react]. cbn [on_route] in Hev.
      destruct (Hroute _ Hev) as (h & op & out & next & dmin & Hh & Hspec & Hst & Hnx).
      destruct (serve_one_route mux r w sc h op out next dmin Hh Hspec Ht)
        as (w1 & E1 & He1 & Hg1 & _ & (G1 & G2 & G3 & _) & _).
      rewrite E1.
      destruct (IH w1 sc) as (w' & evs & E & He & Hs); [congruence|congruence|exact Hf'|].
      eexists w', (_ :: evs)%list. split; [exact E|].
      split; [rewrite He, He1, <- app_assoc; reflexivity|].
      cbn [response_statuses run_statuses]. rewrite Hs, Hg1, Hst, Hnx. reflexivity.
    + cbn [react].
      destruct (IH (set_env (<[key:=value]> (env w)) w) sc Ht Hk Hf')
        as (w' & evs & E & He & Hs).
      exists w', evs. split; [exact E|]. split; [exact He|exact Hs].
Qed.

Lemma TracedApp_main_of_schedule (ext : Outside) (incoming : list Incoming) (w w' : World) :
  exporter_err ext (tempo_endpoint w) = None -> resource_err ext = None ->
  listen_err ext ":8080" = None ->
  schedule (A:=option string) (Some TracedApp.routes) TracedApp.generateDummyTraces incoming
           (TracedApp_started ext w) = (Running, w') ->
  TracedApp.main ext incoming w = (Running, w').
Proof.
  intros He Hr Hl E. unfold TracedApp.main. unfold bind at 1.
  rewrite TracedApp_initTracer_run. unfold initTracer_result. rewrite He, Hr.
  unfold defer.
  match goal with
  | |- (let (_, _) := ?body ?w0 in _) = _ =>
      assert (Hbody : body w0 = (Running, w'))
  end.
  { TracedApp_to_listen. rewrite Hl.
    unfold TracedApp_started in E. cbn zeta in E.
    destruct (aws_config_err ext); [|destruct (ec2_describe_err ext)];
      unfold bind, log_Printf, emit, ret; wp_cbn; wp_cbn in E; rewrite E; reflexivity. }
  rewrite Hbody. reflexivity.
Qed.

Lemma Receiver_main_of_schedule (ext : Outside) (incoming : list Incoming) (w w' : World) :
  exporter_err ext (tempo_endpoint w) = None -> resource_err ext = None ->
  listen_err ext ":8081" = None ->
  schedule (A:=option string) (Some Receiver.routes) (fun _ => ret tt) incoming
           (Receiver_started w) = (Running, w') ->
  Receiver.main ext incoming w = (Running, w').
Proof.
  intros He Hr Hl E. unfold Receiver.main. unfold bind at 1.
  rewrite Receiver_initTracer_run. unfold initTracer_result. rewrite He, Hr.
  unfold defer.
  match goal with
  | |- (let (_, _) := ?body ?w0 in _) = _ =>
      assert (Hbody : body w0 = (Running, w'))
  end.
  { cbn zeta. change (":" +:+ pretty 8081) with ":8081".
    change ("수신 서버가 포트 " +:+ pretty 8081 +:+ "에서 시작됩니다...")
      with "수신 서버가 포트 8081에서 시작됩니다...".
    unfold http_ListenAndServe. rewrite Hl.
    unfold bind, log_Printf, emit.
    unfold Receiver_started in E. cbn zeta in E.
    wp_cbn. wp_cbn in E. rewrite E. reflexivity. }
  rewrite Hbody. reflexivity.
Qed.

Lemma TracedApp_main_statuses (ext : Outside) (incoming : list Incoming) (w : World) :
  exporter_err ext (tempo_endpoint w) = None -> resource_err ext = None ->
  listen_err ext ":8080" = None -> Forall on_route incoming ->
  exists w' evs,
    TracedApp.main ext incoming w = (Running, w') /\
    events w' = (events w ++ [EvExporterNew (tempo_endpoint w); EvListen ":8080"]
                 ++ evs)%list /\
    response_statuses evs = run_statuses (fun g => snd (rand_draw 4 g)) incoming (rng w).
Proof.
  intros He Hr Hl Hf.
  destruct (TracedApp_started_facts ext w) as (Hk & _ & Ht & _ & Hse).
  assert (Hg : rng (TracedApp_started ext w) = rng w).
  { unfold TracedApp_started.
    destruct (aws_config_err ext); [|destruct (ec2_describe_err ext)]; reflexivity. }
  destruct (schedule_statuses (A:=option string) TracedApp.routes
              TracedApp.generateDummyTraces (fun g => snd (rand_draw 4 g))
              (Some 5000000000) TracedApp_route_contract) with
      (incoming := incoming) (w := TracedApp_started ext w) (scope := "monitoring-test-app")
    as (w' & evs & E & Hev & Hs); try assumption.
  { intros p w0 sc Ht0 Hk0. cbn [react]. rewrite Hk0.
    destruct (TracedApp_generateDummyTraces_run p w0 sc Ht0)
      as (w1 & E1 & (G1 & _ & G3 & _) & Hg1 & Hev1 & _).
    exists w1. split; [exact E1|]. split; [exact G1|]. split; [congruence|].
    split; [exact Hg1|]. eexists. split; [exact Hev1|].
    destruct (new_request_err p (app_url (rng w0))); reflexivity. }
  exists w', evs. split; [apply TracedApp_main_of_schedule; assumption|].
  split; [rewrite Hev, Hse, <- !app_assoc; reflexivity|]. rewrite Hs, Hg. reflexivity.
Qed.

Lemma Receiver_main_statuses (ext : Outside) (incoming : list Incoming) (w : World) :
  exporter_err ext (tempo_endpoint w) = None -> resource_err ext = None ->
  listen_err ext ":8081" = None -> Forall on_route incoming ->
  exists w' evs,
    Receiver.main ext incoming w = (Running, w') /\
    events w' = (events w ++ [EvExporterNew (tempo_endpoint w); EvListen ":8081"]
                 ++ evs)%list /\
    response_statuses evs = run_statuses (fun g => g) incoming (rng w).
Proof.
  intros He Hr Hl Hf.
  destruct (schedule_statuses (A:=option string) Receiver.routes (fun _ => ret tt)
              (fun g => g) (ticker (Receiver_started w)) Receiver_route_contract) with
      (incoming := incoming) (w := Receiver_started w) (scope := "monitoring-test-receiver")
    as (w' & evs & E & Hev & Hs); try assumption; try reflexivity.
  { intros p w0 sc Ht0 Hk0. exists w0. cbn [react].
    split; [destruct (ticker w0); reflexivity|]. repeat split.
    exists []. rewrite app_nil_r. split; reflexivity. }
  exists w', evs. split; [apply Receiver_main_of_schedule; assumption|].
  split; [|exact Hs].
  rewrite Hev. unfold Receiver_started, after_initTracer. cbn.
  rewrite <- !app_assoc. reflexivity.
Qed.

Lemma run_statuses_errors (tick : rng_state -> rng_state) (reqs : list Request)
      (g : rng_state) :
  Forall (fun r => URL_Path r = "/error") reqs ->
  run_statuses tick (map Arrive reqs) g = error_statuses (length reqs) g.
Proof.
  intros Hf. revert g. induction Hf as [|r rest Hp _ IH]; intros g; [reflexivity|].
  cbn [map run_statuses length error_statuses]. rewrite Hp, IH. reflexivity.
Qed.

(** C5, as the code has it. The outcome of a call of [/error] is fixed by
    the state of the process-wide source at that call, so [n] calls in a row
    yield a sequence that is a function of the state at the first of them,
    whatever the requests, the clock and the environment are. That state is
    set by [init] from the clock, and every other draw moves it: in a whole
    run, with the requests on the registered paths served one at a time, the
    statuses follow from the state at start-up and from the order in which
    requests and rounds of the generator come, a round of the generator of
    the traced server taking one draw of [rand.Intn(4)] from the same
    source. A round in front of the requests therefore yields the sequence
    of the state one such draw later. *)
Theorem error_sequence_fixed_by_draws :
  (forall mux reqs w scope,
      In mux traced_muxes -> tracer w = Some scope ->
      Forall (fun r => URL_Path r = "/error") reqs ->
      repeat_GET mux reqs w = map Some (error_statuses (length reqs) (rng w))) /\
  (forall w, exists w1 w2,
      TracedApp.init w = (Done tt, w1) /\ rng w1 = rand_Seed (wrap64 (now w1)) /\
      Receiver.init w = (Done tt, w2) /\ rng w2 = rand_Seed (wrap64 (now w2))) /\
  (forall ext incoming w,
      exporter_err ext (tempo_endpoint w) = None -> resource_err ext = None ->
      Forall on_route incoming ->
      (listen_err ext ":8080" = None ->
       exists w' evs,
         TracedApp.main ext incoming w = (Running, w') /\
         events w' = (events w ++ [EvExporterNew (tempo_endpoint w); EvListen ":8080"]
                      ++ evs)%list /\
         response_statuses evs
         = run_statuses (fun g => snd (rand_draw 4 g)) incoming (rng w)) /\
      (listen_err ext ":8081" = None ->
       exists w' evs,
         Receiver.main ext incoming w = (Running, w') /\
         events w' = (events w ++ [EvExporterNew (tempo_endpoint w); EvListen ":8081"]
                      ++ evs)%list /\
         response_statuses evs = run_statuses (fun g => g) incoming (rng w))) /\
  (forall tick p reqs g,
      Forall (fun r => URL_Path r = "/error") reqs ->
      run_statuses tick (map Arrive reqs) g = error_statuses (length reqs) g /\
      run_statuses tick (Tick p :: map Arrive reqs) g
      = error_statuses (length reqs) (tick g)).
Proof.
  split; [|split; [|split]].
  - intros mux reqs w sc Hin Ht Hf. unfold traced_muxes in Hin. cbn [In] in Hin.
    destruct Hin as [<-|[<-|[]]].
    + exact (repeat_GET_statuses TracedApp.routes TracedApp.errorHandler eq_refl
               TracedApp_error_spec reqs w sc Ht Hf).
    + exact (repeat_GET_statuses Receiver.routes Receiver.errorHandler eq_refl
               Receiver_error_spec reqs w sc Ht Hf).
  - intros w. eexists _, _. repeat split.
  - intros ext incoming w He Hr Hf. split; intros Hl.
    + exact (TracedApp_main_statuses ext incoming w He Hr Hl Hf).
    + exact (Receiver_main_statuses ext incoming w He Hr Hl Hf).
  - intros tick p reqs g Hf. split.
    + exact (run_statuses_errors tick reqs g Hf).
    + cbn [run_statuses]. exact (run_statuses_errors tick reqs (tick g) Hf).
Qed.

End Handlers.

(** C1, counterexample. The sender is started with [RECEIVER_ENDPOINT] set
    to one address; the variable is changed between two ticks; the second
    tick sends its request to the new address, not to the one in force at
    start-up. *)
Lemma receiver_endpoint_follows_environment :
  let w0 := set_env old_receiver (cold_world [0; 0]) in
  receiver_base w0 = "http://old:8081" /\
  events (snd (Sender.main (R:=ScriptedSource) quiet
                 [Tick up; Setenv "RECEIVER_ENDPOINT" "http://new:9000"; Tick up] w0))
  = [EvExporterNew "tempo:4317"; EvGet "http://old:8081/"; EvGet "http://new:9000/"].
Proof. vm_compute. split; reflexivity. Qed.

(** C2, counterexample. One [GET /health] served by the receiver: one
    completed invocation, one response, and two spans recorded. *)
Lemma served_request_records_two_spans :
  let run := Receiver.main (R:=ScriptedSource) quiet [Arrive (GET "/health")] (cold_world []) in
  fst run = Running /\
  events (snd run)
  = [EvExporterNew "tempo:4317"; EvListen ":8081";
     EvResponse 200 ("수신 서버: 상태: 정상" +:+ LF)] /\
  map span_name (spans (snd run)) = ["health-handler"; "health"].
Proof. vm_compute. repeat split; reflexivity. Qed.

(** C5, counterexample. Two runs of the traced server whose [init] reads the
    same clock, so that the seed is the same, and which receive the same ten
    [GET /error]. In the second, one round of the generator comes before
    them: it draws a path, here [/health], and its request reaches the
    server. The ten outcomes differ: the 500 comes one request earlier. *)
Lemma tick_shifts_error_sequence :
  let ten := replicate 10 (Arrive (GET "/error")) in
  let run incoming :=
    snd (bind (TracedApp.init (R:=LcgSource)) (fun _ => TracedApp.main quiet incoming)
              (booting 1700000000000000002)) in
  response_statuses (events (run ten))
  = [200; 200; 200; 200; 200; 200; 200; 500; 200; 200] /\
  In (EvGet "http://localhost:8080/health")
     (events (run (Tick up :: Arrive (GET "/health") :: ten))) /\
  response_statuses (events (run (Tick up :: Arrive (GET "/health") :: ten)))
  = 200 :: [200; 200; 200; 200; 200; 200; 500; 200; 200; 200].
Proof.
  vm_compute. split; [reflexivity|]. split; [|reflexivity].
  right. right. left. reflexivity.
Qed.

(** C1 at a run in which [TEMPO_ENDPOINT] is changed after start-up. *)
Lemma endpoints_read_when_used_witness :
  exists w',
    Sender.main (R:=ScriptedSource) quiet
      [Tick up; Setenv "TEMPO_ENDPOINT" "elsewhere:4317"; Tick down]
      (cold_world [0; 1]) = (Running, w') /\
    provider w' = Some (mkTracerProvider "tempo:4317" "monitoring-test-sender" "dev").
Proof.
  exact (proj1 (endpoints_read_when_used (R:=ScriptedSource) quiet
                  [Tick up; Setenv "TEMPO_ENDPOINT" "elsewhere:4317"; Tick down]
                  (cold_world [0; 1]) eq_refl eq_refl)).
Defined.

(** C2 at one [GET /slow] on the receiver. *)
Lemma handler_span_and_middleware_span_witness :
  exists w' s1 s2,
    serve_one (R:=ScriptedSource) Receiver.routes (GET "/slow") (warm_world [5]) = (Done tt, w') /\
    spans w' = [s1; s2] /\
    span_start s1 <= span_end s1 /\ span_start s2 <= span_end s2.
Proof.
  exact (proj1 (proj2 (handler_span_and_middleware_span (R:=ScriptedSource)))
           Receiver.routes (GET "/slow") (warm_world [5]) _ _
           (or_intror (or_introl eq_refl))
           (or_intror (or_intror (or_introl eq_refl))) eq_refl eq_refl).
Defined.

(** C3 at a draw of 5: the reported delay is 105 ms. *)
Lemma slow_sleeps_reported_delay_witness :
  exists w',
    serve_one (R:=ScriptedSource) Receiver.routes (POST "/slow") (warm_world [1905]) = (Done tt, w') /\
    events w' = [EvResponse 200 ("느린 응답 완료! 지연 시간: 105 ms" +:+ LF)] /\
    1000 + 105 * Millisecond <= now w'.
Proof.
  exact (proj1 (proj2 (proj2 (slow_sleeps_reported_delay (R:=ScriptedSource)
                                (POST "/slow") (warm_world [1905]) _ eq_refl eq_refl)))).
Defined.

(** C4 at a draw of 0: the response is 500. *)
Lemma error_one_in_five_witness :
  exists w',
    serve_one (R:=ScriptedSource) TracedApp.routes (GET "/error") (warm_world [10; 3]) = (Done tt, w') /\
    events w' = [EvResponse 500 ("내부 서버 오류가 발생했습니다!" +:+ LF)] /\
    rng w' = [3].
Proof.
  exact (proj1 (proj2 (error_one_in_five (R:=ScriptedSource)
                         (GET "/error") (warm_world [10; 3]) _ eq_refl eq_refl))).
Defined.

(** C5 at a run of the traced server in which a round of the generator comes
    before two requests to [/error]. *)
Lemma error_sequence_fixed_by_draws_witness :
  exists w' evs,
    TracedApp.main (R:=ScriptedSource) quiet
      [Tick down; Arrive (GET "/error"); Arrive (POST "/error")] (cold_world [3; 0; 1])
    = (Running, w') /\
    events w' = ([EvExporterNew "tempo:4317"; EvListen ":8080"] ++ evs)%list /\
    response_statuses evs = [500; 200].
Proof.
  exact (proj1 (proj1 (proj2 (proj2 (error_sequence_fixed_by_draws (R:=ScriptedSource))))
                  quiet [Tick down; Arrive (GET "/error"); Arrive (POST "/error")]
                  (cold_world [3; 0; 1]) eq_refl eq_refl
                  ltac:(repeat (apply List.Forall_cons; [cbn; auto 10|]);
                        apply List.Forall_nil))
           eq_refl).
Defined.

(** C6 at a receiver whose collector refuses the connection. *)
Lemma exporter_failure_is_fatal_witness :
  Receiver.main (R:=ScriptedSource) no_collector [Arrive (GET "/")] (cold_world [])
  = (Exited 1, fatal_world "connection refused" (cold_world [])).
Proof.
  exact (proj1 (proj2 (proj1 (proj2 (exporter_failure_is_fatal (R:=ScriptedSource)
                                       no_collector [Arrive (GET "/")] (cold_world [])
                                       "connection refused" eq_refl))))).
Defined.

(** C7 at three ticks, two of them against a peer that is down. *)
Lemma generator_ticks_forever_witness :
  exists w',
    Sender.main (R:=ScriptedSource) quiet [Tick down; Tick up; Tick down] (cold_world [1; 0; 1])
    = (Running, w') /\
    ticker w' = Some (5 * Second) /\
    count_spans "periodic-dummy-request" (spans w') = 3%nat.
Proof.
  exact (proj1 (generator_ticks_forever (R:=ScriptedSource) quiet
                  [Tick down; Tick up; Tick down] (cold_world [1; 0; 1]) eq_refl eq_refl)).
Defined.

(** C8 at a [POST /health] with a body, on a plain server that has just
    been started. *)
Lemma health_always_200_witness :
  exists w',
    serve_one (R:=ScriptedSource) App.routes (POST "/health") (cold_world []) = (Done tt, w') /\
    events w' = [EvResponse 200 ("상태: 정상" +:+ LF)].
Proof.
  exact (proj1 (health_always_200 (R:=ScriptedSource) (POST "/health") (cold_world [])
                  eq_refl)).
Defined.

(** C9 at two ticks. *)
Lemma sender_main_never_returns_witness :
  exists w' evs,
    Sender.main (R:=ScriptedSource) quiet [Tick up; Tick up] (cold_world [0; 1]) = (Running, w') /\
    events w' = ([EvExporterNew "tempo:4317"] ++ evs)%list /\
    ~ In EvShutdown ([EvExporterNew "tempo:4317"] ++ evs) /\
    ticker w' = Some 5000000000.
Proof.
  exact (sender_main_never_returns (R:=ScriptedSource) quiet [Tick up; Tick up]
           (cold_world [0; 1]) eq_refl eq_refl).
Defined.

(** C10 at [/error] with a draw of 0. *)
Lemma tracing_keeps_responses_witness :
  exists rw' w1' w2',
    App.errorHandler (R:=ScriptedSource) newResponseWriter (GET "/error") (cold_world [5])
    = (Done rw', w1') /\
    TracedApp.errorHandler (R:=ScriptedSource) newResponseWriter (GET "/error") (warm_world [5])
    = (Done rw', w2') /\
    rng w1' = rng w2' /\ spans w1' = [].
Proof.
  exact (proj2 (proj2 (proj2 (tracing_keeps_responses (R:=ScriptedSource) newResponseWriter
                                (GET "/error") (cold_world [5]) (warm_world [5]) _
                                eq_refl eq_refl)))).
Defined.


(** X1 at a [POST /] on a plain server that has just been started. *)
Lemma home_greets_witness :
  exists w',
    serve_one (R:=ScriptedSource) App.routes (POST "/") (cold_world [7]) = (Done tt, w') /\
    rng w' = [7] /\
    events w' = [EvResponse 200 ("Hello, World! 모니터링 테스트 서버입니다." +:+ LF)].
Proof.
  exact (proj1 (home_greets (R:=ScriptedSource) (POST "/") (cold_world [7]) eq_refl
                  ltac:(discriminate))).
Defined.

(** X2 at a draw of 5. *)
Lemma slow_span_records_delay_witness :
  exists w' t0 t1,
    Receiver.slowResponseHandler (R:=ScriptedSource) newResponseWriter (GET "/slow")
      (warm_world [5])
    = (Done (Fprintf ("느린 응답 완료! 지연 시간: 105 ms" +:+ LF) newResponseWriter), w') /\
    spans w' = [mkSpan "slow-handler" "monitoring-test-receiver" t0 t1
                       [("delay_ms", AttrInt 105)]] /\
    t0 + 105 * Millisecond <= t1.
Proof.
  exact (proj2 (slow_span_records_delay (R:=ScriptedSource) newResponseWriter (GET "/slow")
                  (warm_world [5]) _ eq_refl)).
Defined.

(** X3 at a draw of 0. *)
Lemma error_span_flags_failure_witness :
  exists rw' w' t0 t1,
    Receiver.errorHandler (R:=ScriptedSource) newResponseWriter (GET "/error") (warm_world [10])
    = (Done rw', w') /\
    fst (response rw') = 500 /\
    spans w' = [mkSpan "error-handler" "monitoring-test-receiver" t0 t1
                       [("error", AttrString "true")]] /\
    logs w' = ["에러 발생 요청: GET /error"; "500 에러 발생"].
Proof.
  exact (proj2 (error_span_flags_failure (R:=ScriptedSource) (GET "/error") (warm_world [10])
                  _ eq_refl)).
Defined.

(** X4 at a [POST /] on the receiver. *)
Lemma home_span_records_method_witness :
  exists rw' w' t0 t1,
    Receiver.homeHandler (R:=ScriptedSource) newResponseWriter (POST "/") (warm_world [])
    = (Done rw', w') /\
    spans w' = [mkSpan "home-handler" "monitoring-test-receiver" t0 t1
                       [("http.method", AttrString "POST")]] /\
    logs w' = ["수신: 홈페이지 요청: POST /"].
Proof.
  exact (proj1 (proj2 (home_span_records_method (R:=ScriptedSource) newResponseWriter
                         (POST "/") (warm_world []) _ eq_refl))).
Defined.

(** X5 at [GET /error] on the receiver. *)
Lemma middleware_span_encloses_handler_span_witness :
  exists w' s1 s2,
    serve_one (R:=ScriptedSource) Receiver.routes (GET "/error") (warm_world [1])
    = (Done tt, w') /\
    spans w' = [s1; s2] /\
    span_name s1 = "error-handler" /\ span_scope s1 = "monitoring-test-receiver" /\
    span_name s2 = "error" /\ span_scope s2 = otelhttp_scope /\
    span_start s2 <= span_start s1 /\ span_end s1 <= span_end s2.
Proof.
  exact (middleware_span_encloses_handler_span (R:=ScriptedSource) Receiver.routes
           "/error" "error" "error-handler" (GET "/error") (warm_world [1]) _ _
           (or_intror (or_introl eq_refl))
           (or_intror (or_intror (or_intror (or_introl eq_refl))))
           eq_refl eq_refl eq_refl).
Defined.

(** X6 at a [GET /health] in front of three requests to [/error]. *)
Lemma quiet_routes_keep_sequence_witness :
  repeat_GET (R:=ScriptedSource) Receiver.routes
             (GET "/health" :: replicate 3 (GET "/error")) (warm_world [0; 1; 2])
  = Some 200 :: repeat_GET (R:=ScriptedSource) Receiver.routes
                           (replicate 3 (GET "/error")) (warm_world [0; 1; 2]).
Proof.
  exact (proj2 (quiet_routes_keep_sequence (R:=ScriptedSource) (GET "/health")
                  (replicate 3 (GET "/error")) (warm_world [0; 1; 2]) _
                  (or_intror eq_refl) eq_refl ltac:(repeat constructor))).
Defined.

(** X7 at a tick against a peer that is down, with [RECEIVER_ENDPOINT]
    missing. *)
Lemma sender_tick_logs_witness :
  exists w1,
    Sender.generateDummyTraces (R:=ScriptedSource) down
      (started_world "monitoring-test-sender" [1]) = (Done tt, w1) /\
    logs w1
    = ["RECEIVER_ENDPOINT 환경 변수가 설정되지 않았습니다. 기본값 http://localhost:8081을 사용합니다.";
       "더미 요청 실패: connection refused"].
Proof.
  destruct (sender_tick_logs (R:=ScriptedSource) down
              (started_world "monitoring-test-sender" [1]) _ eq_refl) as (w1 & E & H & _).
  exists w1. split; [exact E|exact (H eq_refl)].
Defined.

(** X8 at an address without a scheme. *)
Lemma unbuilt_request_sends_nothing_witness :
  exists w1 t0 t1,
    Sender.generateDummyTraces (R:=ScriptedSource) strict
      (set_env no_scheme (started_world "monitoring-test-sender" [0])) = (Done tt, w1) /\
    events w1 = [] /\
    spans w1 = [mkSpan "periodic-dummy-request" "monitoring-test-sender" t0 t1 []].
Proof.
  exact (unbuilt_request_sends_nothing (R:=ScriptedSource) strict
           (set_env no_scheme (started_world "monitoring-test-sender" [0])) _
           "missing protocol scheme" eq_refl eq_refl).
Defined.


(** X10 at a draw of 3, with [RECEIVER_ENDPOINT] set. *)
Lemma traced_app_tick_targets_own_port_witness :
  exists w2,
    TracedApp.generateDummyTraces (R:=ScriptedSource) up
      (set_env old_receiver (started_world "monitoring-test-app" [3])) = (Done tt, w2) /\
    events w2 = [EvGet "http://localhost:8080/error"].
Proof.
  exact (proj2 (proj2 (proj2 (traced_app_tick_targets_own_port (R:=ScriptedSource) up
                                (started_world "monitoring-test-app" [3]) _ old_receiver
                                eq_refl)))).
Defined.

(** X11 at two requests. *)
Lemma receiver_answers_every_request_witness :
  exists w' evs,
    Receiver.main (R:=ScriptedSource) quiet [Arrive (GET "/"); Arrive (GET "/error")]
      (cold_world [0]) = (Running, w') /\
    events w' = ([EvExporterNew "tempo:4317"; EvListen ":8081"] ++ evs)%list /\
    Forall is_response evs /\ length evs = 2%nat /\
    spans_grow (cold_world [0]) w'.
Proof.
  exact (receiver_answers_every_request (R:=ScriptedSource) quiet
           [Arrive (GET "/"); Arrive (GET "/error")] (cold_world [0])
           eq_refl eq_refl eq_refl).
Defined.

(** X12 at the traced server with one tick and one request. *)
Lemma shutdown_never_runs_witness :
  exists res w' evs,
    TracedApp.main (R:=ScriptedSource) quiet [Tick up; Arrive (GET "/")] (cold_world [0])
    = (res, w') /\
    (res = Running \/ res = Exited 1) /\
    events w' = evs /\ ~ In EvShutdown evs.
Proof.
  exact (shutdown_never_runs (R:=ScriptedSource) TracedApp.main quiet
           [Tick up; Arrive (GET "/")] (cold_world [0])
           (or_intror (or_intror (or_introl eq_refl)))).
Defined.

(** X13 at the traced server whose port is taken. *)
Lemma listen_failure_is_fatal_witness :
  exists w',
    TracedApp.main (R:=ScriptedSource) port_taken [Tick up] (cold_world []) = (Exited 1, w') /\
    events w' = [EvExporterNew "tempo:4317"; EvListen ":8080"] /\
    provider w' = Some (mkTracerProvider "tempo:4317" "monitoring-test-app" "dev") /\
    ticker w' = Some 5000000000 /\
    last (logs w') = Some "서버 시작 실패: address already in use".
Proof.
  exact (proj1 (proj2 (listen_failure_is_fatal (R:=ScriptedSource) port_taken [Tick up]
                         (cold_world []) "address already in use" eq_refl eq_refl)
                 eq_refl)).
Defined.

(** X14 at the sender. *)
Lemma resource_failure_is_fatal_witness :
  Sender.main (R:=ScriptedSource) no_resource [Tick up] (cold_world [0])
  = (Exited 1, resource_fatal_world "conflicting Schema URL" (cold_world [0])).
Proof.
  exact (proj1 (proj1 (resource_failure_is_fatal (R:=ScriptedSource) no_resource [Tick up]
                         (cold_world [0]) "conflicting Schema URL" eq_refl eq_refl))).
Defined.

(** X15 at a traced server that finds no AWS configuration. *)
Lemma traced_app_survives_aws_errors_witness :
  exists w' evs,
    TracedApp.main (R:=ScriptedSource) no_aws [Arrive (GET "/health"); Tick up]
      (cold_world [2]) = (Running, w') /\
    ticker w' = Some (5 * Second) /\
    provider w' = Some (mkTracerProvider "tempo:4317" "monitoring-test-app" "dev") /\
    events w' = ([EvExporterNew "tempo:4317"; EvListen ":8080"] ++ evs)%list /\
    Forall (fun e => is_get e \/ is_response e) evs /\
    count_responses evs = 1%nat.
Proof.
  exact (traced_app_survives_aws_errors (R:=ScriptedSource) no_aws
           [Arrive (GET "/health"); Tick up] (cold_world [2]) eq_refl eq_refl eq_refl).
Defined.

(** X16 at one [GET /slow]. *)
Lemma app_serves_without_tracer_witness :
  exists w' evs,
    App.main (R:=ScriptedSource) quiet [Arrive (GET "/slow")] (cold_world [5]) = (Running, w') /\
    spans w' = [] /\ provider w' = None /\
    events w' = ([EvListen ":8080"] ++ evs)%list /\
    Forall is_response evs /\ length evs = 1%nat.
Proof.
  exact (app_serves_without_tracer (R:=ScriptedSource) quiet [Arrive (GET "/slow")]
           (cold_world [5]) eq_refl).
Defined.

End Spec.
